(** * UnpackORM: channel unpacking of packed ORM/MRA/RMA textures

    A shallow embedding of [UnpackORM.py] and the properties of its core:
    the image normaliser [load_image_rgb_or_rgba], the preset registry
    [PRESETS], the channel unpacker [unpack_orm] with its helpers
    [channel_by_letter], [maybe_invert] and [save_grayscale], and the batch
    traversal of [iter_images_in_folder] and [run_cli].

    Python strings are [string]s (bytes), pixel samples are [Z], the file
    system is an explicit state threaded through a state-and-exception
    monad in which the effects made before an exception stay in place.
    The batch loops are given twice: over a listing taken beforehand, and
    over the file system itself, whose directories [os.walk] lists when it
    reaches them, so that what a batch writes can be listed later on. *)

From Stdlib Require Import ZArith Ascii.
From stdpp Require Import gmap strings list fin_maps.

Local Open Scope Z_scope.

(* ===================================================================== *)
(** ** Python strings: slicing, [rfind], [lower], [startswith]           *)
(* ===================================================================== *)

Module PyStr.

(** [s[n:]] *)
Fixpoint drop (n : nat) (s : string) : string :=
  match n, s with
  | O, _ => s
  | S _, EmptyString => EmptyString
  | S n', String _ t => drop n' t
  end.

(** [s[:n]] *)
Fixpoint take (n : nat) (s : string) : string :=
  match n, s with
  | O, _ => EmptyString
  | S _, EmptyString => EmptyString
  | S n', String c t => String c (take n' t)
  end.

(** [s[i:j]] for indices that are not negative. *)
Definition slice (i j : Z) (s : string) : string :=
  take (Z.to_nat j - Z.to_nat i) (drop (Z.to_nat i) s).

(** [s.rfind(c)] for a one-character [c]: the highest index of [c] in
    [s], or [-1]. *)
Fixpoint rfind (c : ascii) (s : string) : Z :=
  match s with
  | EmptyString => -1
  | String x t =>
      let r := rfind c t in
      if 0 <=? r then r + 1 else if Ascii.eqb x c then 0 else -1
  end.

(** [s.startswith(c)] and [s.endswith(c)] for a one-character [c]. *)
Definition startswith (c : ascii) (s : string) : bool :=
  match s with
  | String x _ => Ascii.eqb x c
  | EmptyString => false
  end.

Fixpoint endswith (c : ascii) (s : string) : bool :=
  match s with
  | EmptyString => false
  | String x EmptyString => Ascii.eqb x c
  | String _ t => endswith c t
  end.

(** [s.rstrip(c)] for a one-character [c]. *)
Fixpoint rstrip (c : ascii) (s : string) : string :=
  match s with
  | EmptyString => EmptyString
  | String x t =>
      match rstrip c t with
      | EmptyString => if Ascii.eqb x c then EmptyString else String x EmptyString
      | t' => String x t'
      end
  end.

(** [c in s] for a one-character [c]. *)
Fixpoint contains (c : ascii) (s : string) : bool :=
  match s with
  | EmptyString => false
  | String x t => Ascii.eqb x c || contains c t
  end.

(** [s == c * len(s)]: every character of [s] is [c]. *)
Fixpoint all_are (c : ascii) (s : string) : bool :=
  match s with
  | EmptyString => true
  | String x t => Ascii.eqb x c && all_are c t
  end.

(** [str.lower] on one byte: the 26 ASCII capitals move down, every
    other byte stays. *)
Definition lower_ascii (c : ascii) : ascii :=
  let n := nat_of_ascii c in
  if ((65 <=? n) && (n <=? 90))%nat then ascii_of_nat (n + 32) else c.

Fixpoint lower (s : string) : string :=
  match s with
  | EmptyString => EmptyString
  | String c t => String (lower_ascii c) (lower t)
  end.

End PyStr.

(* ===================================================================== *)
(** ** [os.path] (posixpath)                                             *)
(* ===================================================================== *)

Module os_path.
Import PyStr.

Definition sep : ascii := "/"%char.
Definition extsep : ascii := "."%char.

(** [i = p.rfind(sep) + 1; return p[i:]] *)
Definition basename (p : string) : string :=
  drop (Z.to_nat (rfind sep p + 1)) p.

(** [i = p.rfind(sep) + 1; head = p[:i];
     if head and head != sep*len(head): head = head.rstrip(sep)] *)
Definition dirname (p : string) : string :=
  let head := take (Z.to_nat (rfind sep p + 1)) p in
  if negb (String.eqb head "") && negb (all_are sep head)
  then rstrip sep head else head.

(** [genericpath._splitext]: split at the last dot after the last
    separator, unless the name before that dot consists of dots only. *)
Definition splitext (p : string) : string * string :=
  let sepIndex := rfind sep p in
  let dotIndex := rfind extsep p in
  if (sepIndex <? dotIndex)
     && negb (all_are extsep (slice (sepIndex + 1) dotIndex p))
  then (take (Z.to_nat dotIndex) p, drop (Z.to_nat dotIndex) p)
  else (p, "").

(** [os.path.join(a, b)] *)
Definition join (a b : string) : string :=
  if startswith sep b then b
  else if String.eqb a "" || endswith sep a then a +:+ b
  else a +:+ String sep b.

End os_path.

(* ===================================================================== *)
(** ** Pillow images                                                     *)
(* ===================================================================== *)

(** An image: its mode string, its size and the samples of each band. *)
Record Image : Type := mkImage {
  mode : string;
  size : nat * nat;
  bands : list (list Z)
}.

Global Instance Image_eq_dec : EqDecision Image.
Proof. solve_decision. Defined.

Definition pixels (im : Image) : nat := (fst (size im) * snd (size im))%nat.

(** Number of bands of the standard modes ([Image.getbands]). *)
Definition mode_bands (m : string) : option nat :=
  if bool_decide (m ∈ ["1"; "L"; "P"; "I"; "F"; "I;16"]) then Some 1%nat
  else if bool_decide (m ∈ ["LA"; "PA"; "La"]) then Some 2%nat
  else if bool_decide (m ∈ ["RGB"; "YCbCr"; "LAB"; "HSV"]) then Some 3%nat
  else if bool_decide (m ∈ ["RGBA"; "CMYK"; "RGBX"; "RGBa"]) then Some 4%nat
  else None.

(** Modes whose bands hold one byte per sample. *)
Definition eight_bit (m : string) : bool :=
  bool_decide (m ∈ ["L"; "P"; "LA"; "PA"; "La"; "RGB"; "YCbCr"; "LAB"; "HSV";
                    "RGBA"; "CMYK"; "RGBX"; "RGBa"]).

Definition is_u8 (v : Z) : bool := (0 <=? v) && (v <? 256).

(** The invariant Pillow keeps on an image: as many bands as the mode
    says, one sample per pixel in each, bytes in the 8-bit modes. *)
Definition wf_image (im : Image) : bool :=
  match mode_bands (mode im) with
  | Some n => Nat.eqb (length (bands im)) n
  | None => true
  end
  && forallb (fun b => Nat.eqb (length b) (pixels im)) (bands im)
  && (if eight_bit (mode im) then forallb (forallb is_u8) (bands im) else true).

(** The operations of Pillow that the program calls and that depend on
    Pillow's codecs and conversion tables, with the contract the program
    relies on. *)
Class Pillow : Type := {
  (** [im.convert(m)] *)
  convert : Image → string → Image;
  (** Pillow's extension registry [Image.EXTENSION]. *)
  format_of_ext : string → option string;
  (** What decoding gives back after the writer of a format stored an
      image. *)
  reread : string → Image → Image;
  (** the program asks for the modes "RGBA", "RGB" and "L" only *)
  convert_mode : ∀ im m, m ∈ ["RGBA"; "RGB"; "L"] → mode (convert im m) = m;
  convert_wf : ∀ im m, m ∈ ["RGBA"; "RGB"; "L"] → wf_image (convert im m) = true;
  ext_png : format_of_ext ".png" = Some "PNG";
  (** PNG is lossless; the program only ever writes mode "L". *)
  reread_png : ∀ im, mode im = "L" → reread "PNG" im = im
}.

(** [im.split()]: a one-band image is returned as it is, the bands of a
    multi-band image become images of mode "L". *)
Definition split (im : Image) : list Image :=
  match bands im with
  | [_] => [im]
  | bs => map (fun b => mkImage "L" (size im) [b]) bs
  end.

(** The 8-bit clipping of a lookup table entry. *)
Definition clip8 (v : Z) : Z := Z.max 0 (Z.min 255 v).

(** [Image.eval(im, f)], that is [im.point(f)]: in the 8-bit modes the
    table [f(0..255)], its entries stored as bytes, is applied to every
    sample; in the other modes ("I", "F", ...) [f] itself is applied to
    the sample and nothing is clipped. *)
Definition Image_eval (im : Image) (f : Z → Z) : Image :=
  mkImage (mode im) (size im)
          (map (map (fun v => if eight_bit (mode im) then clip8 (f v) else f v))
               (bands im)).

(* ===================================================================== *)
(** ** Exceptions, the file system and the monad of effects              *)
(* ===================================================================== *)

(** The system call an [OSError] comes from and its [errno]. *)
Inductive syscall : Type := sys_mkdir | sys_open_read | sys_open_write.
Inductive errno : Type := ENOENT | ENOTDIR | EEXIST | EISDIR.

Inductive exn : Type :=
  | ValueError (msg : string)
  | KeyError (key : string)
  | OSError (call : syscall) (code : errno) (path : string)
  | UnidentifiedImageError (path : string).

Inductive outcome (A : Type) : Type :=
  | Ok (a : A)
  | Raise (e : exn).
Arguments Ok {A} a.
Arguments Raise {A} e.

(** What a regular file holds: bytes no decoder accepts, or a picture in
    some container format, given by the image it decodes to. *)
Inductive FileData : Type :=
  | Blob
  | Picture (fmt : string) (decoded : Image).

(** The file system: the directories and the regular files, by path as
    spelled. *)
Record FS : Type := mkFS {
  dirs : gset string;
  files : gmap string FileData
}.

(** A computation with effects on the file system; what was done before
    an exception is kept. *)
Definition M (A : Type) : Type := FS → FS * outcome A.

Definition ret {A} (a : A) : M A := fun fs => (fs, Ok a).
Definition raise {A} (e : exn) : M A := fun fs => (fs, Raise e).
Definition bind {A B} (c : M A) (k : A → M B) : M B :=
  fun fs =>
    match c fs with
    | (fs', Ok a) => k a fs'
    | (fs', Raise e) => (fs', Raise e)
    end.
Definition lift {A} (o : outcome A) : M A := fun fs => (fs, o).

Notation "x <~ c ;; k" := (bind c (fun x => k))
  (at level 100, c at next level, right associativity).
Notation "c ;;; k" := (bind c (fun _ => k))
  (at level 100, right associativity).

(* ===================================================================== *)
(** ** [os] and [PIL.Image] calls that touch the file system            *)
(* ===================================================================== *)

Section Effects.
Context `{Pillow}.
Import PyStr.

Definition isdir (fs : FS) (p : string) : bool := bool_decide (p ∈ dirs fs).
Definition isfile (fs : FS) (p : string) : bool :=
  bool_decide (is_Some (files fs !! p)).

(** [os.path.exists(p)] *)
Definition path_exists (p : string) : M bool :=
  fun fs => (fs, Ok (isdir fs p || isfile fs p)).

(** The proper prefixes of a path that end before a separator: the
    intermediate directories of [os.makedirs]. *)
Fixpoint prefixes_at_sep (pre s : string) : list string :=
  match s with
  | EmptyString => []
  | String c t =>
      (if Ascii.eqb c os_path.sep && negb (String.eqb pre "")
       then [pre] else [])
      ++ prefixes_at_sep (pre +:+ String c "") t
  end.
Definition ancestors (p : string) : list string := prefixes_at_sep "" p.

(** [os.makedirs(p, exist_ok=True)]: the directory and the missing ones
    above it are created; an empty path, a regular file in the way or a
    regular file at [p] is an error. *)
Definition makedirs (p : string) : M unit :=
  fun fs =>
    if String.eqb p "" then (fs, Raise (OSError sys_mkdir ENOENT p))
    else if existsb (isfile fs) (ancestors p)
    then (fs, Raise (OSError sys_mkdir ENOTDIR p))
    else if isfile fs p then (fs, Raise (OSError sys_mkdir EEXIST p))
    else (mkFS (dirs fs ∪ list_to_set (ancestors p) ∪ {[p]}) (files fs),
          Ok tt).

(** [Image.open(path)]: the file is identified by its header, and the
    pixel data is read when it is first used. A [Picture] stands for a
    file whose data decodes, so that the image returned carries its
    samples already and no later use of them fails; the errors are those
    of the call of [Image.open] itself: no such file, a directory, or
    bytes no decoder identifies. A file with a valid header and damaged
    data is not represented. *)
Definition Image_open (path : string) : M Image :=
  fun fs =>
    if isdir fs path then (fs, Raise (OSError sys_open_read EISDIR path))
    else match files fs !! path with
         | None => (fs, Raise (OSError sys_open_read ENOENT path))
         | Some Blob => (fs, Raise (UnidentifiedImageError path))
         | Some (Picture _ im) => (fs, Ok im)
         end.

(** [open(path, "w+b")] can create the file: the directory it goes in
    exists (the empty directory name is the working directory) and the
    path is not a directory. *)
Definition parent_ok (fs : FS) (path : string) : bool :=
  String.eqb (os_path.dirname path) "" || isdir fs (os_path.dirname path).

(** [im.save(path)]: the format comes from the lower-cased extension.
    The failure of [open] for want of the directory is given the one
    code [ENOENT]; the system's [ENOTDIR], when a regular file stands
    where the directory should be, is not told apart from it. *)
Definition Image_save (im : Image) (path : string) : M unit :=
  fun fs =>
    let ext := lower (snd (os_path.splitext path)) in
    match format_of_ext ext with
    | None => (fs, Raise (ValueError ("unknown file extension: " +:+ ext)))
    | Some fmt =>
        if isdir fs path
        then (fs, Raise (OSError sys_open_write EISDIR path))
        else if negb (parent_ok fs path)
        then (fs, Raise (OSError sys_open_write ENOENT path))
        else (mkFS (dirs fs)
                   (<[path := Picture fmt (reread fmt im)]> (files fs)),
              Ok tt)
    end.

End Effects.

(* ===================================================================== *)
(** ** The program                                                       *)
(* ===================================================================== *)

Definition SUPPORTED_EXTS : list string :=
  [".png"; ".jpg"; ".jpeg"; ".tga"; ".tif"; ".tiff"].

(** The registry is a Python dict: insertion order is the order of its
    keys, so it is kept as an association list. *)
Definition PRESETS : list (string * (string * string * string)) :=
  [ ("ORM (R=AO, G=Roughness, B=Metallic)", ("R", "G", "B"));
    ("MRA (R=Metallic, G=Roughness, B=AO)", ("B", "G", "R"));
    ("RMA (R=Roughness, G=Metallic, B=AO)", ("B", "R", "G")) ].

(** [d[k]] on a dict written as an association list. *)
Fixpoint dict_get {V} (d : list (string * V)) (k : string) : option V :=
  match d with
  | [] => None
  | (k', v) :: d' => if String.eqb k' k then Some v else dict_get d' k
  end.

(** [list(d.keys())[0]] *)
Definition first_key {V} (d : list (string * V)) : option string :=
  head (map fst d).

(** The default of [unpack_orm]'s [preset_name] parameter. *)
Definition default_preset_name : string :=
  "ORM (R=AO, G=Roughness, B=Metallic)".

(** The directory tree that [os.walk] goes through: the names of the
    regular files of a directory and its sub-directories by name. It is
    the tree as the walk sees it, a snapshot: what a batch writes is
    taken to land outside the directories still to be listed. *)
#[warnings="-register-all"]
Inductive DirTree : Type :=
  | Dir (names : list string) (subdirs : list (string * DirTree)).

(** [os.walk(top)], top-down: a directory yields
    [(top, dirnames, filenames)] and then its sub-directories are walked
    at [os.path.join(top, dirname)] each. *)
Fixpoint os_walk (top : string) (t : DirTree)
  : list (string * list string * list string) :=
  match t with
  | Dir names subdirs =>
      (top, map fst subdirs, names)
      :: flat_map (fun d => os_walk (os_path.join top (fst d)) (snd d)) subdirs
  end.

Section Program.
Context `{Pillow}.
Import PyStr.

Definition load_image_rgb_or_rgba (path : string) : M Image :=
  img <~ Image_open path ;;
  let img := if bool_decide (mode img ∈ ["P"; "LA"])
             then convert img "RGBA" else img in
  if String.eqb (mode img) "RGBA" then ret img
  else if negb (String.eqb (mode img) "RGB") then ret (convert img "RGB")
  else ret img.

(** [r, g, b = img.split()[:3]; return {"R": r, "G": g, "B": b}[letter]];
    the unpacking of a shorter list fails with CPython's message, which
    gives the length it got. *)
Definition channel_by_letter (img : Image) (letter : string)
  : outcome Image :=
  match firstn 3 (split img) with
  | [r; g; b] =>
      match dict_get [("R", r); ("G", g); ("B", b)] letter with
      | Some ch => Ok ch
      | None => Raise (KeyError letter)
      end
  | [] => Raise (ValueError "not enough values to unpack (expected 3, got 0)")
  | [_] => Raise (ValueError "not enough values to unpack (expected 3, got 1)")
  | [_; _] =>
      Raise (ValueError "not enough values to unpack (expected 3, got 2)")
  | _ => Raise (ValueError "too many values to unpack (expected 3)")
  end.

Definition maybe_invert (ch : Image) (do_invert : bool) : Image :=
  if negb do_invert then ch
  else Image_eval ch (fun px => 255 - px).

Definition save_grayscale (ch : Image) (out_path : string) : M unit :=
  let ch := if negb (String.eqb (mode ch) "L") then convert ch "L" else ch in
  Image_save ch out_path.

Definition unpack_orm (input_path output_dir preset_name : string)
    (invert_roughness invert_metallic export_alpha_as_height : bool)
  : M (string * string * string * option string) :=
  ex <~ path_exists output_dir ;;
  (if negb ex then makedirs output_dir else ret tt) ;;;
  img <~ load_image_rgb_or_rgba input_path ;;
  let base := fst (os_path.splitext (os_path.basename input_path)) in
  let ao_path := os_path.join output_dir (base +:+ "_AO.png") in
  let rough_path := os_path.join output_dir (base +:+ "_Roughness.png") in
  let metal_path := os_path.join output_dir (base +:+ "_Metallic.png") in
  let height_path := os_path.join output_dir (base +:+ "_Height.png") in
  match dict_get PRESETS preset_name with
  | None => raise (ValueError ("Unknown preset: " +:+ preset_name))
  | Some (ao_from, rough_from, metal_from) =>
      ao_ch <~ lift (channel_by_letter img ao_from) ;;
      rough_src <~ lift (channel_by_letter img rough_from) ;;
      let rough_ch := maybe_invert rough_src invert_roughness in
      metal_src <~ lift (channel_by_letter img metal_from) ;;
      let metal_ch := maybe_invert metal_src invert_metallic in
      save_grayscale ao_ch ao_path ;;;
      save_grayscale rough_ch rough_path ;;;
      save_grayscale metal_ch metal_path ;;;
      if export_alpha_as_height && String.eqb (mode img) "RGBA" then
        match split img with
        | [_; _; _; a] =>
            save_grayscale a height_path ;;;
            ret (ao_path, rough_path, metal_path, Some height_path)
        | _ => raise (ValueError "wrong number of values to unpack (expected 4)")
        end
      else ret (ao_path, rough_path, metal_path, None)
  end.

(* ------------------------------------------------------------------- *)
(** *** Batch traversal                                                *)
(* ------------------------------------------------------------------- *)

(** A [for] loop with an accumulator; an exception in the body leaves
    the loop. *)
Fixpoint for_each {A S : Type} (xs : list A) (body : A → S → M S) (s : S)
  : M S :=
  match xs with
  | [] => ret s
  | x :: rest => s' <~ body x s ;; for_each rest body s'
  end.

(** [os.path.splitext(name)[1].lower() in SUPPORTED_EXTS] *)
Definition supported (name : string) : bool :=
  bool_decide (lower (snd (os_path.splitext name)) ∈ SUPPORTED_EXTS).

(** The two nested loops of [iter_images_in_folder] and of [run_cli] over
    the triples of a walk: the paths they reach. *)
Definition images_of_walk (walk : list (string * list string * list string))
  : list string :=
  flat_map (fun '(root_dir, _, names) =>
              flat_map (fun name =>
                          if supported name
                          then [os_path.join root_dir name] else [])
                       names)
           walk.

(** [iter_images_in_folder(folder)], the generator written as the list of
    what it yields, where [tree] is the directory tree at [folder]. *)
Definition iter_images_in_folder (tree : DirTree) (folder : string)
  : list string :=
  images_of_walk (os_walk folder tree).

(** The settings a batch shares: [self.preset], [self.invert_rough],
    [self.invert_metal], [self.export_alpha_height] and the output
    folder (the [args] of the command line likewise). *)
Record Settings : Type := mkSettings {
  out_dir : string;
  preset : string;
  invert_rough : bool;
  invert_metal : bool;
  alpha_height : bool
}.

Definition process_single (cfg : Settings) (in_path : string)
  : M (string * string * string * option string) :=
  unpack_orm in_path (out_dir cfg) (preset cfg)
             (invert_rough cfg) (invert_metal cfg) (alpha_height cfg).

(** The batch loop of [process_texture] (lines 236-243) over the tree at
    [input_sel]: the count and the paths handed to [update_preview] for
    the first image. *)
Definition process_texture_batch (cfg : Settings) (tree : DirTree)
    (input_sel : string)
  : M (Z * option (string * string * string)) :=
  for_each (iter_images_in_folder tree input_sel)
    (fun img_path '(count, first) =>
       r <~ process_single cfg img_path ;;
       let '(ao, rr, mm, hh) := r in
       ret (count + 1,
            match first with
            | None => Some (ao, rr, mm)
            | Some _ => first
            end))
    (0, None).

(** The batch branch of [run_cli] (lines 316-331) over the tree at
    [input]: the count it prints. *)
Definition run_cli_batch (cfg : Settings) (tree : DirTree) (input : string)
  : M Z :=
  for_each (os_walk input tree)
    (fun '(root_dir, _, names) count =>
       for_each names
         (fun name count =>
            if supported name then
              let in_path := os_path.join root_dir name in
              process_single cfg in_path ;;;
              ret (count + 1)
            else ret count)
         count)
    0.

End Program.

(** [name] is a regular file of the directory reached at path [d] when the
    tree [t] is entered at path [top]. *)
Inductive file_under : string → DirTree → string → string → Prop :=
  | file_here top names subdirs name :
      name ∈ names → file_under top (Dir names subdirs) top name
  | file_below top names subdirs dname sub d name :
      (dname, sub) ∈ subdirs →
      file_under (os_path.join top dname) sub d name →
      file_under top (Dir names subdirs) d name.

(** The number of regular files of a tree with a supported extension. *)
Fixpoint count_supported (t : DirTree) : nat :=
  match t with
  | Dir names subdirs =>
      (length (filter (fun n => supported n = true) names)
       + list_sum (map (fun d => count_supported (snd d)) subdirs))%nat
  end.

(* ===================================================================== *)
(** ** A small instance of the Pillow interface                          *)
(* ===================================================================== *)

(** Enough of Pillow to run the program on concrete images: conversions
    that keep the colour bands where there are some, an opaque alpha where
    there is none and the ITU-R 601-2 luma for "L"; the usual extensions;
    a JPEG writer that loses the low bit. *)
Module Reference.

Definition fit (n : nat) (b : list Z) : list Z :=
  map clip8 (take n (b ++ replicate n 0)).

Definition band (im : Image) (i : nat) : list Z :=
  fit (pixels im) (nth i (bands im) []).

Definition luma (im : Image) : list Z :=
  fit (pixels im)
      (zip_with (fun r gb => (r * 299 + fst gb * 587 + snd gb * 114) / 1000)
                (band im 0) (zip (band im 1) (band im 2))).

Definition convert (im : Image) (m : string) : Image :=
  let has_rgb := (3 <=? length (bands im))%nat in
  let rgb := if has_rgb then [band im 0; band im 1; band im 2]
             else [band im 0; band im 0; band im 0] in
  let alpha := if String.eqb (mode im) "RGBA" then band im 3
               else if String.eqb (mode im) "LA" then band im 1
               else replicate (pixels im) 255 in
  if String.eqb m "RGBA" then mkImage "RGBA" (size im) (rgb ++ [alpha])
  else if String.eqb m "RGB" then mkImage "RGB" (size im) rgb
  else if String.eqb m "L"
  then mkImage "L" (size im) [if has_rgb then luma im else band im 0]
  else im.

Definition format_of_ext (ext : string) : option string :=
  dict_get [(".png", "PNG"); (".jpg", "JPEG"); (".jpeg", "JPEG");
            (".tga", "TGA"); (".tif", "TIFF"); (".tiff", "TIFF")] ext.

Definition reread (fmt : string) (im : Image) : Image :=
  if String.eqb fmt "JPEG"
  then mkImage (mode im) (size im) (map (map (fun v => v / 2 * 2)) (bands im))
  else im.

End Reference.

Definition reference_pillow : Pillow.
Proof.
  refine {| convert := Reference.convert;
            format_of_ext := Reference.format_of_ext;
            reread := Reference.reread |}.
  - intros im m Hm. unfold Reference.convert.
    repeat (apply elem_of_cons in Hm as [->|Hm]); try reflexivity.
    by apply elem_of_nil in Hm.
  - intros im m Hm.
    assert (Hlen : ∀ n b, length (Reference.fit n b) = n).
    { intros n b. unfold Reference.fit.
      rewrite length_map, length_take, length_app, length_replicate. lia. }
    assert (Hu8 : ∀ n b, forallb is_u8 (Reference.fit n b) = true).
    { intros n b. unfold Reference.fit. apply forallb_forall.
      intros v Hv. apply in_map_iff in Hv as (w & <- & _).
      unfold is_u8, clip8. apply andb_true_iff. split; [apply Z.leb_le|apply Z.ltb_lt]; lia. }
    assert (Hrep : forallb is_u8 (replicate (pixels im) 255) = true).
    { apply forallb_forall. intros v Hv.
      apply list_elem_of_In, elem_of_replicate in Hv as [-> _]. reflexivity. }
    assert (Halpha : ∀ a, a = (if String.eqb (mode im) "RGBA" then Reference.band im 3
                 else if String.eqb (mode im) "LA" then Reference.band im 1
                 else replicate (pixels im) 255) →
              length a = pixels im ∧ forallb is_u8 a = true).
    { intros a ->. unfold Reference.band.
      repeat case_match; rewrite ?Hlen, ?Hu8, ?length_replicate; auto. }
    unfold Reference.convert.
    destruct (Halpha _ eq_refl) as [Ha1 Ha2].
    set (alpha := if String.eqb (mode im) "RGBA" then _ else _) in *.
    clearbody alpha.
    assert (mode_bands "RGBA" = Some 4%nat) as E4 by reflexivity.
    assert (mode_bands "RGB" = Some 3%nat) as E3 by reflexivity.
    assert (mode_bands "L" = Some 1%nat) as E1 by reflexivity.
    assert (eight_bit "RGBA" = true) as B4 by reflexivity.
    assert (eight_bit "RGB" = true) as B3 by reflexivity.
    assert (eight_bit "L" = true) as B1 by reflexivity.
    destruct (3 <=? length (bands im))%nat;
    repeat (apply elem_of_cons in Hm as [->|Hm]);
      try (by apply elem_of_nil in Hm);
      unfold wf_image, Reference.luma, Reference.band in *;
      cbn [String.eqb Ascii.eqb Bool.eqb mode bands size app forallb length];
      unfold pixels in *; cbn [size];
      rewrite ?E4, ?E3, ?E1, ?B4, ?B3, ?B1;
      cbn [forallb length];
      rewrite ?Hlen, ?Hu8, ?Ha1, ?Ha2, ?Nat.eqb_refl; reflexivity.
  - reflexivity.
  - intros im Hm. reflexivity.
Defined.


(* ===================================================================== *)
(** ** Vocabulary of the properties                                      *)
(* ===================================================================== *)

(** The channel index a preset letter stands for. *)
Definition letter_index (l : string) : option nat :=
  dict_get [("R", 0%nat); ("G", 1%nat); ("B", 2%nat)] l.

(** Band [i] of an image, and a band as a single-channel 8-bit image of
    the size of [img]. *)
Definition source_band (img : Image) (i : nat) : list Z :=
  nth i (bands img) [].
Definition gray (img : Image) (b : list Z) : Image :=
  mkImage "L" (size img) [b].

(** Every sample [v] replaced by [255 - v] when the flag is set. *)
Definition inverted (flag : bool) (b : list Z) : list Z :=
  if flag then map (fun v => 255 - v) b else b.

(** The normal form of a decoded image, as the specification words it:
    palette and luminance+alpha images become RGBA, RGB and RGBA images
    stay, every other mode becomes RGB. *)
Definition normal_form `{Pillow} (raw : Image) : Image :=
  if bool_decide (mode raw ∈ ["P"; "LA"]) then convert raw "RGBA"
  else if bool_decide (mode raw ∈ ["RGB"; "RGBA"]) then raw
  else convert raw "RGB".

Definition is_byte (v : Z) : Prop := 0 ≤ v < 256.

(** The errors of the two kinds the properties name. *)
Definition is_decode_error (e : exn) : bool :=
  match e with
  | UnidentifiedImageError _ | OSError sys_open_read _ _ => true
  | _ => false
  end.
Definition unknown_preset_error (name : string) : exn :=
  ValueError ("Unknown preset: " +:+ name).

Definition path_present (fs : FS) (p : string) : bool :=
  isdir fs p || isfile fs p.

(** [os.makedirs(p)] would go through. *)
Definition can_make (fs : FS) (p : string) : bool :=
  negb (String.eqb p "") && negb (existsb (isfile fs) (ancestors p))
  && negb (isfile fs p).

(** The file system once the output directory has been seen or made. *)
Definition with_out_dir (fs : FS) (out : string) : FS :=
  if path_present fs out then fs
  else mkFS (dirs fs ∪ list_to_set (ancestors out) ∪ {[out]}) (files fs).

(** The output directory is spelled without a trailing separator and it
    is there or can be made. *)
Definition out_dir_usable (fs : FS) (out : string) : bool :=
  negb (String.eqb out "") && negb (PyStr.endswith os_path.sep out)
  && (isdir fs out || can_make fs out).

(** Where the output with a given suffix goes (lines 75-79). *)
Definition out_path (out input_path sfx : string) : string :=
  os_path.join out (fst (os_path.splitext (os_path.basename input_path)) +:+ sfx).

(** The file system with one more PNG file. *)
Definition put (fs : FS) (p : string) (im : Image) : FS :=
  mkFS (dirs fs) (<[p := Picture "PNG" im]> (files fs)).

(** The height output is asked for and there is an alpha band. *)
Definition has_height (img : Image) (ah : bool) : bool :=
  ah && String.eqb (mode img) "RGBA".

(** The file system a successful call leaves, starting from one that has
    the output directory: the three maps, then the height map. *)
Definition unpacked (fs : FS) (out input_path : string) (img : Image)
    (ia ir im : nat) (inv_r inv_m ah : bool) : FS :=
  let fs3 :=
    put (put (put fs (out_path out input_path "_AO.png")
                  (gray img (source_band img ia)))
             (out_path out input_path "_Roughness.png")
             (gray img (inverted inv_r (source_band img ir))))
        (out_path out input_path "_Metallic.png")
        (gray img (inverted inv_m (source_band img im))) in
  if has_height img ah
  then put fs3 (out_path out input_path "_Height.png")
           (gray img (source_band img 3))
  else fs3.

(** The paths a successful call returns. *)
Definition returned (out input_path : string) (img : Image) (ah : bool)
  : string * string * string * option string :=
  (out_path out input_path "_AO.png",
   out_path out input_path "_Roughness.png",
   out_path out input_path "_Metallic.png",
   if has_height img ah then Some (out_path out input_path "_Height.png")
   else None).

Definition suffixes : list string :=
  ["_AO.png"; "_Roughness.png"; "_Metallic.png"; "_Height.png"].

(** No directory stands where an output file goes. *)
Definition targets_free (fs : FS) (input_path out : string) : bool :=
  forallb (fun sfx => negb (isdir fs (out_path out input_path sfx))) suffixes.

(** [open(p, "w+b")] goes through: no directory at [p], and the directory
    [p] goes in is there. *)
Definition writable (fs : FS) (p : string) : Prop :=
  isdir fs p = false ∧ parent_ok fs p = true.

(** Two file systems with the same directories and the same files
    except at the paths of [P]. *)
Definition agree_off (P : list string) (fsA fsB : FS) : Prop :=
  dirs fsA = dirs fsB ∧ ∀ q, q ∉ P → files fsA !! q = files fsB !! q.



(** The loop bodies of the two batches, on one image found. *)
Definition count_one `{Pillow} (cfg : Settings) (in_path : string) (count : Z)
  : M Z :=
  process_single cfg in_path ;;; ret (count + 1).

Definition preview_one `{Pillow} (cfg : Settings) (img_path : string)
    (acc : Z * option (string * string * string))
  : M (Z * option (string * string * string)) :=
  let '(count, first) := acc in
  r <~ process_single cfg img_path ;;
  let '(ao, rr, mm, hh) := r in
  ret (count + 1,
       match first with
       | None => Some (ao, rr, mm)
       | Some _ => first
       end).

(** A file name [name.ext]: no separator in it, no dot in [ext], and
    [name] not made of dots only (a leading-dot name has no extension). *)
Definition file_name_parts (name ext : string) : bool :=
  negb (PyStr.contains os_path.sep name)
  && negb (PyStr.contains os_path.sep ext)
  && negb (PyStr.contains os_path.extsep ext)
  && negb (PyStr.all_are os_path.extsep name).

(** The path of file [f] in directory [D], as written [D/f]. *)
Definition in_dir (D f : string) : string :=
  if PyStr.endswith os_path.sep D then D +:+ f else D +:+ String os_path.sep f.

(* ===================================================================== *)
(** ** The callers: [run_cli], [process_texture], the entry point        *)
(* ===================================================================== *)

(** [os.path.isdir(p)] and [os.path.isfile(p)] *)
Definition os_path_isdir (p : string) : M bool :=
  fun fs => (fs, Ok (isdir fs p)).
Definition os_path_isfile (p : string) : M bool :=
  fun fs => (fs, Ok (isfile fs p)).

(** [try: c except Exception as e: h(e)]: every exception of the model is
    an [Exception]; what was done before it stays. *)
Definition catch {A} (c : M A) (h : exn → M A) : M A :=
  fun fs =>
    match c fs with
    | (fs', Ok a) => (fs', Ok a)
    | (fs', Raise e) => h e fs'
    end.

(** [[p for p in paths if p]] on the tuple [unpack_orm] returns: [None]
    and the empty string are dropped. *)
Definition truthy_paths (paths : string * string * string * option string)
  : list string :=
  let '(ao, rr, mm, hh) := paths in
  flat_map (fun p => match p with
                     | Some q => if String.eqb q "" then [] else [q]
                     | None => []
                     end)
           [Some ao; Some rr; Some mm; hh].

(** The namespace [parse_args] returns. *)
Record Args : Type := mkArgs {
  arg_input : string;
  arg_out : string;
  arg_preset : string;
  arg_invert_rough : bool;
  arg_invert_metal : bool;
  arg_alpha_as_height : bool;
  arg_batch : bool
}.

Definition settings_of_args (args : Args) : Settings :=
  mkSettings (arg_out args) (arg_preset args) (arg_invert_rough args)
             (arg_invert_metal args) (arg_alpha_as_height args).

(** What [--preset] accepts: [choices=list(PRESETS.keys())]. *)
Definition preset_choice (args : Args) : Prop :=
  arg_preset args ∈ map fst PRESETS.

(** What [run_cli] prints, by message and its variable parts. *)
Inductive printed : Type :=
  | print_batch_needs_folder   (* In batch mode, input must be a folder. *)
  | print_not_a_file           (* Input path is not a file. *)
  | print_processed (count : Z) (out : string)
  | print_saved (paths : list string).

Section Callers.
Context `{Pillow}.

(** [run_cli] after [parse_args]: what is printed and the exit status,
    [2] from [sys.exit(2)] and [0] at the end; [tree] is the directory
    tree at [args.input]. *)
Definition run_cli (args : Args) (tree : DirTree) : M (printed * Z) :=
  d <~ os_path_isdir (arg_input args) ;;
  if arg_batch args && negb d then ret (print_batch_needs_folder, 2)
  else
    makedirs (arg_out args) ;;;
    if arg_batch args then
      count <~ run_cli_batch (settings_of_args args) tree (arg_input args) ;;
      ret (print_processed count (arg_out args), 0)
    else
      f <~ os_path_isfile (arg_input args) ;;
      if negb f then ret (print_not_a_file, 2)
      else
        paths <~ unpack_orm (arg_input args) (arg_out args) (arg_preset args)
                   (arg_invert_rough args) (arg_invert_metal args)
                   (arg_alpha_as_height args) ;;
        ret (print_saved (truthy_paths paths), 0).

(** A thumbnail on the canvas: [img.resize((170, 170), Image.LANCZOS)]
    handed to [ImageTk.PhotoImage], kept by the image it was made from. *)
Inductive Thumb : Type :=
  | Resized (src : Image).

(** What the preview canvas shows after [update_preview]. *)
Inductive preview : Type :=
  | PreviewUnavailable
  | PreviewThumbs (ao r m : Thumb).

(** [load_thumb(p)] of [update_preview]. *)
Definition load_thumb (p : string) : M Thumb :=
  img <~ Image_open p ;;
  ret (Resized (convert img "L")).

Definition path_truthy (p : option string) : bool :=
  match p with
  | Some q => negb (String.eqb q "")
  | None => false
  end.

Definition update_preview (ao_path rough_path metal_path : option string)
  : M preview :=
  match ao_path, rough_path, metal_path with
  | Some a, Some r, Some m =>
      if path_truthy ao_path && path_truthy rough_path && path_truthy metal_path
      then
        ta <~ load_thumb a ;;
        tr <~ load_thumb r ;;
        tm <~ load_thumb m ;;
        ret (PreviewThumbs ta tr tm)
      else ret PreviewUnavailable
  | _, _, _ => ret PreviewUnavailable
  end.

(** The variables of the form that [process_texture] reads; the output
    folder is [out_dir] of the settings. *)
Record AppState : Type := mkAppState {
  texture_path : string;
  batch_mode : bool;
  settings : Settings
}.

(** The message box [process_texture] ends with. *)
Inductive dialog : Type :=
  | warn_missing_information
  | error_batch_needs_folder
  | info_no_images
  | info_processed (count : Z) (out : string)
  | error_input_not_file
  | info_saved (paths : list string)
  | error_occurred (e : exn).

(** The loop of lines 236-243 with its call of [update_preview]: the
    count and [first_preview_set]. *)
Definition process_texture_loop (cfg : Settings) (tree : DirTree)
    (input_sel : string) : M (Z * bool) :=
  for_each (iter_images_in_folder tree input_sel)
    (fun img_path '(count, first_preview_set) =>
       r <~ process_single cfg img_path ;;
       let '(ao, rr, mm, hh) := r in
       if negb first_preview_set then
         update_preview (Some ao) (Some rr) (Some mm) ;;;
         ret (count + 1, true)
       else ret (count + 1, first_preview_set))
    (0, false).

(** [process_texture]: the dialog it ends with; [tree] is the directory
    tree at the input path. *)
Definition process_texture (st : AppState) (tree : DirTree) : M dialog :=
  let input_sel := texture_path st in
  let output_dir := out_dir (settings st) in
  if String.eqb input_sel "" || String.eqb output_dir ""
  then ret warn_missing_information
  else
    catch
      (if batch_mode st then
         d <~ os_path_isdir input_sel ;;
         if negb d then ret error_batch_needs_folder
         else
           r <~ process_texture_loop (settings st) tree input_sel ;;
           if fst r =? 0 then ret info_no_images
           else ret (info_processed (fst r) output_dir)
       else
         f <~ os_path_isfile input_sel ;;
         if negb f then ret error_input_not_file
         else
           r <~ process_single (settings st) input_sel ;;
           let '(ao, rr, mm, hh) := r in
           update_preview (Some ao) (Some rr) (Some mm) ;;;
           ret (info_saved (truthy_paths r)))
      (fun e => ret (error_occurred e)).

End Callers.

(** The test of the entry point:
    [len(sys.argv) > 1 and any(a.startswith("-") for a in sys.argv[1:])];
    the command line runs when it holds, the form otherwise. *)
Definition use_cli (argv : list string) : bool :=
  (1 <? length argv)%nat
  && existsb (PyStr.startswith "-"%char) (tl argv).

(* ===================================================================== *)
(** ** The batch walks on the file system itself                         *)
(* ===================================================================== *)

(** [os.walk] does not work on a tree taken beforehand: it lists a
    directory when it reaches it, and the loop that consumes it runs its
    body on the files of one directory before the next directory is
    listed. What the body writes in the meantime is seen by the later
    listings. *)

(** A name that a directory listing can hold: not empty, no separator. *)
Definition entry_name (n : string) : bool :=
  negb (String.eqb n "") && negb (PyStr.contains os_path.sep n).

(** The prefix that [os.path.join] puts before a relative name. *)
Definition as_prefix (d : string) : string :=
  if String.eqb d "" || PyStr.endswith os_path.sep d then d
  else d +:+ String os_path.sep "".

(** What [os.scandir] gives [os.walk] at a directory: the names of its
    sub-directories and the names of its other entries, each once, in
    the order the system lists them, which the program has no say in. *)
Class Listing : Type := {
  scandir : FS → string → list string * list string;
  scandir_dirs : ∀ fs d n,
    n ∈ fst (scandir fs d)
    ↔ entry_name n = true ∧ isdir fs (os_path.join d n) = true;
  scandir_files : ∀ fs d n,
    n ∈ snd (scandir fs d)
    ↔ entry_name n = true ∧ isdir fs (os_path.join d n) = false
      ∧ isfile fs (os_path.join d n) = true;
  scandir_nodup : ∀ fs d,
    NoDup (fst (scandir fs d)) ∧ NoDup (snd (scandir fs d))
}.

Section Walk.
Context `{Pillow} `{Listing}.
Import PyStr.






End Walk.

(** The directories that the walk from [top] reaches in [fs]. *)
Inductive reached (fs : FS) (top : string) : string → Prop :=
  | reached_top : isdir fs top = true → reached fs top top
  | reached_sub d n :
      reached fs top d → entry_name n = true →
      isdir fs (os_path.join d n) = true →
      reached fs top (os_path.join d n).






(** A listing read off the sets of the file system: the paths in the
    order in which the sets enumerate them, each cut down to its name. *)
Module RefListing.

Definition strip_dir (d p : string) : option string :=
  let n := PyStr.drop (String.length (as_prefix d)) p in
  if entry_name n && String.eqb (os_path.join d n) p then Some n else None.

Definition scandir (fs : FS) (d : string) : list string * list string :=
  (omap (strip_dir d) (elements (dirs fs)),
   omap (strip_dir d)
        (filter (fun p => p ∉ dirs fs) (elements (dom (files fs) : gset string)))).

End RefListing.

Definition reference_listing : Listing.
Proof.
  assert (Hassoc : ∀ a b c, (a +:+ b) +:+ c = a +:+ (b +:+ c)).
  { intros a b c. induction a as [|x a IH]; [reflexivity|].
    change (String x ((a +:+ b) +:+ c) = String x (a +:+ (b +:+ c))).
    by rewrite IH. }
  assert (Hdrop : ∀ a b, PyStr.drop (String.length a) (a +:+ b) = b).
  { intros a b. induction a as [|x a IH]; [reflexivity|].
    change (PyStr.drop (String.length a) (a +:+ b) = b). exact IH. }
  assert (Hjoin : ∀ d n, entry_name n = true →
                         os_path.join d n = as_prefix d +:+ n).
  { intros d n [_ Hsep%negb_true_iff]%andb_true_iff.
    assert (Hst : PyStr.startswith os_path.sep n = false).
    { destruct n as [|c n]; [reflexivity|].
      change (Ascii.eqb c os_path.sep || PyStr.contains os_path.sep n = false)
        in Hsep.
      apply orb_false_iff in Hsep as [Hc _]. exact Hc. }
    unfold os_path.join, as_prefix. rewrite Hst.
    destruct (String.eqb d "" || PyStr.endswith os_path.sep d); [reflexivity|].
    by rewrite Hassoc. }
  assert (Hstrip : ∀ d p n,
            RefListing.strip_dir d p = Some n
            ↔ entry_name n = true ∧ os_path.join d n = p).
  { intros d p n. unfold RefListing.strip_dir. cbv zeta. split.
    - destruct (entry_name _ && String.eqb _ _) eqn:E; [|discriminate].
      intros Heq. injection Heq as <-.
      apply andb_true_iff in E as [E1 E2%String.eqb_eq]. by split.
    - intros [He <-].
      assert (Hd : PyStr.drop (String.length (as_prefix d)) (os_path.join d n) = n)
        by (by rewrite (Hjoin d n He), Hdrop).
      by rewrite Hd, He, String.eqb_refl. }
  assert (Hnodup : ∀ d l, NoDup l → NoDup (omap (RefListing.strip_dir d) l)).
  { intros d l Hl. induction Hl as [|p l Hp Hl IH]; [constructor|].
    cbn [omap list_omap].
    destruct (RefListing.strip_dir d p) as [n|] eqn:Hn; [|exact IH].
    constructor; [|exact IH]. intros Hin.
    apply list_elem_of_omap in Hin as (q & Hq & Hqn).
    apply Hstrip in Hn as [_ <-]. apply Hstrip in Hqn as [_ <-]. done. }
  refine {| scandir := RefListing.scandir |}.
  - intros fs d n. unfold RefListing.scandir. cbn [fst].
    rewrite list_elem_of_omap. split.
    + intros (p & Hp & [He <-]%Hstrip). split; [done|].
      apply bool_decide_eq_true_2. by apply elem_of_elements in Hp.
    + intros [He Hd]. exists (os_path.join d n). split.
      * apply elem_of_elements. by apply bool_decide_eq_true in Hd.
      * by apply Hstrip.
  - intros fs d n. unfold RefListing.scandir. cbn [snd].
    rewrite list_elem_of_omap. split.
    + intros (p & Hp & [He <-]%Hstrip).
      apply list_elem_of_filter in Hp as [Hnd Hp].
      apply elem_of_elements, elem_of_dom in Hp. split; [done|]. split.
      * by apply bool_decide_eq_false_2.
      * by apply bool_decide_eq_true_2.
    + intros (He & Hd & Hf). exists (os_path.join d n). split; [|by apply Hstrip].
      apply list_elem_of_filter. split.
      * by apply bool_decide_eq_false in Hd.
      * apply elem_of_elements, elem_of_dom. by apply bool_decide_eq_true in Hf.
  - intros fs d. unfold RefListing.scandir. cbn [fst snd]. split.
    + apply Hnodup, NoDup_elements.
    + apply Hnodup, NoDup_filter, NoDup_elements.
Defined.

(* ===================================================================== *)
(** ** Concrete inputs                                                   *)
(* ===================================================================== *)

(** A 2x2 RGBA texture with the pixel (10, 20, 30, 40) everywhere, a
    palette image, a file system that holds them under [tex] and has no
    output directory yet, the same with the output directory, and the
    directory tree of [tex]. *)
Module Sample.

Definition wall : Image :=
mkImage "RGBA" (2, 2)%nat
        [replicate 4 10; replicate 4 20; replicate 4 30; replicate 4 40].

Definition sprite : Image := mkImage "P" (2, 1)%nat [[0; 1]].

Definition fs_tex : FS :=
mkFS ({["tex"]} ∪ {["tex/old"]})
     (<["tex/wall.png" := Picture "PNG" wall]>
        (<["tex/old/sprite.PNG" := Picture "PNG" sprite]>
           (<["tex/notes.txt" := Blob]> ∅))).

Definition fs_out : FS := mkFS ({["out"]} ∪ dirs fs_tex) (files fs_tex).

Definition tree : DirTree :=
Dir ["wall.png"; "notes.txt"] [("old", Dir ["sprite.PNG"] [])].

Definition cfg : Settings :=
mkSettings "out" default_preset_name false true true.

Definition MRA : string := "MRA (R=Metallic, G=Roughness, B=AO)".

End Sample.

(** Further inputs: the output directory with a directory standing where
    the roughness map of the sprite goes, a file system with a regular
    file named [out], a folder of notes and its tree, a texture folder
    with the output directory inside it, and settings of the command
    line and of the form. *)
Module Scenes.
Import Sample.

Definition fs_blocked : FS :=
mkFS ({["out/sprite_Roughness.png"]} ∪ dirs fs_out) (files fs_out).

Definition fs_out_file : FS :=
mkFS (dirs fs_tex) (<["out" := Blob]> (files fs_tex)).

Definition fs_docs : FS :=
mkFS {["docs"]} (<["docs/notes.txt" := Blob]> ∅).

Definition notes_only : DirTree := Dir ["notes.txt"] [].



Definition cli_wall : Args :=
mkArgs "tex/wall.png" "out" MRA false true true false.

Definition cli_sprite : Args :=
mkArgs "tex/old/sprite.PNG" "out" MRA false true true false.

Definition cli_missing : Args :=
mkArgs "tex/none.png" "out" MRA false false false false.

Definition cli_batch_on_file : Args :=
mkArgs "tex/wall.png" "out" MRA false false false true.

Definition cli_docs : Args :=
mkArgs "docs" "out" MRA false false false true.

Definition form_wall : AppState := mkAppState "tex/wall.png" false cfg.

Definition form_sprite : AppState := mkAppState "tex/old/sprite.PNG" false cfg.

Definition form_docs : AppState := mkAppState "docs" true cfg.

End Scenes.

(* ===================================================================== *)
(** * Properties                                                         *)
(* ===================================================================== *)

(** ** Strings and paths *)

Module PyStrFacts.
Import PyStr.

Lemma app_nil_r s : s +:+ "" = s.
Proof. induction s as [|c s IH]; cbn; [done|]. unfold String.app in *. cbn. by rewrite IH. Qed.

Lemma app_nil_l s : "" +:+ s = s.
Proof. reflexivity. Qed.

Lemma app_cons c s t : String c s +:+ t = String c (s +:+ t).
Proof. reflexivity. Qed.

Lemma app_assoc s t u : (s +:+ t) +:+ u = s +:+ (t +:+ u).
Proof. induction s as [|c s IH]; [done|]. rewrite !app_cons. by rewrite IH. Qed.

Lemma length_app s t :
  String.length (s +:+ t) = (String.length s + String.length t)%nat.
Proof. induction s as [|c s IH]; [done|]. rewrite app_cons. cbn. by rewrite IH. Qed.

Lemma contains_app c s t :
  contains c (s +:+ t) = contains c s || contains c t.
Proof.
  induction s as [|x s IH]; [done|]. rewrite app_cons. cbn.
  rewrite IH. by rewrite orb_assoc.
Qed.

Lemma all_are_app c s t : all_are c (s +:+ t) = all_are c s && all_are c t.
Proof.
  induction s as [|x s IH]; [done|]. rewrite app_cons. cbn.
  rewrite IH. by rewrite andb_assoc.
Qed.

Lemma drop_app_length s t : drop (String.length s) (s +:+ t) = t.
Proof. induction s as [|c s IH]; [done|]. rewrite app_cons. cbn. exact IH. Qed.

Lemma take_app_length s t : take (String.length s) (s +:+ t) = s.
Proof. induction s as [|c s IH]; [done|]. rewrite app_cons. cbn. by rewrite IH. Qed.

Lemma take_app_le n s t :
  (n ≤ String.length s)%nat → take n (s +:+ t) = take n s.
Proof.
  revert n. induction s as [|c s IH]; intros [|n] Hn; cbn in *; try done; try lia.
  rewrite app_cons. cbn. rewrite IH; [done|lia].
Qed.

Lemma take_all s : take (String.length s) s = s.
Proof. induction s as [|c s IH]; [done|]. cbn. by rewrite IH. Qed.

Lemma contains_take c n s : contains c s = false → contains c (take n s) = false.
Proof.
  revert n. induction s as [|x s IH]; intros [|n] Hc; cbn in *; try done.
  apply orb_false_iff in Hc as [-> Hc]. cbn. by apply IH.
Qed.

Lemma rfind_range c s : -1 ≤ rfind c s < Z.of_nat (String.length s).
Proof.
  induction s as [|x s IH]; cbn [rfind String.length]; [lia|].
  destruct (Z.leb_spec 0 (rfind c s)); [lia|].
  destruct (Ascii.eqb x c); lia.
Qed.

Lemma rfind_absent c s : contains c s = false → rfind c s = -1.
Proof.
  induction s as [|x s IH]; cbn; [done|].
  intros [Hx Hs]%orb_false_iff. rewrite (IH Hs), Hx. reflexivity.
Qed.

Lemma rfind_present c s : contains c s = true → 0 ≤ rfind c s.
Proof.
  induction s as [|x s IH]; cbn; [done|].
  destruct (Z.leb_spec 0 (rfind c s)); [lia|].
  intros [Hx|Hs]%orb_true_iff; [rewrite Hx; lia|]. specialize (IH Hs). lia.
Qed.

(** The last occurrence in a concatenation is the one in the right part
    when there is one. *)
Lemma rfind_app_r c s t :
  contains c t = true →
  rfind c (s +:+ t) = Z.of_nat (String.length s) + rfind c t.
Proof.
  intros Ht. induction s as [|x s IH]; [rewrite app_nil_l; cbn; lia|].
  rewrite app_cons. cbn [rfind String.length]. rewrite IH.
  pose proof (rfind_present c t Ht).
  destruct (Z.leb_spec 0 (Z.of_nat (String.length s) + rfind c t)); lia.
Qed.

Lemma rfind_app_l c s t :
  contains c t = false → rfind c (s +:+ t) = rfind c s.
Proof.
  intros Ht. induction s as [|x s IH].
  - rewrite app_nil_l. cbn. by apply rfind_absent.
  - rewrite app_cons. cbn [rfind]. by rewrite IH.
Qed.

Lemma rfind_cons_absent c s : contains c s = false → rfind c (String c s) = 0.
Proof. intros Hs. cbn. rewrite (rfind_absent _ _ Hs), Ascii.eqb_refl. reflexivity. Qed.

End PyStrFacts.

Module PathFacts.
Import PyStr PyStrFacts os_path.

Lemma drop_app_le n s t :
  (n ≤ String.length s)%nat → drop n (s +:+ t) = drop n s +:+ t.
Proof.
  revert n. induction s as [|c s IH]; intros [|n] Hn; cbn in *; try done; try lia.
  rewrite app_cons. cbn. apply IH. lia.
Qed.

Lemma length_drop n s : String.length (drop n s) = (String.length s - n)%nat.
Proof. revert n. induction s as [|c s IH]; intros [|n]; cbn; auto. Qed.

Lemma rfind_endswith c s :
  endswith c s = true → rfind c s = Z.of_nat (String.length s) - 1.
Proof.
  induction s as [|x s IH]; [done|].
  destruct s as [|y s].
  - cbn. intros ->. reflexivity.
  - intros Hs. change (endswith c (String x (String y s))) with (endswith c (String y s)) in Hs.
    specialize (IH Hs). cbn [rfind String.length] in *. rewrite IH.
    destruct (Z.leb_spec 0 (Z.of_nat (S (String.length s)) - 1)); lia.
Qed.

Lemma startswith_absent c s : contains c s = false → startswith c s = false.
Proof. destruct s; cbn; [done|]. by intros [-> _]%orb_false_iff. Qed.

Lemma startswith_app c s t :
  startswith c (s +:+ t) = if String.eqb s "" then startswith c t else startswith c s.
Proof. destruct s; reflexivity. Qed.

Lemma eqb_empty_app s t : String.eqb s "" = false → String.eqb (s +:+ t) "" = false.
Proof. destruct s; [done|reflexivity]. Qed.

Lemma rstrip_id c s : endswith c s = false → rstrip c s = s.
Proof.
  induction s as [|x s IH]; [done|].
  destruct s as [|y s].
  - cbn. by intros ->.
  - intros Hs. change (endswith c (String x (String y s))) with (endswith c (String y s)) in Hs.
    specialize (IH Hs). cbn [rstrip] in *. by rewrite IH.
Qed.

Lemma rstrip_snoc c s : rstrip c (s +:+ String c "") = rstrip c s.
Proof.
  induction s as [|x s IH].
  - rewrite app_nil_l. cbn. by rewrite Ascii.eqb_refl.
  - rewrite app_cons. cbn [rstrip]. by rewrite IH.
Qed.

Lemma all_are_endswith c s :
  all_are c s = true → String.eqb s "" = false → endswith c s = true.
Proof.
  induction s as [|x s IH]; [done|].
  cbn [all_are]. intros [Hx Hs]%andb_true_iff _.
  destruct s as [|y s]; [exact Hx|].
  change (endswith c (String x (String y s))) with (endswith c (String y s)).
  by apply IH.
Qed.

(** The base name holds no separator. *)
Lemma basename_no_sep p : contains sep (basename p) = false.
Proof.
  unfold basename. induction p as [|x p IH]; [done|].
  cbn [rfind].
  destruct (Z.leb_spec 0 (rfind sep p)) as [Hr|Hr].
  - replace (Z.to_nat (rfind sep p + 1 + 1)) with (S (Z.to_nat (rfind sep p + 1))) by lia.
    exact IH.
  - assert (rfind sep p = -1) as Hm by (pose proof (rfind_range sep p); lia).
    rewrite Hm in IH. change (Z.to_nat (-1 + 1)) with 0%nat in IH.
    cbn [drop] in IH.
    destruct (Ascii.eqb x sep) eqn:Hx.
    + change (Z.to_nat (0 + 1)) with 1%nat. exact IH.
    + change (Z.to_nat (-1 + 1)) with 0%nat. cbn [drop contains].
      by rewrite Hx, IH.
Qed.

Lemma splitext_root_no_sep p :
  contains sep p = false → contains sep (fst (splitext p)) = false.
Proof.
  intros Hp. unfold splitext. case_match; cbn; [|done].
  by apply contains_take.
Qed.

Lemma base_no_sep p : contains sep (fst (splitext (basename p))) = false.
Proof. apply splitext_root_no_sep, basename_no_sep. Qed.

(** Below a directory part that is empty or ends in a separator, the
    base name is what follows. *)
Lemma basename_app pre f :
  String.eqb pre "" || endswith sep pre = true →
  contains sep f = false →
  basename (pre +:+ f) = f.
Proof.
  intros Hpre Hf. unfold basename. rewrite (rfind_app_l _ _ _ Hf).
  apply orb_true_iff in Hpre as [Hpre|Hpre].
  - apply String.eqb_eq in Hpre as ->. reflexivity.
  - rewrite (rfind_endswith _ _ Hpre).
    replace (Z.to_nat (Z.of_nat (String.length pre) - 1 + 1)) with (String.length pre) by lia.
    apply drop_app_length.
Qed.

(** [splitext] cuts at the last dot of the last component. *)
Lemma splitext_name_ext X name ext :
  contains sep name = false →
  contains sep ext = false →
  contains extsep ext = false →
  all_are extsep name = false →
  splitext (X +:+ name +:+ String extsep ext)
  = (X +:+ name, String extsep ext).
Proof.
  intros Hn He Hd Ha. unfold splitext.
  assert (Hs : rfind sep (X +:+ name +:+ String extsep ext) = rfind sep X).
  { rewrite <- app_assoc. rewrite rfind_app_l; [|by cbn].
    by rewrite rfind_app_l. }
  assert (Hdot : rfind extsep (X +:+ name +:+ String extsep ext)
                 = Z.of_nat (String.length (X +:+ name))).
  { rewrite <- app_assoc. rewrite rfind_app_r by done.
    rewrite rfind_cons_absent by done. lia. }
  rewrite Hs, Hdot. pose proof (rfind_range sep X) as HrX.
  rewrite length_app.
  assert ((rfind sep X <? Z.of_nat (String.length X + String.length name)) = true) as ->
    by (apply Z.ltb_lt; lia).
  assert (all_are extsep
            (slice (rfind sep X + 1)
                   (Z.of_nat (String.length X + String.length name))
                   (X +:+ name +:+ String extsep ext)) = false) as ->.
  { unfold slice. set (k := Z.to_nat (rfind sep X + 1)).
    assert (k ≤ String.length X)%nat by lia.
    rewrite drop_app_le by done.
    rewrite <- app_assoc.
    replace (Z.to_nat (Z.of_nat (String.length X + String.length name)) - k)%nat
      with (String.length (drop k X +:+ name)) by (rewrite length_app, length_drop; lia).
    rewrite take_app_length, all_are_app, Ha. apply andb_false_r. }
  cbn [andb negb]. rewrite <- length_app, Nat2Z.id, <- app_assoc.
  by rewrite take_app_length, drop_app_length.
Qed.

(** The files the program writes are PNG files whatever comes before
    the suffix. *)
Lemma splitext_png X stem :
  contains sep stem = false → all_are extsep stem = false →
  snd (splitext (X +:+ stem +:+ ".png")) = ".png".
Proof.
  intros Hs Ha.
  change ".png" with (String extsep "png") at 1.
  by rewrite splitext_name_ext.
Qed.

Lemma join_relative a b :
  startswith sep b = false → String.eqb a "" = false → join a b = in_dir a b.
Proof. intros Hb Ha. unfold join, in_dir. by rewrite Hb, Ha. Qed.

(** Two suffixes on one base give two paths. *)
Lemma join_suffix_inj out base s1 s2 :
  startswith sep s1 = false → startswith sep s2 = false →
  join out (base +:+ s1) = join out (base +:+ s2) → s1 = s2.
Proof.
  intros H1 H2. unfold join. rewrite !startswith_app, H1, H2.
  destruct (String.eqb base "") eqn:Hb; cbn [negb];
    repeat case_match; intros Heq;
    repeat (apply (inj (String.app _)) in Heq); try done;
    by simplify_eq.
Qed.

(** The directory of a file joined to a directory spelled without a
    trailing separator is that directory. *)
Lemma dirname_in_dir out f :
  String.eqb out "" = false → endswith sep out = false →
  contains sep f = false →
  dirname (out +:+ String sep f) = out.
Proof.
  intros Hne Hend Hf. unfold dirname.
  rewrite rfind_app_r by done.
  rewrite rfind_cons_absent by done.
  change (out +:+ String sep f) with (out +:+ (String sep "" +:+ f)).
  rewrite <- app_assoc.
  replace (Z.to_nat (Z.of_nat (String.length out) + 0 + 1))
    with (String.length (out +:+ String sep "")) by (rewrite length_app; cbn; lia).
  rewrite take_app_length.
  rewrite (eqb_empty_app _ _ Hne), all_are_app.
  assert (all_are sep out = false) as ->.
  { destruct (all_are sep out) eqn:Hall; [|done].
    by rewrite (all_are_endswith _ _ Hall Hne) in Hend. }
  cbn [andb negb]. rewrite rstrip_snoc. by apply rstrip_id.
Qed.

Lemma join_in_dir out f :
  String.eqb out "" = false → endswith sep out = false →
  contains sep f = false →
  join out f = out +:+ String sep f.
Proof.
  intros Hne Hend Hf. unfold join.
  by rewrite (startswith_absent _ _ Hf), Hne, Hend.
Qed.

End PathFacts.

(** Membership in a list written out: take a hypothesis apart, or find
    the element. *)
Ltac list_cases :=
  repeat match goal with
         | H : _ ∈ _ :: _ |- _ => apply elem_of_cons in H as [H|H]
         | H : _ ∈ [] |- _ => by apply elem_of_nil in H
         end.
Ltac in_list :=
  subst; repeat first [apply list_elem_of_here | apply list_elem_of_further].
Ltac not_in_list :=
  let Hin := fresh "Hin" in
  intros Hin; list_cases; first [congruence | discriminate | (exfalso; eauto)].

(** ** The preset registry *)

(** C7, as stated, fails: the registry has no entry named ORM, MRA or
    RMA; its keys are the display names that begin with these letters. *)
Lemma presets_short_names_absent :
  ¬ (dict_get PRESETS "ORM" = Some ("R", "G", "B")
     ∧ dict_get PRESETS "MRA" = Some ("B", "G", "R")
     ∧ dict_get PRESETS "RMA" = Some ("B", "R", "G")).
Proof. intros [Horm _]. discriminate Horm. Qed.

(** C7, amended: the registry has exactly three entries, keyed by the
    display names "ORM (R=AO, G=Roughness, B=Metallic)",
    "MRA (R=Metallic, G=Roughness, B=AO)" and
    "RMA (R=Roughness, G=Metallic, B=AO)", mapped to (R,G,B), (B,G,R) and
    (B,R,G); the ORM entry is the first key and the default preset name,
    and the short names ORM, MRA and RMA are not keys. *)
Theorem presets_registry :
  map fst PRESETS = ["ORM (R=AO, G=Roughness, B=Metallic)";
                     "MRA (R=Metallic, G=Roughness, B=AO)";
                     "RMA (R=Roughness, G=Metallic, B=AO)"]
  ∧ dict_get PRESETS "ORM (R=AO, G=Roughness, B=Metallic)" = Some ("R", "G", "B")
  ∧ dict_get PRESETS "MRA (R=Metallic, G=Roughness, B=AO)" = Some ("B", "G", "R")
  ∧ dict_get PRESETS "RMA (R=Roughness, G=Metallic, B=AO)" = Some ("B", "R", "G")
  ∧ first_key PRESETS = Some default_preset_name
  ∧ dict_get PRESETS default_preset_name = Some ("R", "G", "B")
  ∧ Forall (fun short => dict_get PRESETS short = None) ["ORM"; "MRA"; "RMA"].
Proof. repeat split; try reflexivity. repeat constructor. Qed.

(** The letters of a registered preset are R, G or B. *)
Lemma preset_letters name a r m :
  dict_get PRESETS name = Some (a, r, m) →
  is_Some (letter_index a) ∧ is_Some (letter_index r) ∧ is_Some (letter_index m).
Proof.
  unfold PRESETS. cbn [dict_get].
  repeat case_match; intros; simplify_eq; repeat split; eexists; reflexivity.
Qed.

(** ** Images *)

Section ImageFacts.
Context `{Pillow}.

Lemma wf_image_inv im :
  wf_image im = true →
  (∀ n, mode_bands (mode im) = Some n → length (bands im) = n)
  ∧ Forall (fun b => length b = pixels im) (bands im)
  ∧ (eight_bit (mode im) = true → Forall (Forall is_byte) (bands im)).
Proof.
  unfold wf_image. intros [[Hn Hl]%andb_true_iff Hb]%andb_true_iff.
  split; [|split].
  - intros n Hm. rewrite Hm in Hn. by apply Nat.eqb_eq.
  - apply Forall_forall. intros b Hb'.
    rewrite forallb_forall in Hl. apply Nat.eqb_eq, Hl. by apply list_elem_of_In.
  - intros H8. rewrite H8 in Hb. apply Forall_forall. intros b Hb'.
    rewrite forallb_forall in Hb. apply list_elem_of_In, Hb in Hb'.
    apply Forall_forall. intros v Hv. rewrite forallb_forall in Hb'.
    apply list_elem_of_In, Hb' in Hv. unfold is_u8 in Hv. unfold is_byte.
    apply andb_true_iff in Hv as [?%Z.leb_le ?%Z.ltb_lt]. lia.
Qed.

Lemma normal_form_mode raw :
  mode (normal_form raw) = "RGB" ∨ mode (normal_form raw) = "RGBA".
Proof.
  unfold normal_form. repeat case_bool_decide.
  - right. apply convert_mode. in_list.
  - list_cases; auto.
  - left. apply convert_mode. in_list.
Qed.

Lemma normal_form_wf raw :
  wf_image raw = true → wf_image (normal_form raw) = true.
Proof.
  intros Hwf. unfold normal_form. repeat case_bool_decide; [|done|];
    apply convert_wf; in_list.
Qed.

(** The source's chain of tests computes the normal form. *)
Lemma load_image_rgb_or_rgba_eq path fs :
  load_image_rgb_or_rgba path fs
  = match Image_open path fs with
    | (fs', Ok raw) => (fs', Ok (normal_form raw))
    | (fs', Raise e) => (fs', Raise e)
    end.
Proof.
  unfold load_image_rgb_or_rgba, bind.
  destruct (Image_open path fs) as [fs' [raw|e]]; [|done].
  unfold normal_form. case_bool_decide as HP.
  - rewrite convert_mode by in_list. reflexivity.
  - destruct (String.eqb_spec (mode raw) "RGBA") as [E|NE].
    + rewrite bool_decide_eq_true_2 by (rewrite E; in_list). reflexivity.
    + destruct (String.eqb_spec (mode raw) "RGB") as [E'|NE'].
      * rewrite bool_decide_eq_true_2 by (rewrite E'; in_list). reflexivity.
      * rewrite bool_decide_eq_false_2 by not_in_list. reflexivity.
Qed.

Lemma Image_open_inv path fs fs' r :
  Image_open path fs = (fs', r) →
  fs' = fs
  ∧ match r with
    | Ok raw => isdir fs path = false
                ∧ ∃ fmt, files fs !! path = Some (Picture fmt raw)
    | Raise e => is_decode_error e = true
    end.
Proof.
  unfold Image_open. repeat case_match; intros; simplify_eq; eauto.
Qed.

Lemma load_image_inv path fs fs' r :
  load_image_rgb_or_rgba path fs = (fs', r) →
  fs' = fs
  ∧ match r with
    | Ok img => isdir fs path = false
                ∧ ∃ fmt raw, files fs !! path = Some (Picture fmt raw)
                             ∧ img = normal_form raw
    | Raise e => is_decode_error e = true
    end.
Proof.
  rewrite load_image_rgb_or_rgba_eq.
  destruct (Image_open path fs) as [fs1 [raw|e]] eqn:Hopen;
    apply Image_open_inv in Hopen as [-> Hr]; intros; simplify_eq;
    (split; [done|]); [|done].
  destruct Hr as [? [fmt ?]]. eauto.
Qed.

(** C5: for every decodable image that satisfies Pillow's invariant the
    normaliser returns an image of mode RGB with 3 bands or of mode RGBA
    with 4 bands, every sample a byte: palette ("P") and
    luminance+alpha ("LA") images are converted to RGBA, RGB and RGBA
    images are returned unchanged, an image of any other mode is
    converted to RGB. *)
Theorem normalizer_output fs path fmt raw :
  files fs !! path = Some (Picture fmt raw) →
  isdir fs path = false →
  wf_image raw = true →
  ∃ img,
    load_image_rgb_or_rgba path fs = (fs, Ok img)
    ∧ (mode img = "RGB" ∧ length (bands img) = 3%nat
       ∨ mode img = "RGBA" ∧ length (bands img) = 4%nat)
    ∧ Forall (Forall is_byte) (bands img)
    ∧ (mode raw ∈ ["P"; "LA"] → img = convert raw "RGBA")
    ∧ (mode raw ∈ ["RGB"; "RGBA"] → img = raw)
    ∧ (mode raw ∉ ["P"; "LA"; "RGB"; "RGBA"] → img = convert raw "RGB").
Proof.
  intros Hfile Hdir Hwf. exists (normal_form raw).
  split.
  { rewrite load_image_rgb_or_rgba_eq. unfold Image_open.
    by rewrite Hdir, Hfile. }
  pose proof (normal_form_wf raw Hwf) as Hwf'.
  apply wf_image_inv in Hwf' as (Hn & _ & H8).
  split; [|split; [|split; [|split]]].
  - destruct (normal_form_mode raw) as [E|E]; [left|right];
      (split; [done|]); apply Hn; by rewrite E.
  - apply H8. by destruct (normal_form_mode raw) as [-> | ->].
  - intros HP. unfold normal_form. by rewrite bool_decide_eq_true_2.
  - intros HR. unfold normal_form.
    rewrite bool_decide_eq_false_2 by (intros HP; list_cases; congruence).
    by rewrite bool_decide_eq_true_2.
  - intros HO. unfold normal_form.
    rewrite !bool_decide_eq_false_2; [done| |];
      intros Hin; apply HO; list_cases; rewrite Hin; in_list.
Qed.

End ImageFacts.

(** ** Steps on the file system *)

Section StepFacts.
Context `{Pillow}.
Import PyStr PyStrFacts PathFacts os_path.

Lemma unknown_preset_not_decode name : is_decode_error (unknown_preset_error name) = false.
Proof. reflexivity. Qed.

(** The messages of the other [ValueError]s are not the one of an
    unknown preset. *)
Lemma unknown_preset_neq_ext name ext :
  ValueError ("unknown file extension: " +:+ ext) ≠ unknown_preset_error name.
Proof. unfold unknown_preset_error. rewrite !app_cons. intros Heq. discriminate Heq. Qed.

Lemma makedirs_inv p fs fs' r :
  makedirs p fs = (fs', r) →
  (can_make fs p = true ∧ r = Ok tt
   ∧ fs' = mkFS (dirs fs ∪ list_to_set (ancestors p) ∪ {[p]}) (files fs))
  ∨ (can_make fs p = false ∧ fs' = fs ∧ ∃ c, r = Raise (OSError sys_mkdir c p)).
Proof.
  unfold makedirs, can_make.
  destruct (String.eqb p ""), (existsb (isfile fs) (ancestors p)), (isfile fs p);
    cbn [negb andb]; intros Heq; injection Heq as <- <-;
    first [ left; repeat split; reflexivity
          | right; split; [reflexivity|]; split; [reflexivity|];
            eexists; reflexivity ].
Qed.

(** Lines 70-71: the directory phase, in front of any continuation. *)
Lemma dir_phase {A} out (k : M A) fs :
  (ex <~ path_exists out ;;
   (if negb ex then makedirs out else ret tt) ;;; k) fs
  = if path_present fs out then k fs
    else if can_make fs out then k (with_out_dir fs out)
    else (fs, match makedirs out fs with (_, Raise e) => Raise e | _ => Raise (OSError sys_mkdir ENOENT out) end).
Proof.
  unfold bind at 1. unfold path_exists. fold (path_present fs out).
  unfold with_out_dir.
  destruct (path_present fs out) eqn:Hp; cbn [negb]; [reflexivity|].
  unfold bind.
  destruct (makedirs out fs) as [fs1 r] eqn:Hmk.
  apply makedirs_inv in Hmk as [(-> & -> & ->)|(-> & -> & c & ->)]; reflexivity.
Qed.

Lemma with_out_dir_files fs out : files (with_out_dir fs out) = files fs.
Proof. unfold with_out_dir. by case_match. Qed.

Lemma with_out_dir_present fs out :
  path_present fs out = true ∨ can_make fs out = true →
  path_present (with_out_dir fs out) out = true.
Proof.
  unfold with_out_dir. destruct (path_present fs out) eqn:Hp; [done|].
  intros _. unfold path_present, isdir. cbn.
  rewrite bool_decide_eq_true_2; [reflexivity|].
  apply elem_of_union_r, elem_of_singleton. reflexivity.
Qed.

Lemma with_out_dir_made fs out :
  path_present fs out = false →
  isdir (with_out_dir fs out) out = true ∧ with_out_dir fs out ≠ fs.
Proof.
  intros Hp. unfold with_out_dir. rewrite Hp. split.
  - unfold isdir. cbn. apply bool_decide_eq_true_2.
    apply elem_of_union_r, elem_of_singleton. reflexivity.
  - intros Heq. apply orb_false_iff in Hp as [Hd _].
    unfold isdir in Hd. apply bool_decide_eq_false in Hd.
    apply Hd. rewrite <- Heq. cbn.
    apply elem_of_union_r, elem_of_singleton. reflexivity.
Qed.

Lemma Image_save_inv im p fs fs' r :
  Image_save im p fs = (fs', r) →
  dirs fs' = dirs fs
  ∧ match r with
    | Ok _ =>
        ∃ fmt, format_of_ext (lower (snd (splitext p))) = Some fmt
               ∧ isdir fs p = false ∧ parent_ok fs p = true
               ∧ files fs' = <[p := Picture fmt (reread fmt im)]> (files fs)
    | Raise e =>
        fs' = fs ∧ is_decode_error e = false
        ∧ (∀ name, e ≠ unknown_preset_error name)
        ∧ (parent_ok fs p = true → isdir fs p = false →
           format_of_ext (lower (snd (splitext p))) = None)
    end.
Proof.
  unfold Image_save.
  destruct (format_of_ext (lower (snd (splitext p)))) as [fmt|] eqn:Hfmt.
  - destruct (isdir fs p) eqn:Hd; [intros; simplify_eq; by repeat split|].
    destruct (parent_ok fs p) eqn:Hpar; cbn [negb]; intros; simplify_eq.
    + split; [done|]. exists fmt. by repeat split.
    + by repeat split.
  - intros; simplify_eq. repeat split; auto using unknown_preset_neq_ext.
Qed.

(** The buffer [save_grayscale] hands to the writer. *)
Lemma save_grayscale_eq ch p fs :
  ∃ ch', save_grayscale ch p fs = Image_save ch' p fs
         ∧ mode ch' = "L"
         ∧ (mode ch = "L" → ch' = ch)
         ∧ (mode ch ≠ "L" → ch' = convert ch "L").
Proof.
  unfold save_grayscale.
  destruct (String.eqb_spec (mode ch) "L") as [E|NE]; cbn [negb].
  - exists ch. by repeat split.
  - exists (convert ch "L"). repeat split; [|done].
    apply convert_mode. in_list.
Qed.

End StepFacts.

(** ** [save_grayscale] *)

Section SaveGrayscale.
Context `{Pillow}.
Import PyStr os_path.

(** C8, amended: [save_grayscale] hands the writer a buffer of mode "L"
    (the buffer itself when it is one already, its conversion to "L"
    otherwise) and stores it at the destination path in the format of
    the path's extension, PNG and so without loss for a [.png] path; it
    never creates a directory: when the directory of the destination is
    absent the call raises and the file system is as before. *)
Theorem save_grayscale_writes ch out_path fs :
  ∃ ch',
    mode ch' = "L"
    ∧ (mode ch = "L" → ch' = ch)
    ∧ (mode ch ≠ "L" → ch' = convert ch "L")
    ∧ dirs (fst (save_grayscale ch out_path fs)) = dirs fs
    ∧ (parent_ok fs out_path = false →
       ∃ e, save_grayscale ch out_path fs = (fs, Raise e))
    ∧ (snd (save_grayscale ch out_path fs) = Ok tt →
       ∃ fmt,
         format_of_ext (lower (snd (splitext out_path))) = Some fmt
         ∧ files (fst (save_grayscale ch out_path fs))
           = <[out_path := Picture fmt (reread fmt ch')]> (files fs))
    ∧ (lower (snd (splitext out_path)) = ".png" →
       parent_ok fs out_path = true → isdir fs out_path = false →
       snd (save_grayscale ch out_path fs) = Ok tt
       ∧ Image_open out_path (fst (save_grayscale ch out_path fs))
         = (fst (save_grayscale ch out_path fs), Ok ch')).
Proof.
  destruct (save_grayscale_eq ch out_path fs) as (ch' & -> & HL & Hsame & Hconv).
  exists ch'. do 3 (split; [done|]).
  destruct (Image_save ch' out_path fs) as [fs' r] eqn:Hsave.
  pose proof (Image_save_inv _ _ _ _ _ Hsave) as [Hdirs Hr].
  cbn [fst snd]. split; [done|]. split; [|split].
  - intros Hpar. destruct r as [[]|e].
    + destruct Hr as (fmt & _ & _ & Hpar' & _). congruence.
    + destruct Hr as (-> & _). eauto.
  - intros ->. destruct Hr as (fmt & Hfmt & _ & _ & Hfiles). eauto.
  - intros Hext Hpar Hdir. rewrite Hext in *.
    destruct r as [[]|e].
    + split; [done|]. destruct Hr as (fmt & Hfmt & _ & _ & Hfiles).
      rewrite ext_png in Hfmt. simplify_eq.
      unfold Image_open, isdir in *. rewrite Hdirs, Hdir, Hfiles, lookup_insert_eq.
      by rewrite reread_png.
    + destruct Hr as (_ & _ & _ & Hnone).
      specialize (Hnone Hpar Hdir). rewrite ext_png in Hnone. discriminate.
Qed.

End SaveGrayscale.

(** ** [unpack_orm] *)

Section UnpackFacts.
Context `{Pillow}.
Import PyStr PyStrFacts PathFacts os_path.

Lemma channel_by_letter_raise img l e :
  channel_by_letter img l = Raise e →
  is_decode_error e = false ∧ ∀ name, e ≠ unknown_preset_error name.
Proof.
  unfold channel_by_letter, unknown_preset_error.
  repeat case_match; intros; simplify_eq; (split; [done|]); intros name;
    rewrite ?app_cons; discriminate.
Qed.


(** The directory phase once and for all: the call behaves as a call in
    the file system that already has the output directory. *)
Lemma unpack_orm_via_dir input out name ir im ah fs :
  path_present fs out = true ∨ can_make fs out = true →
  unpack_orm input out name ir im ah fs
  = unpack_orm input out name ir im ah (with_out_dir fs out).
Proof.
  intros Hok. unfold unpack_orm. rewrite !dir_phase.
  rewrite (with_out_dir_present _ _ Hok).
  unfold with_out_dir.
  destruct (path_present fs out) eqn:Hp; [done|].
  destruct Hok as [Hok| ->]; done.
Qed.

Lemma unpack_orm_no_dir_any out fs :
  path_present fs out = false → can_make fs out = false →
  ∃ c, ∀ input name ir im ah,
    unpack_orm input out name ir im ah fs
    = (fs, Raise (OSError sys_mkdir c out)).
Proof.
  intros Hp Hc.
  destruct (makedirs out fs) as [fs1 r] eqn:Hmk.
  pose proof (makedirs_inv _ _ _ _ Hmk) as [(? & _)|(_ & _ & c & ->)]; [congruence|].
  exists c. intros. unfold unpack_orm. by rewrite dir_phase, Hp, Hc, Hmk.
Qed.

Lemma unpack_orm_no_dir input out name ir im ah fs :
  path_present fs out = false → can_make fs out = false →
  ∃ c, unpack_orm input out name ir im ah fs
       = (fs, Raise (OSError sys_mkdir c out)).
Proof.
  intros Hp Hc. destruct (unpack_orm_no_dir_any out fs Hp Hc) as [c Hno].
  eauto.
Qed.



Lemma can_make_inv fs p :
  can_make fs p = true →
  String.eqb p "" = false
  ∧ (∀ q, q ∈ ancestors p → isfile fs q = false)
  ∧ isfile fs p = false.
Proof.
  unfold can_make.
  intros [[Hne Hanc%negb_true_iff]%andb_true_iff Hf%negb_true_iff]%andb_true_iff.
  apply negb_true_iff in Hne. repeat split; [done| |done].
  intros q Hq. destruct (isfile fs q) eqn:Hfq; [|done].
  assert (existsb (isfile fs) (ancestors p) = true); [|congruence].
  apply existsb_exists. exists q. split; [by apply list_elem_of_In|done].
Qed.

(** A regular file is not turned into a directory by the directory
    phase. *)
Lemma with_out_dir_isdir_file fs out p :
  path_present fs out = true ∨ can_make fs out = true →
  isfile fs p = true → isdir (with_out_dir fs out) p = isdir fs p.
Proof.
  intros Hok Hfile. unfold with_out_dir.
  destruct (path_present fs out) eqn:Hp; [done|].
  destruct Hok as [Hok|Hc]; [done|].
  apply can_make_inv in Hc as (_ & Hanc & Hout).
  unfold isdir at 1. cbn [dirs].
  destruct (isdir fs p) eqn:Hd.
  - apply bool_decide_eq_true_2. apply elem_of_union_l, elem_of_union_l.
    unfold isdir in Hd. by apply bool_decide_eq_true in Hd.
  - apply bool_decide_eq_false_2.
    intros [[Hin|Hin]%elem_of_union|Hin%elem_of_singleton]%elem_of_union.
    + unfold isdir in Hd. by apply bool_decide_eq_false in Hd.
    + apply elem_of_list_to_set in Hin. rewrite (Hanc _ Hin) in Hfile. done.
    + subst p. congruence.
Qed.

Lemma load_with_out_dir fs out input img :
  path_present fs out = true ∨ can_make fs out = true →
  load_image_rgb_or_rgba input fs = (fs, Ok img) →
  load_image_rgb_or_rgba input (with_out_dir fs out)
  = (with_out_dir fs out, Ok img).
Proof.
  intros Hok Hload.
  apply load_image_inv in Hload as (_ & Hd & fmt & raw & Hf & ->).
  rewrite load_image_rgb_or_rgba_eq. unfold Image_open.
  rewrite with_out_dir_isdir_file, Hd, with_out_dir_files, Hf; [done..|].
  unfold isfile. apply bool_decide_eq_true_2. by rewrite Hf.
Qed.


End UnpackFacts.

(** ** Channels and the files written *)

Section ChannelFacts.
Context `{Pillow}.
Import PyStr PyStrFacts PathFacts os_path.

Lemma normal_bands img :
  wf_image img = true →
  mode img = "RGB" ∨ mode img = "RGBA" →
  (3 ≤ length (bands img))%nat
  ∧ (mode img = "RGBA" → length (bands img) = 4%nat)
  ∧ (mode img = "RGB" → length (bands img) = 3%nat)
  ∧ Forall (Forall is_byte) (bands img).
Proof.
  intros Hwf Hmode. apply wf_image_inv in Hwf as (Hn & _ & H8).
  destruct Hmode as [E|E]; rewrite E in *;
    specialize (Hn _ eq_refl); specialize (H8 eq_refl);
    repeat split; try done; try lia; intros [=].
Qed.

Lemma split_bands img :
  (2 ≤ length (bands img))%nat → split img = map (gray img) (bands img).
Proof.
  unfold split. destruct (bands img) as [|b0 [|b1 bs]]; cbn; intros; [lia|lia|done].
Qed.

Lemma source_band_bytes img i :
  Forall (Forall is_byte) (bands img) → Forall is_byte (source_band img i).
Proof.
  intros Hb. unfold source_band.
  destruct (nth_in_or_default i (bands img) []) as [Hin| ->]; [|constructor].
  rewrite Forall_forall in Hb. apply Hb. by apply list_elem_of_In.
Qed.

(** Selecting a letter is a lookup of the band of its index. *)
Lemma channel_by_letter_ok img l i :
  (3 ≤ length (bands img))%nat →
  letter_index l = Some i →
  channel_by_letter img l = Ok (gray img (source_band img i)).
Proof.
  intros Hlen Hl. unfold channel_by_letter.
  rewrite split_bands by lia. unfold source_band.
  destruct (bands img) as [|b0 [|b1 [|b2 bs]]]; cbn in Hlen; try lia.
  cbn [map firstn]. unfold letter_index in Hl. cbn [dict_get] in *.
  repeat case_match; simplify_eq; reflexivity.
Qed.

Lemma inverted_bytes flag b : Forall is_byte b → Forall is_byte (inverted flag b).
Proof.
  intros Hb. destruct flag; [|done]. cbn.
  apply Forall_map. eapply Forall_impl; [exact Hb|].
  unfold is_byte. cbn. intros; lia.
Qed.

Lemma maybe_invert_gray img b flag :
  Forall is_byte b →
  maybe_invert (gray img b) flag = gray img (inverted flag b).
Proof.
  intros Hb. unfold maybe_invert, inverted. destruct flag; cbn [negb]; [|done].
  unfold Image_eval, gray. cbn [mode size bands map].
  change (eight_bit "L") with true. cbv iota. do 2 f_equal.
  induction Hb as [|v b Hv Hb IH]; [done|]. cbn [map]. rewrite IH. f_equal.
  unfold clip8, is_byte in *. lia.
Qed.

Lemma out_path_form out input stem :
  ∃ Y, out_path out input (stem +:+ ".png") = Y +:+ stem +:+ ".png".
Proof.
  unfold out_path, join.
  set (base := (splitext (basename input)).1).
  repeat case_match.
  - by exists base.
  - exists (out +:+ base). by rewrite ?app_assoc.
  - exists (out +:+ String sep base). by rewrite ?app_assoc.
Qed.

(** Every output goes to a [.png] path. *)
Lemma out_path_ext out input sfx :
  sfx ∈ suffixes → lower (snd (splitext (out_path out input sfx))) = ".png".
Proof.
  intros Hs. unfold suffixes in Hs. list_cases; subst sfx.
  - destruct (out_path_form out input "_AO") as [Y HY].
    change (out_path out input "_AO.png" = Y +:+ "_AO" +:+ ".png") in HY.
    rewrite HY.
    by rewrite splitext_png.
  - destruct (out_path_form out input "_Roughness") as [Y HY].
    change (out_path out input "_Roughness.png" = Y +:+ "_Roughness" +:+ ".png") in HY.
    rewrite HY.
    by rewrite splitext_png.
  - destruct (out_path_form out input "_Metallic") as [Y HY].
    change (out_path out input "_Metallic.png" = Y +:+ "_Metallic" +:+ ".png") in HY.
    rewrite HY.
    by rewrite splitext_png.
  - destruct (out_path_form out input "_Height") as [Y HY].
    change (out_path out input "_Height.png" = Y +:+ "_Height" +:+ ".png") in HY.
    rewrite HY.
    by rewrite splitext_png.
Qed.

(** Different suffixes, different paths. *)
Lemma out_path_inj out input s1 s2 :
  s1 ∈ suffixes → s2 ∈ suffixes →
  out_path out input s1 = out_path out input s2 → s1 = s2.
Proof.
  intros H1 H2. unfold out_path. apply join_suffix_inj.
  - unfold suffixes in H1. list_cases; by subst.
  - unfold suffixes in H2. list_cases; by subst.
Qed.

(** Saving a single-channel 8-bit buffer at an output path: a PNG file
    holding that very buffer, or an error of [open]. *)
Lemma save_grayscale_gray img b p fs :
  lower (snd (splitext p)) = ".png" →
  save_grayscale (gray img b) p fs
  = if isdir fs p then (fs, Raise (OSError sys_open_write EISDIR p))
    else if parent_ok fs p then (put fs p (gray img b), Ok tt)
    else (fs, Raise (OSError sys_open_write ENOENT p)).
Proof.
  intros Hext. unfold save_grayscale, Image_save. cbn [gray mode String.eqb negb].
  change (negb (String.eqb "L" "L")) with false. cbn iota.
  rewrite Hext, ext_png. rewrite reread_png by done.
  destruct (isdir fs p); [done|]. by destruct (parent_ok fs p).
Qed.

Lemma isdir_put fs p im q : isdir (put fs p im) q = isdir fs q.
Proof. reflexivity. Qed.

Lemma parent_ok_put fs p im q : parent_ok (put fs p im) q = parent_ok fs q.
Proof. reflexivity. Qed.

Lemma Image_open_put fs p im :
  isdir fs p = false → Image_open p (put fs p im) = (put fs p im, Ok im).
Proof.
  intros Hd. unfold Image_open. rewrite isdir_put, Hd. unfold put. cbn [files].
  by rewrite lookup_insert_eq.
Qed.

Lemma Image_open_put_ne fs p im q :
  p ≠ q →
  Image_open q (put fs p im)
  = (put fs p im, snd (Image_open q fs)).
Proof.
  intros Hne. unfold Image_open. rewrite isdir_put.
  assert (files (put fs p im) !! q = files fs !! q) as ->
    by (unfold put; cbn [files]; by rewrite lookup_insert_ne).
  destruct (isdir fs q); [done|]. by repeat case_match.
Qed.

End ChannelFacts.

(** ** Successful calls *)

Section UnpackSuccess.
Context `{Pillow}.
Import PyStr PyStrFacts PathFacts os_path.

Lemma load_normal input fs img :
  load_image_rgb_or_rgba input fs = (fs, Ok img) →
  mode img = "RGB" ∨ mode img = "RGBA".
Proof.
  intros Hload. apply load_image_inv in Hload as (_ & _ & fmt & raw & _ & ->).
  apply normal_form_mode.
Qed.

(** With the output directory in place, the image loaded and the preset
    found, the call is the sequence of its three or four writes. *)
Lemma unpack_orm_writes input out name ir im ah fs img a r m ia ir' im' :
  path_present fs out = true →
  load_image_rgb_or_rgba input fs = (fs, Ok img) →
  wf_image img = true →
  dict_get PRESETS name = Some (a, r, m) →
  letter_index a = Some ia → letter_index r = Some ir' →
  letter_index m = Some im' →
  unpack_orm input out name ir im ah fs
  = (save_grayscale (gray img (source_band img ia))
                    (out_path out input "_AO.png") ;;;
     save_grayscale (gray img (inverted ir (source_band img ir')))
                    (out_path out input "_Roughness.png") ;;;
     save_grayscale (gray img (inverted im (source_band img im')))
                    (out_path out input "_Metallic.png") ;;;
     if has_height img ah
     then save_grayscale (gray img (source_band img 3))
                         (out_path out input "_Height.png") ;;;
          ret (returned out input img ah)
     else ret (returned out input img ah)) fs.
Proof.
  intros Hp Hload Hwf Hpre Ha Hr Hm.
  pose proof (load_normal _ _ _ Hload) as Hmode.
  destruct (normal_bands img Hwf Hmode) as (H3 & H4 & _ & Hbytes).
  unfold unpack_orm. rewrite dir_phase, Hp.
  unfold bind at 1. rewrite Hload, Hpre.
  unfold lift, bind at 1 2 3.
  rewrite !(channel_by_letter_ok img _ _ H3) by eassumption.
  rewrite !maybe_invert_gray by (by apply source_band_bytes).
  fold (out_path out input "_AO.png") (out_path out input "_Roughness.png")
       (out_path out input "_Metallic.png") (out_path out input "_Height.png").
  fold (has_height img ah). unfold returned.
  destruct (has_height img ah) eqn:Hh; [|reflexivity].
  assert (mode img = "RGBA") as HA.
  { unfold has_height in Hh. apply andb_true_iff in Hh as [_ Hh].
    by apply String.eqb_eq in Hh. }
  specialize (H4 HA). rewrite split_bands by lia. unfold source_band.
  destruct (bands img) as [|b0 [|b1 [|b2 [|b3 [|b4 bs]]]]]; cbn in H4; try lia.
  reflexivity.
Qed.

Lemma writes_ok {T} out input img A R M Hh b fs (res1 res2 : T) :
  writable fs (out_path out input "_AO.png") →
  writable fs (out_path out input "_Roughness.png") →
  writable fs (out_path out input "_Metallic.png") →
  (b = true → writable fs (out_path out input "_Height.png")) →
  (save_grayscale (gray img A) (out_path out input "_AO.png") ;;;
   save_grayscale (gray img R) (out_path out input "_Roughness.png") ;;;
   save_grayscale (gray img M) (out_path out input "_Metallic.png") ;;;
   if b
   then save_grayscale (gray img Hh) (out_path out input "_Height.png") ;;;
        ret res1
   else ret res2) fs
  = (let fs3 := put (put (put fs (out_path out input "_AO.png") (gray img A))
                         (out_path out input "_Roughness.png") (gray img R))
                    (out_path out input "_Metallic.png") (gray img M) in
     if b then (put fs3 (out_path out input "_Height.png") (gray img Hh), Ok res1)
     else (fs3, Ok res2)).
Proof.
  intros [D1 P1] [D2 P2] [D3 P3] H4. unfold bind, ret.
  rewrite save_grayscale_gray by (apply out_path_ext; unfold suffixes; in_list).
  rewrite D1, P1. cbv beta iota.
  rewrite save_grayscale_gray by (apply out_path_ext; unfold suffixes; in_list).
  rewrite isdir_put, parent_ok_put, D2, P2. cbv beta iota.
  rewrite save_grayscale_gray by (apply out_path_ext; unfold suffixes; in_list).
  rewrite !isdir_put, !parent_ok_put, D3, P3. cbv beta iota zeta.
  destruct b; [|done].
  destruct (H4 eq_refl) as [D4 P4].
  rewrite save_grayscale_gray by (apply out_path_ext; unfold suffixes; in_list).
  by rewrite !isdir_put, !parent_ok_put, D4, P4.
Qed.

Lemma writes_inv {T} out input img A R M Hh (b : bool) fs fs'
    (res res1 res2 : T) :
  (save_grayscale (gray img A) (out_path out input "_AO.png") ;;;
   save_grayscale (gray img R) (out_path out input "_Roughness.png") ;;;
   save_grayscale (gray img M) (out_path out input "_Metallic.png") ;;;
   if b
   then save_grayscale (gray img Hh) (out_path out input "_Height.png") ;;;
        ret res1
   else ret res2) fs = (fs', Ok res) →
  writable fs (out_path out input "_AO.png")
  ∧ writable fs (out_path out input "_Roughness.png")
  ∧ writable fs (out_path out input "_Metallic.png")
  ∧ (b = true → writable fs (out_path out input "_Height.png")).
Proof.
  unfold bind, ret, writable.
  rewrite save_grayscale_gray by (apply out_path_ext; unfold suffixes; in_list).
  destruct (isdir fs (out_path out input "_AO.png")) eqn:D1; [done|].
  destruct (parent_ok fs (out_path out input "_AO.png")) eqn:P1; [|done].
  cbv beta iota.
  rewrite save_grayscale_gray by (apply out_path_ext; unfold suffixes; in_list).
  rewrite isdir_put, parent_ok_put.
  destruct (isdir fs (out_path out input "_Roughness.png")) eqn:D2; [done|].
  destruct (parent_ok fs (out_path out input "_Roughness.png")) eqn:P2; [|done].
  cbv beta iota.
  rewrite save_grayscale_gray by (apply out_path_ext; unfold suffixes; in_list).
  rewrite !isdir_put, !parent_ok_put.
  destruct (isdir fs (out_path out input "_Metallic.png")) eqn:D3; [done|].
  destruct (parent_ok fs (out_path out input "_Metallic.png")) eqn:P3; [|done].
  cbv beta iota.
  destruct b; [|by intros].
  rewrite save_grayscale_gray by (apply out_path_ext; unfold suffixes; in_list).
  rewrite !isdir_put, !parent_ok_put.
  destruct (isdir fs (out_path out input "_Height.png")) eqn:D4; [done|].
  destruct (parent_ok fs (out_path out input "_Height.png")) eqn:P4; [|done].
  by intros.
Qed.

Lemma prefixes_at_sep_shorter pre s q :
  q ∈ prefixes_at_sep pre s →
  (String.length q < String.length pre + String.length s)%nat.
Proof.
  revert pre. induction s as [|c s IH]; intros pre Hq; cbn in Hq.
  - by apply elem_of_nil in Hq.
  - apply elem_of_app in Hq as [Hq|Hq].
    + destruct (Ascii.eqb c sep && negb (String.eqb pre "")); list_cases.
      subst q. cbn. lia.
    + apply IH in Hq. rewrite length_app in Hq. cbn in *. lia.
Qed.

Lemma ancestors_shorter p q :
  q ∈ ancestors p → (String.length q < String.length p)%nat.
Proof. intros Hq. by apply prefixes_at_sep_shorter in Hq. Qed.

Lemma suffix_no_sep sfx : sfx ∈ suffixes → contains sep sfx = false.
Proof. intros Hs. unfold suffixes in Hs. list_cases; by subst. Qed.

Lemma usable_obtainable fs out :
  out_dir_usable fs out = true →
  (path_present fs out = true ∨ can_make fs out = true)
  ∧ isdir (with_out_dir fs out) out = true.
Proof.
  unfold out_dir_usable. intros [_ Hd]%andb_true_iff.
  destruct (isdir fs out) eqn:Hdir.
  - assert (path_present fs out = true) as Hp by (unfold path_present; by rewrite Hdir).
    split; [by left|]. unfold with_out_dir. by rewrite Hp.
  - cbn in Hd. split; [by right|].
    pose proof (can_make_inv _ _ Hd) as (_ & _ & Hf).
    apply with_out_dir_made. unfold path_present. by rewrite Hdir, Hf.
Qed.

(** In a usable output directory, an output path that no directory
    occupies can be written once the directory phase is over. *)
Lemma usable_writable fs out input sfx :
  out_dir_usable fs out = true →
  sfx ∈ suffixes →
  isdir fs (out_path out input sfx) = false →
  writable (with_out_dir fs out) (out_path out input sfx).
Proof.
  intros Hu Hs Hfree.
  pose proof (usable_obtainable _ _ Hu) as [Hok Hdir].
  unfold out_dir_usable in Hu.
  apply andb_true_iff in Hu as [[Hne%negb_true_iff Hend%negb_true_iff]%andb_true_iff _].
  assert (Hf : contains sep ((splitext (basename input)).1 +:+ sfx) = false).
  { by rewrite contains_app, base_no_sep, suffix_no_sep. }
  assert (Hpath : out_path out input sfx
                  = out +:+ String sep ((splitext (basename input)).1 +:+ sfx)).
  { unfold out_path. by apply join_in_dir. }
  split.
  - unfold with_out_dir. destruct (path_present fs out); [done|].
    unfold isdir in *. cbn [dirs]. apply bool_decide_eq_false_2.
    apply bool_decide_eq_false in Hfree.
    intros [[Hin|Hin]%elem_of_union|Hin%elem_of_singleton]%elem_of_union.
    + done.
    + apply elem_of_list_to_set, ancestors_shorter in Hin.
      rewrite Hpath, length_app in Hin. cbn in Hin. lia.
    + apply (f_equal String.length) in Hin.
      rewrite Hpath, length_app in Hin. cbn in Hin. lia.
  - unfold parent_ok. rewrite Hpath, dirname_in_dir by done.
    rewrite Hdir. apply orb_true_r.
Qed.

(** What a successful call did and returned. *)
Lemma unpack_orm_ok_inv input out name ir im ah fs fs' res img a r m ia ir' im' :
  load_image_rgb_or_rgba input fs = (fs, Ok img) →
  wf_image img = true →
  dict_get PRESETS name = Some (a, r, m) →
  letter_index a = Some ia → letter_index r = Some ir' →
  letter_index m = Some im' →
  unpack_orm input out name ir im ah fs = (fs', Ok res) →
  fs' = unpacked (with_out_dir fs out) out input img ia ir' im' ir im ah
  ∧ res = returned out input img ah
  ∧ writable (with_out_dir fs out) (out_path out input "_AO.png")
  ∧ writable (with_out_dir fs out) (out_path out input "_Roughness.png")
  ∧ writable (with_out_dir fs out) (out_path out input "_Metallic.png")
  ∧ (has_height img ah = true →
     writable (with_out_dir fs out) (out_path out input "_Height.png")).
Proof.
  intros Hload Hwf Hpre Ha Hr Hm Hrun.
  assert (Hok : path_present fs out = true ∨ can_make fs out = true).
  { destruct (path_present fs out) eqn:Hp; [by left|].
    destruct (can_make fs out) eqn:Hc; [by right|].
    destruct (unpack_orm_no_dir input out name ir im ah fs Hp Hc) as [c Hno].
    rewrite Hno in Hrun. discriminate. }
  rewrite unpack_orm_via_dir in Hrun by done.
  rewrite (unpack_orm_writes _ _ _ _ _ _ _ img a r m ia ir' im') in Hrun;
    [|by apply with_out_dir_present|by apply load_with_out_dir|done..].
  pose proof (writes_inv _ _ _ _ _ _ _ _ _ _ _ _ _ Hrun) as (W1 & W2 & W3 & W4).
  rewrite writes_ok in Hrun by done.
  unfold unpacked. cbv zeta in Hrun.
  destruct (has_height img ah); simplify_eq;
    do 5 (split; [done|]); first [exact W4 | done].
Qed.

(** A call in a usable output directory whose output paths are free
    goes through. *)
Lemma unpack_orm_ok_run input out name ir im ah fs img a r m ia ir' im' :
  load_image_rgb_or_rgba input fs = (fs, Ok img) →
  wf_image img = true →
  dict_get PRESETS name = Some (a, r, m) →
  letter_index a = Some ia → letter_index r = Some ir' →
  letter_index m = Some im' →
  out_dir_usable fs out = true →
  targets_free fs input out = true →
  unpack_orm input out name ir im ah fs
  = (unpacked (with_out_dir fs out) out input img ia ir' im' ir im ah,
     Ok (returned out input img ah)).
Proof.
  intros Hload Hwf Hpre Ha Hr Hm Hu Hfree.
  pose proof (usable_obtainable _ _ Hu) as [Hok _].
  unfold targets_free, suffixes in Hfree. cbn [forallb] in Hfree.
  repeat (apply andb_true_iff in Hfree as [?%negb_true_iff Hfree]).
  rewrite unpack_orm_via_dir by done.
  rewrite (unpack_orm_writes _ _ _ _ _ _ _ img a r m ia ir' im');
    [|by apply with_out_dir_present|by apply load_with_out_dir|done..].
  rewrite writes_ok;
    [|try intros _; apply usable_writable; [done|unfold suffixes; in_list|done]..].
  unfold unpacked. cbv zeta. by destruct (has_height img ah).
Qed.

Lemma Image_open_file fs q fmt im :
  isdir fs q = false → files fs !! q = Some (Picture fmt im) →
  Image_open q fs = (fs, Ok im).
Proof. intros Hd Hf. unfold Image_open. by rewrite Hd, Hf. Qed.

Lemma isdir_unpacked fs out input img ia ir' im' ir im ah q :
  isdir (unpacked fs out input img ia ir' im' ir im ah) q = isdir fs q.
Proof. unfold unpacked. cbv zeta. by destruct (has_height img ah). Qed.

(** The files of the outcome, path by path. *)
Lemma files_unpacked fs out input img ia ir' im' ir im ah :
  let fs' := unpacked fs out input img ia ir' im' ir im ah in
  files fs' !! out_path out input "_AO.png"
  = Some (Picture "PNG" (gray img (source_band img ia)))
  ∧ files fs' !! out_path out input "_Roughness.png"
    = Some (Picture "PNG" (gray img (inverted ir (source_band img ir'))))
  ∧ files fs' !! out_path out input "_Metallic.png"
    = Some (Picture "PNG" (gray img (inverted im (source_band img im'))))
  ∧ (has_height img ah = true →
     files fs' !! out_path out input "_Height.png"
     = Some (Picture "PNG" (gray img (source_band img 3)))).
Proof.
  assert (Hne : ∀ s1 s2, s1 ∈ suffixes → s2 ∈ suffixes → s1 ≠ s2 →
                         out_path out input s1 ≠ out_path out input s2).
  { intros s1 s2 H1 H2 Hne Heq. by apply Hne, (out_path_inj out input). }
  assert (Hs : ∀ s, s ∈ ["_AO.png"; "_Roughness.png"; "_Metallic.png"; "_Height.png"]
                    → s ∈ suffixes) by done.
  cbv zeta. unfold unpacked. cbv zeta.
  destruct (has_height img ah); unfold put; cbn [files];
    repeat split; try discriminate; intros;
    repeat first
      [ rewrite lookup_insert_eq
      | rewrite lookup_insert_ne by (apply Hne; [apply Hs; in_list..|discriminate]) ];
    reflexivity.
Qed.

End UnpackSuccess.

(** ** The outputs of [unpack_orm] *)

Section UnpackOutputs.
Context `{Pillow}.
Import PyStr PyStrFacts PathFacts os_path.

(** The paths a successful call returns, whatever the image. *)
Lemma unpack_orm_ok_paths input out name ir im ah fs fs' res :
  unpack_orm input out name ir im ah fs = (fs', Ok res) →
  ∃ img, res = returned out input img ah.
Proof.
  intros Hrun.
  assert (Hok : path_present fs out = true ∨ can_make fs out = true).
  { destruct (path_present fs out) eqn:Hp; [by left|].
    destruct (can_make fs out) eqn:Hc; [by right|].
    destruct (unpack_orm_no_dir input out name ir im ah fs Hp Hc) as [c Hno].
    rewrite Hno in Hrun. discriminate. }
  rewrite unpack_orm_via_dir in Hrun by done.
  unfold unpack_orm in Hrun.
  rewrite dir_phase, (with_out_dir_present _ _ Hok) in Hrun.
  unfold bind, lift, raise, ret in Hrun.
  destruct (load_image_rgb_or_rgba input _) as [fs1 [img|e1]]; [|discriminate].
  exists img. unfold returned, has_height, out_path.
  destruct (dict_get PRESETS name) as [[[a r] m]|]; [|discriminate].
  destruct (channel_by_letter img a); [|discriminate].
  destruct (channel_by_letter img r); [|discriminate].
  destruct (channel_by_letter img m); [|discriminate].
  destruct (save_grayscale _ _ fs1) as [f1 [[]|?]]; [|discriminate].
  destruct (save_grayscale _ _ f1) as [f2 [[]|?]]; [|discriminate].
  destruct (save_grayscale _ _ f2) as [f3 [[]|?]]; [|discriminate].
  destruct (ah && String.eqb (mode img) "RGBA"); [|by simplify_eq].
  destruct (split img) as [|c1 [|c2 [|c3 [|c4 [|c5 cs]]]]]; try discriminate.
  destruct (save_grayscale _ _ f3) as [f4 [[]|?]]; [|discriminate].
  by simplify_eq.
Qed.

(** C1: for a normalised image, a registered preset and any invert
    flags, the AO, Roughness and Metallic files that [unpack_orm] wrote
    read back as single-channel 8-bit images (mode "L", one band of
    bytes) that hold exactly the band of the source image at the index
    of the preset's letter (R is 0, G is 1, B is 2), every sample [v]
    replaced by [255 - v] for Roughness and Metallic when their flag is
    set and never for AO; and the call does go through where the output
    directory is usable and no directory occupies an output path. *)
Theorem unpack_orm_channels input out name ir im ah fs img a r m :
  load_image_rgb_or_rgba input fs = (fs, Ok img) →
  wf_image img = true →
  dict_get PRESETS name = Some (a, r, m) →
  ∃ ia ir' im',
    letter_index a = Some ia ∧ letter_index r = Some ir'
    ∧ letter_index m = Some im'
    ∧ (letter_index "R" = Some 0%nat ∧ letter_index "G" = Some 1%nat
       ∧ letter_index "B" = Some 2%nat)
    ∧ (∀ fs' ao_path rough_path metal_path height,
         unpack_orm input out name ir im ah fs
         = (fs', Ok (ao_path, rough_path, metal_path, height)) →
         Image_open ao_path fs'
         = (fs', Ok (gray img (source_band img ia)))
         ∧ Image_open rough_path fs'
           = (fs', Ok (gray img (inverted ir (source_band img ir'))))
         ∧ Image_open metal_path fs'
           = (fs', Ok (gray img (inverted im (source_band img im'))))
         ∧ Forall is_byte (source_band img ia)
         ∧ Forall is_byte (inverted ir (source_band img ir'))
         ∧ Forall is_byte (inverted im (source_band img im')))
    ∧ (out_dir_usable fs out = true → targets_free fs input out = true →
       ∃ fs' res, unpack_orm input out name ir im ah fs = (fs', Ok res)).
Proof.
  intros Hload Hwf Hpre.
  destruct (preset_letters _ _ _ _ Hpre) as ([ia Ha] & [ir' Hr] & [im' Hm]).
  exists ia, ir', im'. do 4 (split; [done|]). split.
  - intros fs' ao_path rough_path metal_path height Hrun.
    destruct (unpack_orm_ok_inv _ _ _ _ _ _ _ _ _ _ _ _ _ _ _ _
                Hload Hwf Hpre Ha Hr Hm Hrun)
      as (-> & Hres & [D1 _] & [D2 _] & [D3 _] & _).
    unfold returned in Hres. simplify_eq.
    pose proof (files_unpacked (with_out_dir fs out) out input img
                  ia ir' im' ir im ah) as (F1 & F2 & F3 & _).
    pose proof (normal_bands img Hwf (load_normal _ _ _ Hload)) as (_ & _ & _ & Hb).
    repeat split;
      try (eapply Image_open_file; [by rewrite isdir_unpacked|eassumption]);
      auto using source_band_bytes, inverted_bytes.
  - intros Hu Hfree. eexists _, _.
    by eapply unpack_orm_ok_run.
Qed.

Lemma has_height_bands img ah :
  wf_image img = true → mode img = "RGB" ∨ mode img = "RGBA" →
  has_height img ah = true ↔ ah = true ∧ length (bands img) = 4%nat.
Proof.
  intros Hwf Hmode. destruct (normal_bands img Hwf Hmode) as (_ & H4 & H3 & _).
  unfold has_height. rewrite andb_true_iff, String.eqb_eq.
  split; intros [Hah Hm]; (split; [done|]); [auto|].
  destruct Hmode as [E|E]; [|done]. specialize (H3 E). lia.
Qed.

(** C2: the height output of a call is there exactly when
    [export_alpha_as_height] is set and the normalised image has four
    bands; it then reads back as the alpha band, sample for sample and
    never inverted; otherwise the returned height is [None], and the
    call goes through all the same where the output directory is usable
    and no directory occupies an output path. *)
Theorem unpack_orm_height input out name ir im ah fs img a r m :
  load_image_rgb_or_rgba input fs = (fs, Ok img) →
  wf_image img = true →
  dict_get PRESETS name = Some (a, r, m) →
  (∀ fs' ao_path rough_path metal_path height,
     unpack_orm input out name ir im ah fs
     = (fs', Ok (ao_path, rough_path, metal_path, height)) →
     (is_Some height ↔ ah = true ∧ length (bands img) = 4%nat)
     ∧ (∀ height_path, height = Some height_path →
          Image_open height_path fs'
          = (fs', Ok (gray img (source_band img 3)))))
  ∧ (out_dir_usable fs out = true → targets_free fs input out = true →
     ∃ fs' ao_path rough_path metal_path,
       unpack_orm input out name ir im ah fs
       = (fs', Ok (ao_path, rough_path, metal_path,
                   if ah && Nat.eqb (length (bands img)) 4
                   then Some (out_path out input "_Height.png")
                   else None))).
Proof.
  intros Hload Hwf Hpre.
  destruct (preset_letters _ _ _ _ Hpre) as ([ia Ha] & [ir' Hr] & [im' Hm]).
  pose proof (has_height_bands img ah Hwf (load_normal _ _ _ Hload)) as Hh.
  split.
  - intros fs' ao_path rough_path metal_path height Hrun.
    destruct (unpack_orm_ok_inv _ _ _ _ _ _ _ _ _ _ _ _ _ _ _ _
                Hload Hwf Hpre Ha Hr Hm Hrun)
      as (-> & Hres & _ & _ & _ & W4).
    unfold returned in Hres.
    pose proof (files_unpacked (with_out_dir fs out) out input img
                  ia ir' im' ir im ah) as (_ & _ & _ & F4).
    destruct (has_height img ah) eqn:Hhh; simplify_eq.
    + split; [split; [intros _; by apply Hh|eauto]|].
      intros hp [= <-]. destruct (W4 eq_refl) as [D4 _].
      eapply Image_open_file; [by rewrite isdir_unpacked|by apply F4].
    + split; [|intros hp [=]]. split; [by intros [? [=]]|].
      intros Hc. apply Hh in Hc. discriminate.
  - intros Hu Hfree. eexists _, _, _, _.
    rewrite (unpack_orm_ok_run _ _ _ _ _ _ _ _ _ _ _ _ _ _
               Hload Hwf Hpre Ha Hr Hm Hu Hfree).
    unfold returned. do 3 f_equal.
    destruct (has_height img ah) eqn:Hhh.
    + destruct Hh as [Hh _]. destruct (Hh eq_refl) as [-> ->]. reflexivity.
    + destruct ah; [|reflexivity].
      destruct (Nat.eqb_spec (length (bands img)) 4) as [E|NE]; [|reflexivity].
      destruct Hh as [_ Hh]. by specialize (Hh (conj eq_refl E)).
Qed.

Lemma out_path_name pre name ext out sfx :
  file_name_parts name ext = true →
  String.eqb pre "" || endswith sep pre = true →
  String.eqb out "" = false →
  sfx ∈ suffixes →
  out_path out (pre +:+ name +:+ String extsep ext) sfx
  = in_dir out (name +:+ sfx).
Proof.
  unfold file_name_parts.
  intros [[[Hn%negb_true_iff He%negb_true_iff]%andb_true_iff
           Hd%negb_true_iff]%andb_true_iff Ha%negb_true_iff]%andb_true_iff
         Hpre Hout Hs.
  unfold out_path.
  rewrite basename_app; [|done|].
  2: { rewrite contains_app, Hn. cbn -[sep]. rewrite He.
       reflexivity. }
  rewrite <- (app_nil_l (name +:+ String extsep ext)).
  rewrite splitext_name_ext by done. cbn [fst]. rewrite app_nil_l.
  apply join_relative; [|done].
  apply startswith_absent. by rewrite contains_app, Hn, suffix_no_sep.
Qed.

(** C6: for an input file [name.ext] (in any directory) and an output
    directory [D], the paths [unpack_orm] returns are [D/name_AO.png],
    [D/name_Roughness.png], [D/name_Metallic.png] and, when the height
    is exported, [D/name_Height.png], where [name] is the base name of
    the input without its extension; and the call does return them
    where the image loads, the preset is registered, the output
    directory is usable and no directory occupies an output path. *)
Theorem unpack_orm_paths pre name ext out preset_name ir im ah fs :
  file_name_parts name ext = true →
  String.eqb pre "" || endswith sep pre = true →
  String.eqb out "" = false →
  (∀ fs' res,
     unpack_orm (pre +:+ name +:+ String extsep ext) out preset_name
                ir im ah fs = (fs', Ok res) →
     ∃ height,
       res = (in_dir out (name +:+ "_AO.png"),
              in_dir out (name +:+ "_Roughness.png"),
              in_dir out (name +:+ "_Metallic.png"), height)
       ∧ (height = None ∨ height = Some (in_dir out (name +:+ "_Height.png"))))
  ∧ (∀ img a r m,
       load_image_rgb_or_rgba (pre +:+ name +:+ String extsep ext) fs
       = (fs, Ok img) →
       wf_image img = true →
       dict_get PRESETS preset_name = Some (a, r, m) →
       out_dir_usable fs out = true →
       targets_free fs (pre +:+ name +:+ String extsep ext) out = true →
       ∃ fs',
         unpack_orm (pre +:+ name +:+ String extsep ext) out preset_name
                    ir im ah fs
         = (fs', Ok (in_dir out (name +:+ "_AO.png"),
                     in_dir out (name +:+ "_Roughness.png"),
                     in_dir out (name +:+ "_Metallic.png"),
                     if has_height img ah
                     then Some (in_dir out (name +:+ "_Height.png"))
                     else None))).
Proof.
  intros Hparts Hpre Hout.
  assert (Hp : ∀ sfx, sfx ∈ suffixes →
            out_path out (pre +:+ name +:+ String extsep ext) sfx
            = in_dir out (name +:+ sfx))
    by (intros; by apply out_path_name).
  assert (E1 := Hp "_AO.png" ltac:(unfold suffixes; in_list)).
  assert (E2 := Hp "_Roughness.png" ltac:(unfold suffixes; in_list)).
  assert (E3 := Hp "_Metallic.png" ltac:(unfold suffixes; in_list)).
  assert (E4 := Hp "_Height.png" ltac:(unfold suffixes; in_list)).
  split.
  - intros fs' res Hrun.
    apply unpack_orm_ok_paths in Hrun as [img ->].
    unfold returned. rewrite E1, E2, E3, E4.
    eexists. split; [reflexivity|]. destruct (has_height img ah); auto.
  - intros img a r m Hload Hwf Hpreset Hu Hfree.
    destruct (preset_letters _ _ _ _ Hpreset) as ([ia Ha] & [ir' Hr] & [im' Hm]).
    eexists.
    rewrite (unpack_orm_ok_run _ _ _ _ _ _ _ _ _ _ _ _ _ _
               Hload Hwf Hpreset Ha Hr Hm Hu Hfree).
    unfold returned. by rewrite E1, E2, E3, E4.
Qed.

End UnpackOutputs.

(** ** The invert flags and the AO output *)

Section InvertFlags.
Context `{Pillow}.
Import PyStr PyStrFacts PathFacts os_path.

Lemma agree_off_refl fs : agree_off [] fs fs.
Proof. by split. Qed.

(** Writing two buffers at one path in two file systems that agree
    gives the same outcome and file systems that agree off that path. *)
Lemma save_agree P chA chB p fsA fsB :
  agree_off P fsA fsB →
  ∃ fa fb r,
    save_grayscale chA p fsA = (fa, r)
    ∧ save_grayscale chB p fsB = (fb, r)
    ∧ agree_off (p :: P) fa fb.
Proof.
  intros [Hd Hf].
  destruct (save_grayscale_eq chA p fsA) as (bA & -> & _).
  destruct (save_grayscale_eq chB p fsB) as (bB & -> & _).
  assert (Hweak : agree_off (p :: P) fsA fsB).
  { split; [done|]. intros q Hq. apply Hf. intros Hin. apply Hq.
    by apply list_elem_of_further. }
  unfold Image_save, parent_ok, isdir. rewrite Hd.
  destruct (format_of_ext _) as [fmt|]; [|by eexists _, _, _].
  destruct (bool_decide (p ∈ dirs fsB)); [by eexists _, _, _|].
  destruct (negb _); [by eexists _, _, _|].
  eexists _, _, _. do 2 (split; [reflexivity|]).
  split; [done|]. cbn [files]. intros q Hq.
  rewrite !lookup_insert_ne; [|intros ->; apply Hq; in_list..].
  apply Hf. intros Hin. apply Hq. by apply list_elem_of_further.
Qed.

Lemma unpack_orm_agree input out name ah fs irA imA irB imB :
  path_present fs out = true →
  ∃ fa fb r,
    unpack_orm input out name irA imA ah fs = (fa, r)
    ∧ unpack_orm input out name irB imB ah fs = (fb, r)
    ∧ agree_off [out_path out input "_Height.png";
                 out_path out input "_Metallic.png";
                 out_path out input "_Roughness.png"] fa fb.
Proof.
  intros Hp.
  assert (Hrefl : ∀ f (r : outcome (string * string * string * option string)),
            ∃ fa fb r0, (f, r) = (fa, r0) ∧ (f, r) = (fb, r0)
                        ∧ agree_off [out_path out input "_Height.png";
                                     out_path out input "_Metallic.png";
                                     out_path out input "_Roughness.png"] fa fb).
  { intros f r. exists f, f, r. by repeat split. }
  assert (Hweak : ∀ P fa fb,
            agree_off P fa fb →
            P ⊆ [out_path out input "_Height.png";
                 out_path out input "_Metallic.png";
                 out_path out input "_Roughness.png"] →
            agree_off [out_path out input "_Height.png";
                       out_path out input "_Metallic.png";
                       out_path out input "_Roughness.png"] fa fb).
  { intros P fa fb [Hd Hf] Hsub. split; [done|].
    intros q Hq. apply Hf. intros Hin. by apply Hq, Hsub. }
  unfold unpack_orm. rewrite !dir_phase, Hp.
  unfold bind, lift, raise, ret.
  fold (out_path out input "_AO.png") (out_path out input "_Roughness.png")
       (out_path out input "_Metallic.png") (out_path out input "_Height.png").
  destruct (load_image_rgb_or_rgba input fs) as [f0 [img|e]]; [|apply Hrefl].
  destruct (dict_get PRESETS name) as [[[a r] m]|]; [|apply Hrefl].
  destruct (channel_by_letter img a) as [ac|e]; [|apply Hrefl].
  destruct (channel_by_letter img r) as [rc|e]; [|apply Hrefl].
  destruct (channel_by_letter img m) as [mc|e]; [|apply Hrefl].
  destruct (save_grayscale ac _ f0) as [f1 [[]|e]]; [|apply Hrefl].
  destruct (save_agree [] (maybe_invert rc irA) (maybe_invert rc irB)
              (out_path out input "_Roughness.png") f1 f1 (agree_off_refl f1))
    as (fa2 & fb2 & r2 & -> & -> & Hag2).
  destruct r2 as [[]|e].
  2: { eexists _, _, _. do 2 (split; [reflexivity|]).
       apply (Hweak _ _ _ Hag2). intros q Hq. list_cases; subst q; in_list. }
  destruct (save_agree _ (maybe_invert mc imA) (maybe_invert mc imB)
              (out_path out input "_Metallic.png") fa2 fb2 Hag2)
    as (fa3 & fb3 & r3 & -> & -> & Hag3).
  destruct r3 as [[]|e].
  2: { eexists _, _, _. do 2 (split; [reflexivity|]).
       apply (Hweak _ _ _ Hag3). intros q Hq. list_cases; subst q; in_list. }
  destruct (ah && String.eqb (mode img) "RGBA").
  2: { eexists _, _, _. do 2 (split; [reflexivity|]).
       apply (Hweak _ _ _ Hag3). intros q Hq. list_cases; subst q; in_list. }
  destruct (split img) as [|c1 [|c2 [|c3 [|c4 [|c5 cs]]]]];
    try (eexists _, _, _; do 2 (split; [reflexivity|]);
         apply (Hweak _ _ _ Hag3); intros q Hq; list_cases; subst q; in_list).
  destruct (save_agree _ c4 c4 (out_path out input "_Height.png") fa3 fb3 Hag3)
    as (fa4 & fb4 & r4 & -> & -> & Hag4).
  destruct r4 as [[]|e]; eexists _, _, _; (do 2 (split; [reflexivity|]));
    apply (Hweak _ _ _ Hag4); intros q Hq; list_cases; subst q; in_list.
Qed.

(** C9: two calls of [unpack_orm] that differ only in
    [invert_roughness] and [invert_metallic] end alike, with the same
    result or the same exception, and leave the same file, or none, at
    the AO path, which is the AO path a successful call returns: the AO
    output does not depend on the invert flags. *)
Theorem ao_ignores_invert_flags input out name ah fs irA imA irB imB :
  snd (unpack_orm input out name irA imA ah fs)
  = snd (unpack_orm input out name irB imB ah fs)
  ∧ files (fst (unpack_orm input out name irA imA ah fs))
      !! out_path out input "_AO.png"
    = files (fst (unpack_orm input out name irB imB ah fs))
        !! out_path out input "_AO.png"
  ∧ (∀ fs' ao_path rough_path metal_path height,
       unpack_orm input out name irA imA ah fs
       = (fs', Ok (ao_path, rough_path, metal_path, height)) →
       ao_path = out_path out input "_AO.png").
Proof.
  assert (Hmain :
    snd (unpack_orm input out name irA imA ah fs)
    = snd (unpack_orm input out name irB imB ah fs)
    ∧ files (fst (unpack_orm input out name irA imA ah fs))
        !! out_path out input "_AO.png"
      = files (fst (unpack_orm input out name irB imB ah fs))
          !! out_path out input "_AO.png").
  { assert (Hin : ∀ fs1, path_present fs1 out = true →
      snd (unpack_orm input out name irA imA ah fs1)
      = snd (unpack_orm input out name irB imB ah fs1)
      ∧ files (fst (unpack_orm input out name irA imA ah fs1))
          !! out_path out input "_AO.png"
        = files (fst (unpack_orm input out name irB imB ah fs1))
            !! out_path out input "_AO.png").
    { intros fs1 Hp.
      destruct (unpack_orm_agree input out name ah fs1 irA imA irB imB Hp)
        as (fa & fb & r & -> & -> & _ & Hf).
      split; [done|]. cbn [fst]. apply Hf.
      intros Hq. list_cases;
        apply (out_path_inj out input) in Hq; try discriminate;
        unfold suffixes; in_list. }
    destruct (path_present fs out) eqn:Hp; [by apply Hin|].
    destruct (can_make fs out) eqn:Hc.
    - rewrite !(unpack_orm_via_dir _ _ _ _ _ _ fs) by auto.
      apply Hin, with_out_dir_present. auto.
    - destruct (unpack_orm_no_dir_any out fs Hp Hc) as [c Hno].
      by rewrite !Hno. }
  destruct Hmain as [H1 H2]. do 2 (split; [done|]).
  intros fs' ao_path rough_path metal_path height Hrun.
  apply unpack_orm_ok_paths in Hrun as [img Hres].
  unfold returned in Hres. injection Hres as Hao _ _ _. exact Hao.
Qed.

End InvertFlags.

(** ** Batch traversal *)

Section BatchFacts.
Context `{Pillow}.
Import PyStr PyStrFacts PathFacts os_path.

(** Induction on directory trees, with the hypothesis on every
    sub-directory. *)
Lemma DirTree_induction (P : DirTree → Prop) :
  (∀ names subdirs, Forall (fun d => P (snd d)) subdirs → P (Dir names subdirs)) →
  ∀ t, P t.
Proof.
  intros Hdir. fix IH 1. intros [names subdirs]. apply Hdir.
  induction subdirs as [|[dname sub] subdirs IHs]; constructor; [apply IH|exact IHs].
Qed.

Lemma images_of_walk_app w1 w2 :
  images_of_walk (w1 ++ w2) = images_of_walk w1 ++ images_of_walk w2.
Proof. unfold images_of_walk. apply flat_map_app. Qed.

Lemma images_of_walk_cons root_dir dnames names walk :
  images_of_walk ((root_dir, dnames, names) :: walk)
  = map (join root_dir) (filter (fun n => supported n = true) names)
    ++ images_of_walk walk.
Proof.
  unfold images_of_walk. cbn [flat_map]. f_equal.
  induction names as [|n names IH]; [done|]. cbn [flat_map].
  rewrite IH. rewrite filter_cons.
  destruct (supported n) eqn:Hn.
  - rewrite decide_True by done. reflexivity.
  - rewrite decide_False by (by intros ?). reflexivity.
Qed.

(** What the walk finds: the supported files of the tree, each under
    the path of its directory. *)
Lemma images_found top t p :
  p ∈ images_of_walk (os_walk top t)
  ↔ ∃ d name, file_under top t d name ∧ supported name = true
              ∧ p = join d name.
Proof.
  revert top. induction t as [names subdirs IH] using DirTree_induction.
  intros top. cbn [os_walk]. rewrite images_of_walk_cons, elem_of_app.
  split.
  - intros [Hhere|Hbelow].
    + apply list_elem_of_fmap in Hhere as (name & -> & Hname).
      apply list_elem_of_filter in Hname as [Hs Hname].
      exists top, name. split; [by constructor|done].
    + clear -IH Hbelow.
      assert (∃ dname sub, (dname, sub) ∈ subdirs
                ∧ p ∈ images_of_walk (os_walk (join top dname) sub))
        as (dname & sub & Hin & Hp).
      { induction subdirs as [|[dn sb] subdirs IHs]; cbn [flat_map] in Hbelow.
        - by apply elem_of_nil in Hbelow.
        - rewrite images_of_walk_app, elem_of_app in Hbelow.
          destruct Hbelow as [Hb|Hb].
          + exists dn, sb. split; [in_list|done].
          + apply Forall_cons in IH as [_ IH].
            destruct (IHs IH Hb) as (dname & sub & Hin & Hp).
            exists dname, sub. split; [by apply list_elem_of_further|done]. }
      rewrite Forall_forall in IH.
      apply (IH (dname, sub) Hin) in Hp as (d & name & Hu & Hs & ->).
      exists d, name. split; [|done]. by econstructor.
  - intros (d & name & Hu & Hs & ->).
    inversion Hu as [? ? ? ? Hname|? ? ? dname sub ? ? Hin Hsub]; subst.
    + left. apply list_elem_of_fmap. exists name. split; [done|].
      by apply list_elem_of_filter.
    + right. rewrite Forall_forall in IH.
      assert (Hp : join d name ∈ images_of_walk (os_walk (join top dname) sub)).
      { apply (IH (dname, sub) Hin). eauto. }
      clear -Hin Hp.
      induction subdirs as [|[dn sb] subdirs IHs]; [by apply elem_of_nil in Hin|].
      cbn [flat_map]. rewrite images_of_walk_app, elem_of_app.
      apply elem_of_cons in Hin as [Heq|Hin]; [simplify_eq; by left|].
      right. by apply IHs.
Qed.

Lemma images_found_count top t :
  length (images_of_walk (os_walk top t)) = count_supported t.
Proof.
  revert top. induction t as [names subdirs IH] using DirTree_induction.
  intros top. cbn [os_walk count_supported].
  rewrite images_of_walk_cons, List.length_app, List.length_map. f_equal.
  induction subdirs as [|[dn sb] subdirs IHs]; [done|].
  apply Forall_cons in IH as [IHd IH].
  cbn [flat_map map list_sum]. rewrite images_of_walk_app, List.length_app.
  rewrite IHd, (IHs IH). reflexivity.
Qed.

Lemma for_each_app {A S} (xs ys : list A) (body : A → S → M S) s fs :
  for_each (xs ++ ys) body s fs
  = (s' <~ for_each xs body s ;; for_each ys body s') fs.
Proof.
  revert s fs. induction xs as [|x xs IH]; intros s fs; [reflexivity|].
  cbn [app for_each]. unfold bind.
  destruct (body x s fs) as [fs1 [s1|e]]; [|reflexivity].
  rewrite IH. reflexivity.
Qed.

(** The two nested loops of the command line are one loop over the
    images found. *)
Lemma cli_batch_flat cfg walk c fs :
  for_each walk
    (fun '(root_dir, _, names) count =>
       for_each names
         (fun name count =>
            if supported name then
              let in_path := join root_dir name in
              process_single cfg in_path ;;; ret (count + 1)
            else ret count)
         count) c fs
  = for_each (images_of_walk walk) (count_one cfg) c fs.
Proof.
  revert c fs. induction walk as [|[[root_dir dnames] names] walk IH];
    intros c fs; [done|].
  rewrite images_of_walk_cons, for_each_app. cbn [for_each]. unfold bind.
  assert (Hin : ∀ c fs,
    for_each names
      (fun name count =>
         if supported name then
           let in_path := join root_dir name in
           process_single cfg in_path ;;; ret (count + 1)
         else ret count) c fs
    = for_each (map (join root_dir) (filter (fun n => supported n = true) names))
               (count_one cfg) c fs).
  { clear. induction names as [|n names IHn]; intros c fs; [done|].
    rewrite filter_cons. cbn [for_each]. destruct (supported n) eqn:Hn.
    - rewrite decide_True by done. cbn [map for_each].
      change (process_single cfg (join root_dir n) ;;; ret (c + 1))
        with (count_one cfg (join root_dir n) c).
      unfold bind.
      destruct (count_one cfg (join root_dir n) c fs) as [fs1 [c1|e]];
        [|reflexivity].
      apply IHn.
    - rewrite decide_False by (by intros ?). unfold bind, ret.
      apply IHn. }
  rewrite Hin.
  destruct (for_each _ (count_one cfg) c fs) as [fs1 [c1|e]]; [|reflexivity].
  apply IH.
Qed.

Lemma count_one_inv cfg p c fs fs' c' :
  count_one cfg p c fs = (fs', Ok c') →
  c' = c + 1 ∧ ∃ res, process_single cfg p fs = (fs', Ok res).
Proof.
  unfold count_one, bind, ret.
  destruct (process_single cfg p fs) as [fs1 [res|e]]; intros; simplify_eq.
  eauto.
Qed.

Lemma for_each_count cfg xs c fs fs' n :
  for_each xs (count_one cfg) c fs = (fs', Ok n) →
  n = c + Z.of_nat (length xs).
Proof.
  revert c fs. induction xs as [|x xs IH]; intros c fs Hrun.
  - cbn in Hrun. unfold ret in Hrun. simplify_eq. cbn. lia.
  - cbn [for_each] in Hrun. unfold bind in Hrun.
    destruct (count_one cfg x c fs) as [fs1 [c1|e]] eqn:Hone; [|discriminate].
    apply count_one_inv in Hone as [-> _].
    apply IH in Hrun. cbn [length]. lia.
Qed.

Lemma process_texture_batch_eq cfg t top :
  process_texture_batch cfg t top
  = for_each (images_of_walk (os_walk top t)) (preview_one cfg) (0, None).
Proof. reflexivity. Qed.

Lemma run_cli_batch_eq cfg t top fs :
  run_cli_batch cfg t top fs
  = for_each (images_of_walk (os_walk top t)) (count_one cfg) 0 fs.
Proof. apply cli_batch_flat. Qed.



Lemma letter_index_lt l i : letter_index l = Some i → (i < 3)%nat.
Proof.
  unfold letter_index. cbn [dict_get]. repeat case_match; intros; simplify_eq; lia.
Qed.







End BatchFacts.

(** ** The properties on the concrete inputs *)

Section OnSamples.
Import Sample Scenes PyStr os_path.
#[local] Existing Instance reference_pillow.

Lemma normalizer_output_witness :
  files fs_tex !! "tex/old/sprite.PNG" = Some (Picture "PNG" sprite)
  ∧ isdir fs_tex "tex/old/sprite.PNG" = false
  ∧ wf_image sprite = true
  ∧ ∃ img,
      load_image_rgb_or_rgba "tex/old/sprite.PNG" fs_tex = (fs_tex, Ok img)
      ∧ mode img = "RGBA" ∧ length (bands img) = 4%nat.
Proof.
  assert (H1 : files fs_tex !! "tex/old/sprite.PNG" = Some (Picture "PNG" sprite))
    by (vm_compute; reflexivity).
  assert (H2 : isdir fs_tex "tex/old/sprite.PNG" = false)
    by (vm_compute; reflexivity).
  assert (H3 : wf_image sprite = true) by (vm_compute; reflexivity).
  do 3 (split; [assumption|]).
  destruct (normalizer_output fs_tex "tex/old/sprite.PNG" "PNG" sprite H1 H2 H3)
    as (img & Hload & _ & _ & HP & _).
  exists img. split; [exact Hload|].
  rewrite (HP ltac:(vm_compute; in_list)). vm_compute. split; reflexivity.
Defined.

(** The scenario of the specification: preset MRA with the metallic
    map inverted gives AO 30 and Metallic 255 - 10 = 245 everywhere. *)
Lemma unpack_orm_channels_witness :
  load_image_rgb_or_rgba "tex/wall.png" fs_tex = (fs_tex, Ok wall)
  ∧ wf_image wall = true
  ∧ dict_get PRESETS MRA = Some ("B", "G", "R")
  ∧ ∃ fs',
      unpack_orm "tex/wall.png" "out" MRA false true true fs_tex
      = (fs', Ok ("out/wall_AO.png", "out/wall_Roughness.png",
                  "out/wall_Metallic.png", Some "out/wall_Height.png"))
      ∧ Image_open "out/wall_AO.png" fs'
        = (fs', Ok (gray wall (replicate 4 30)))
      ∧ Image_open "out/wall_Roughness.png" fs'
        = (fs', Ok (gray wall (replicate 4 20)))
      ∧ Image_open "out/wall_Metallic.png" fs'
        = (fs', Ok (gray wall (replicate 4 245))).
Proof.
  assert (H1 : load_image_rgb_or_rgba "tex/wall.png" fs_tex = (fs_tex, Ok wall))
    by (vm_compute; reflexivity).
  assert (H2 : wf_image wall = true) by (vm_compute; reflexivity).
  assert (H3 : dict_get PRESETS MRA = Some ("B", "G", "R"))
    by (vm_compute; reflexivity).
  do 3 (split; [assumption|]).
  destruct (unpack_orm_channels "tex/wall.png" "out" MRA false true true
              fs_tex wall "B" "G" "R" H1 H2 H3)
    as (ia & ir' & im' & Ha & Hr & Hm & _ & Hread & _).
  injection Ha as <-. injection Hr as <-. injection Hm as <-.
  exists (fst (unpack_orm "tex/wall.png" "out" MRA false true true fs_tex)).
  assert (Hrun : unpack_orm "tex/wall.png" "out" MRA false true true fs_tex
                 = (fst (unpack_orm "tex/wall.png" "out" MRA false true true fs_tex),
                    Ok ("out/wall_AO.png", "out/wall_Roughness.png",
                        "out/wall_Metallic.png", Some "out/wall_Height.png"))).
  { rewrite (surjective_pairing (unpack_orm _ _ _ _ _ _ _)) at 1.
    apply pair_equal_spec. split; [reflexivity|vm_compute; reflexivity]. }
  split; [exact Hrun|].
  destruct (Hread _ _ _ _ _ Hrun) as (R1 & R2 & R3 & _).
  split; [exact R1|]. split; [exact R2|exact R3].
Defined.

(** The scenario of the specification: the alpha band 40 comes out as
    the height map. *)
Lemma unpack_orm_height_witness :
  load_image_rgb_or_rgba "tex/wall.png" fs_tex = (fs_tex, Ok wall)
  ∧ wf_image wall = true
  ∧ dict_get PRESETS default_preset_name = Some ("R", "G", "B")
  ∧ ∃ fs',
      unpack_orm "tex/wall.png" "out" default_preset_name false false true fs_tex
      = (fs', Ok ("out/wall_AO.png", "out/wall_Roughness.png",
                  "out/wall_Metallic.png", Some "out/wall_Height.png"))
      ∧ Image_open "out/wall_Height.png" fs'
        = (fs', Ok (gray wall (replicate 4 40))).
Proof.
  assert (H1 : load_image_rgb_or_rgba "tex/wall.png" fs_tex = (fs_tex, Ok wall))
    by (vm_compute; reflexivity).
  assert (H2 : wf_image wall = true) by (vm_compute; reflexivity).
  assert (H3 : dict_get PRESETS default_preset_name = Some ("R", "G", "B"))
    by (vm_compute; reflexivity).
  do 3 (split; [assumption|]).
  destruct (unpack_orm_height "tex/wall.png" "out" default_preset_name
              false false true fs_tex wall "R" "G" "B" H1 H2 H3)
    as (Hread & _).
  exists (fst (unpack_orm "tex/wall.png" "out" default_preset_name
                          false false true fs_tex)).
  assert (Hrun : unpack_orm "tex/wall.png" "out" default_preset_name
                            false false true fs_tex
                 = (fst (unpack_orm "tex/wall.png" "out" default_preset_name
                                    false false true fs_tex),
                    Ok ("out/wall_AO.png", "out/wall_Roughness.png",
                        "out/wall_Metallic.png", Some "out/wall_Height.png"))).
  { rewrite (surjective_pairing (unpack_orm _ _ _ _ _ _ _)) at 1.
    apply pair_equal_spec. split; [reflexivity|vm_compute; reflexivity]. }
  split; [exact Hrun|].
  destruct (Hread _ _ _ _ _ Hrun) as (_ & Hh).
  exact (Hh _ eq_refl).
Defined.





Lemma unpack_orm_paths_witness :
  file_name_parts "wall" "png" = true
  ∧ String.eqb "tex/" "" || endswith sep "tex/" = true
  ∧ String.eqb "out" "" = false
  ∧ ∃ fs' height,
      unpack_orm "tex/wall.png" "out" default_preset_name false false false fs_tex
      = (fs', Ok ("out/wall_AO.png", "out/wall_Roughness.png",
                  "out/wall_Metallic.png", height))
      ∧ (height = None ∨ height = Some "out/wall_Height.png").
Proof.
  assert (H1 : file_name_parts "wall" "png" = true) by (vm_compute; reflexivity).
  assert (H2 : String.eqb "tex/" "" || endswith sep "tex/" = true)
    by (vm_compute; reflexivity).
  assert (H3 : String.eqb "out" "" = false) by (vm_compute; reflexivity).
  do 3 (split; [assumption|]).
  destruct (unpack_orm_paths "tex/" "wall" "png" "out" default_preset_name
              false false false fs_tex H1 H2 H3) as (Hpaths & _).
  assert (Hrun : unpack_orm "tex/wall.png" "out" default_preset_name
                            false false false fs_tex
                 = (fst (unpack_orm "tex/wall.png" "out" default_preset_name
                                    false false false fs_tex),
                    Ok ("out/wall_AO.png", "out/wall_Roughness.png",
                        "out/wall_Metallic.png", None))).
  { rewrite (surjective_pairing (unpack_orm _ _ _ _ _ _ _)) at 1.
    apply pair_equal_spec. split; [reflexivity|vm_compute; reflexivity]. }
  destruct (Hpaths _ _ Hrun) as (height & Hres & Hheight).
  exists (fst (unpack_orm "tex/wall.png" "out" default_preset_name
                          false false false fs_tex)), height.
  split; [|exact Hheight].
  rewrite Hrun at 1. f_equal. f_equal. exact Hres.
Defined.

(** C8, as stated, fails: [save_grayscale] does not create the
    directory of its destination; where that directory is absent it
    raises and the directory is as absent afterwards. *)
Lemma save_grayscale_makes_no_directory :
  dirname "out/wall_AO.png" = "out"
  ∧ isdir fs_tex "out" = false
  ∧ save_grayscale (gray wall (replicate 4 10)) "out/wall_AO.png" fs_tex
    = (fs_tex, Raise (OSError sys_open_write ENOENT "out/wall_AO.png"))
  ∧ isdir (fst (save_grayscale (gray wall (replicate 4 10))
                               "out/wall_AO.png" fs_tex)) "out" = false.
Proof. repeat split; vm_compute; reflexivity. Qed.

Lemma save_grayscale_writes_witness :
  ∃ fs',
    save_grayscale wall "out/wall_AO.png" fs_out = (fs', Ok tt)
    ∧ dirs fs' = dirs fs_out
    ∧ ∃ ch', mode ch' = "L"
             ∧ files fs' !! "out/wall_AO.png" = Some (Picture "PNG" ch').
Proof.
  destruct (save_grayscale_writes wall "out/wall_AO.png" fs_out)
    as (ch' & HL & _ & _ & Hdirs & _ & _ & Hpng).
  assert (H1 : lower (snd (splitext "out/wall_AO.png")) = ".png")
    by (vm_compute; reflexivity).
  assert (H2 : parent_ok fs_out "out/wall_AO.png" = true)
    by (vm_compute; reflexivity).
  assert (H3 : isdir fs_out "out/wall_AO.png" = false)
    by (vm_compute; reflexivity).
  destruct (Hpng H1 H2 H3) as (Hok & Hopen).
  exists (fst (save_grayscale wall "out/wall_AO.png" fs_out)).
  split; [rewrite (surjective_pairing (save_grayscale _ _ _)) at 1; by f_equal|].
  split; [exact Hdirs|]. exists ch'. split; [exact HL|].
  apply Image_open_inv in Hopen as (_ & _ & fmt & Hfile).
  rewrite Hfile. do 2 f_equal.
  destruct (save_grayscale_writes wall "out/wall_AO.png" fs_out)
    as (ch2 & _ & _ & _ & _ & _ & Hfmt & _).
  destruct (Hfmt Hok) as (fmt' & Hext & Hfiles).
  rewrite Hfiles, lookup_insert_eq in Hfile.
  injection Hfile as <- _. vm_compute in Hext. by injection Hext as <-.
Defined.

Lemma ao_ignores_invert_flags_witness :
  files (fst (unpack_orm "tex/wall.png" "out" MRA false false true fs_tex))
    !! "out/wall_AO.png"
  = files (fst (unpack_orm "tex/wall.png" "out" MRA true true true fs_tex))
      !! "out/wall_AO.png".
Proof.
  destruct (ao_ignores_invert_flags "tex/wall.png" "out" MRA true fs_tex
              false false true true) as (_ & Hao & _).
  exact Hao.
Defined.


End OnSamples.

(* ===================================================================== *)
(** * Further properties of the code                                     *)
(* ===================================================================== *)

(** ** Inversion and channel selection *)

Section InversionFacts.
Context `{Pillow}.

Lemma clip8_invert_twice v : is_byte v → clip8 (255 - clip8 (255 - v)) = v.
Proof. unfold is_byte, clip8. lia. Qed.

(** X1: Inverting twice gives the channel back when its samples are bytes. *)
Theorem maybe_invert_involutive ch :
  Forall (Forall is_byte) (bands ch) →
  maybe_invert (maybe_invert ch true) true = ch.
Proof.
  intros Hb. unfold maybe_invert. cbn [negb]. unfold Image_eval. cbn [mode size bands].
  destruct ch as [m sz bs]. cbn [mode size bands] in *. f_equal.
  rewrite map_map.
  induction Hb as [|b bs Hb Hbs IH]; [done|]. cbn [map]. rewrite IH. f_equal.
  rewrite map_map. clear -Hb.
  induction Hb as [|v b Hv Hb IH]; [done|]. cbn [map]. rewrite IH. f_equal.
  destruct (eight_bit m); [by apply clip8_invert_twice|lia].
Qed.

Lemma clip8_byte v : is_byte (clip8 v).
Proof. unfold is_byte, clip8. lia. Qed.

(** X2: [maybe_invert] keeps mode, size and the shape of the bands, keeps
    Pillow's invariant, and the inversion of a channel of bytes is a
    channel of bytes, in any mode. *)
Theorem maybe_invert_shape ch flag :
  mode (maybe_invert ch flag) = mode ch
  ∧ size (maybe_invert ch flag) = size ch
  ∧ map length (bands (maybe_invert ch flag)) = map length (bands ch)
  ∧ (wf_image ch = true → wf_image (maybe_invert ch flag) = true)
  ∧ (Forall (Forall is_byte) (bands ch) →
     Forall (Forall is_byte) (bands (maybe_invert ch flag)))
  ∧ (flag = false → maybe_invert ch flag = ch).
Proof.
  destruct flag; unfold maybe_invert; cbn [negb]; [|by repeat split].
  unfold Image_eval. cbn [mode size bands].
  set (g := fun v => if eight_bit (mode ch) then clip8 (255 - v) else 255 - v).
  assert (Hlen : map length (map (map g) (bands ch)) = map length (bands ch)).
  { rewrite map_map. apply map_ext. intros b. apply List.length_map. }
  assert (Hg : ∀ v, is_byte v → is_byte (g v)).
  { intros v Hv. unfold g, is_byte, clip8 in *.
    destruct (eight_bit (mode ch)); lia. }
  assert (Hbytes : Forall (Forall is_byte) (bands ch) →
                   Forall (Forall is_byte) (map (map g) (bands ch))).
  { intros Hin. apply Forall_map. eapply Forall_impl; [exact Hin|].
    intros b Hb. apply Forall_map. eapply Forall_impl; [exact Hb|]. exact Hg. }
  do 3 (split; [done|]). split; [|by split].
  unfold wf_image, pixels. cbn [mode size bands].
  intros [[Hn Hl]%andb_true_iff H8]%andb_true_iff.
  apply andb_true_iff. split; [apply andb_true_iff; split|].
  - rewrite List.length_map. exact Hn.
  - rewrite forallb_forall in Hl. apply forallb_forall. intros b Hb.
    apply in_map_iff in Hb as (b0 & <- & Hb0). rewrite List.length_map. by apply Hl.
  - destruct (eight_bit (mode ch)) eqn:H8b; [|done].
    apply forallb_forall. intros b Hb. apply forallb_forall. intros v Hv.
    apply in_map_iff in Hb as (b0 & <- & Hb0).
    apply in_map_iff in Hv as (v0 & <- & Hv0).
    unfold g. rewrite ?H8b. cbv beta iota. unfold clip8, is_u8.
    apply andb_true_iff.
    split; [apply Z.leb_le|apply Z.ltb_lt]; lia.
Qed.

(** X3: [channel_by_letter] fails on fewer than three bands whatever the
    letter (the unpacking of [split()[:3]], with the number of bands in
    the message), fails with [KeyError] on three bands or more for a
    letter other than R, G, B, and otherwise returns the band of the
    letter's index; a fourth band plays no part. *)
Theorem channel_by_letter_cases img letter :
  (length (bands img) = 1%nat →
   channel_by_letter img letter
   = Raise (ValueError "not enough values to unpack (expected 3, got 1)"))
  ∧ (length (bands img) = 2%nat →
     channel_by_letter img letter
     = Raise (ValueError "not enough values to unpack (expected 3, got 2)"))
  ∧ ((length (bands img) < 3)%nat →
     ∃ msg, channel_by_letter img letter = Raise (ValueError msg))
  ∧ ((3 ≤ length (bands img))%nat → letter_index letter = None →
     channel_by_letter img letter = Raise (KeyError letter))
  ∧ ((3 ≤ length (bands img))%nat → ∀ i, letter_index letter = Some i →
     (i < 3)%nat
     ∧ channel_by_letter img letter = Ok (gray img (source_band img i))).
Proof.
  split; [|split; [|split; [|split]]].
  - unfold channel_by_letter, split.
    destruct (bands img) as [|b0 [|b1 [|b2 bs]]]; cbn; intros; try lia; reflexivity.
  - unfold channel_by_letter, split.
    destruct (bands img) as [|b0 [|b1 [|b2 bs]]]; cbn; intros; try lia; reflexivity.
  - unfold channel_by_letter, split.
    destruct (bands img) as [|b0 [|b1 [|b2 bs]]]; cbn; intros; try lia; eauto.
  - intros Hlen Hl. unfold channel_by_letter. rewrite split_bands by lia.
    destruct (bands img) as [|b0 [|b1 [|b2 bs]]]; cbn in Hlen; try lia.
    cbn [map firstn]. unfold letter_index in Hl. cbn [dict_get] in *.
    repeat case_match; simplify_eq; reflexivity.
  - intros Hlen i Hl. split; [by eapply letter_index_lt|].
    by apply channel_by_letter_ok.
Qed.

End InversionFacts.

(** ** The registry and the letters *)

(** X4: Every registered preset uses each of R, G and B once: the three
    outputs come from three different colour bands and no band is left
    out. *)
Theorem preset_uses_each_band name a r m :
  dict_get PRESETS name = Some (a, r, m) →
  NoDup [a; r; m]
  ∧ ∀ i, (i < 3)%nat →
         ∃ l, l ∈ [a; r; m] ∧ letter_index l = Some i.
Proof.
  unfold PRESETS. cbn [dict_get].
  repeat case_match; intros Heq; simplify_eq.
  all: split;
    [ repeat (apply NoDup_cons; split; [not_in_list|]); apply NoDup_nil_2
    | intros [|[|[|i]]] Hi; try lia;
      [exists "R"|exists "G"|exists "B"]; (split; [in_list|reflexivity]) ].
Qed.

(** ** Which files a batch picks up *)

Section ExtensionFacts.
Import PyStr PyStrFacts PathFacts os_path.

Lemma lower_ascii_idem c : lower_ascii (lower_ascii c) = lower_ascii c.
Proof. destruct c as [[] [] [] [] [] [] [] []]; reflexivity. Qed.

Lemma lower_ascii_sep c : Ascii.eqb (lower_ascii c) sep = Ascii.eqb c sep.
Proof. destruct c as [[] [] [] [] [] [] [] []]; reflexivity. Qed.

Lemma lower_ascii_extsep c : Ascii.eqb (lower_ascii c) extsep = Ascii.eqb c extsep.
Proof. destruct c as [[] [] [] [] [] [] [] []]; reflexivity. Qed.

Lemma lower_idem s : lower (lower s) = lower s.
Proof. induction s as [|c s IH]; [done|]. cbn. by rewrite IH, lower_ascii_idem. Qed.

Lemma rfind_lower c0 s :
  (∀ c, Ascii.eqb (lower_ascii c) c0 = Ascii.eqb c c0) →
  rfind c0 (lower s) = rfind c0 s.
Proof.
  intros Hc. induction s as [|c s IH]; [done|]. cbn [lower rfind].
  by rewrite IH, Hc.
Qed.

Lemma all_are_lower c0 s :
  (∀ c, Ascii.eqb (lower_ascii c) c0 = Ascii.eqb c c0) →
  all_are c0 (lower s) = all_are c0 s.
Proof.
  intros Hc. induction s as [|c s IH]; [done|]. cbn [lower all_are].
  by rewrite IH, Hc.
Qed.

Lemma lower_take n s : lower (take n s) = take n (lower s).
Proof.
  revert n. induction s as [|c s IH]; intros [|n]; cbn; try done. by rewrite IH.
Qed.

Lemma lower_drop n s : lower (drop n s) = drop n (lower s).
Proof.
  revert n. induction s as [|c s IH]; intros [|n]; cbn; try done.
Qed.

(** Lower-casing commutes with [splitext]: the separators and the dots
    stay where they are. *)
Lemma splitext_lower p :
  splitext (lower p) = (lower (fst (splitext p)), lower (snd (splitext p))).
Proof.
  unfold splitext, slice.
  rewrite !rfind_lower by auto using lower_ascii_sep, lower_ascii_extsep.
  rewrite <- lower_drop, <- lower_take.
  rewrite all_are_lower by apply lower_ascii_extsep.
  case_match; cbn [fst snd]; [|done].
  by rewrite lower_take, lower_drop.
Qed.

(** X5: The letter case of a name plays no part in its being picked up. *)
Theorem supported_ignores_case name :
  supported (lower name) = supported name.
Proof.
  unfold supported. rewrite splitext_lower. cbn [snd]. by rewrite lower_idem.
Qed.

Lemma all_are_contains c c' s :
  all_are c s = true → Ascii.eqb c c' = false → contains c' s = false.
Proof.
  intros Ha Hne. induction s as [|x s IH]; [done|]. cbn in *.
  apply andb_true_iff in Ha as [Hx Ha]. apply Ascii.eqb_eq in Hx as ->.
  by rewrite Hne, IH.
Qed.

Lemma all_are_take c n s : all_are c s = true → all_are c (take n s) = true.
Proof.
  revert n. induction s as [|x s IH]; intros [|n] Ha; cbn in *; try done.
  apply andb_true_iff in Ha as [-> Ha]. cbn. by apply IH.
Qed.

(** X6: A name without a dot, or with dots at its start only ([README],
    [.png], [..tiff]), has no extension: the batch passes it by. *)
Theorem supported_needs_extension dots rest :
  all_are extsep dots = true →
  contains extsep rest = false →
  contains sep rest = false →
  splitext (dots +:+ rest) = (dots +:+ rest, "")
  ∧ supported (dots +:+ rest) = false.
Proof.
  intros Hdots Hrest Hsep.
  assert (Hsplit : splitext (dots +:+ rest) = (dots +:+ rest, "")).
  { unfold splitext.
    assert (rfind sep (dots +:+ rest) = -1) as ->.
    { apply rfind_absent. rewrite contains_app, Hsep.
      by rewrite (all_are_contains extsep sep dots Hdots). }
    rewrite (rfind_app_l _ _ _ Hrest).
    destruct (String.eqb dots "") eqn:Hempty.
    - apply String.eqb_eq in Hempty as ->. reflexivity.
    - rewrite (rfind_endswith _ _ (all_are_endswith _ _ Hdots Hempty)).
      unfold slice. change (Z.to_nat (-1 + 1)) with 0%nat. cbn [drop].
      rewrite Nat.sub_0_r, take_app_le by lia.
      rewrite all_are_take by done. by rewrite andb_false_r. }
  split; [done|]. unfold supported. by rewrite Hsplit.
Qed.

(** X7: The output paths are made from the output directory and the base
    name without its extension only: inputs that differ in their
    directory or in their extension are written to the same paths. *)
Theorem out_path_collision pre1 pre2 name ext1 ext2 out sfx :
  file_name_parts name ext1 = true → file_name_parts name ext2 = true →
  String.eqb pre1 "" || endswith sep pre1 = true →
  String.eqb pre2 "" || endswith sep pre2 = true →
  out_path out (pre1 +:+ name +:+ String extsep ext1) sfx
  = out_path out (pre2 +:+ name +:+ String extsep ext2) sfx.
Proof.
  assert (Hstem : ∀ pre ext,
    file_name_parts name ext = true →
    String.eqb pre "" || endswith sep pre = true →
    fst (splitext (basename (pre +:+ name +:+ String extsep ext))) = name).
  { unfold file_name_parts.
    intros pre ext
      [[[Hn%negb_true_iff He%negb_true_iff]%andb_true_iff
        Hd%negb_true_iff]%andb_true_iff Ha%negb_true_iff]%andb_true_iff Hpre.
    rewrite basename_app; [|done|].
    2: { rewrite contains_app, Hn. cbn -[sep]. by rewrite He. }
    rewrite <- (app_nil_l (name +:+ String extsep ext)).
    by rewrite splitext_name_ext. }
  intros H1 H2 P1 P2. unfold out_path. by rewrite !Hstem.
Qed.

(** X8: The entry point runs the command line exactly when an argument after
    the program name starts with a dash (the test on the length adds
    nothing): arguments that are all positional open the form. *)
Theorem use_cli_iff argv :
  use_cli argv = true
  ↔ ∃ a, a ∈ tl argv ∧ startswith "-"%char a = true.
Proof.
  unfold use_cli. rewrite andb_true_iff, existsb_exists. split.
  - intros [_ (a & Hin & Ha)]. exists a. by rewrite list_elem_of_In.
  - intros (a & Hin & Ha). split; [|exists a; by rewrite <- list_elem_of_In].
    apply Nat.ltb_lt. destruct argv as [|p [|a0 rest]]; cbn in *;
      [by apply elem_of_nil in Hin|by apply elem_of_nil in Hin|lia].
Qed.

End ExtensionFacts.

(** ** What a call leaves alone *)

Section FrameFacts.
Context `{Pillow}.
Import PyStr PyStrFacts PathFacts os_path.

Lemma take_drop n s : take n s +:+ drop n s = s.
Proof.
  revert n. induction s as [|c s IH]; intros [|n]; cbn; try done.
  rewrite app_cons. by rewrite IH.
Qed.

Lemma rfind_points c s :
  0 ≤ rfind c s → startswith c (drop (Z.to_nat (rfind c s)) s) = true.
Proof.
  induction s as [|x s IH]; cbn [rfind]; [lia|].
  destruct (Z.leb_spec 0 (rfind c s)) as [Hr|Hr].
  - intros _. replace (Z.to_nat (rfind c s + 1)) with (S (Z.to_nat (rfind c s))) by lia.
    cbn [drop]. by apply IH.
  - destruct (Ascii.eqb x c) eqn:Hx; [|lia]. intros _. cbn. exact Hx.
Qed.

(** [splitext] cuts its argument in two, and the extension is empty or
    starts with the dot. *)
Lemma splitext_parts p :
  fst (splitext p) +:+ snd (splitext p) = p
  ∧ (snd (splitext p) = "" ∨ startswith extsep (snd (splitext p)) = true).
Proof.
  unfold splitext. case_match eqn:Hc; cbn [fst snd].
  - split; [apply take_drop|]. right.
    apply andb_true_iff in Hc as [Hlt%Z.ltb_lt _].
    apply rfind_points. pose proof (rfind_range sep p). lia.
  - split; [apply app_nil_r|by left].
Qed.

Lemma endswith_snoc c s : endswith c (s +:+ String c "") = true.
Proof.
  induction s as [|x s IH]; [cbn; apply Ascii.eqb_refl|].
  rewrite app_cons. destruct s as [|y s]; [cbn; apply Ascii.eqb_refl|].
  rewrite app_cons in *. exact IH.
Qed.

Lemma basename_join out f :
  contains sep f = false → basename (join out f) = f.
Proof.
  intros Hf. unfold join. rewrite (startswith_absent _ _ Hf).
  destruct (String.eqb out "" || endswith sep out) eqn:Ho.
  - by apply basename_app.
  - change (out +:+ String sep f) with (out +:+ (String sep "" +:+ f)).
    rewrite <- app_assoc. apply basename_app; [|done].
    by rewrite endswith_snoc, orb_true_r.
Qed.

(** No output path is the input path: the base name of an output ends in
    a suffix that is no extension. *)
Lemma input_not_output out input sfx :
  sfx ∈ suffixes → input ≠ out_path out input sfx.
Proof.
  intros Hs Heq. apply (f_equal basename) in Heq.
  unfold out_path in Heq. rewrite basename_join in Heq.
  2: { by rewrite contains_app, base_no_sep, suffix_no_sep. }
  destruct (splitext_parts (basename input)) as [Hparts Hext].
  rewrite <- Hparts in Heq at 1.
  apply (inj (String.app _)) in Heq.
  unfold suffixes in Hs. destruct Hext as [Hext|Hext]; rewrite Heq in Hext;
    list_cases; subst sfx; discriminate.
Qed.

(** One write changes the file at its path at most, and takes no file
    away. *)
Lemma save_keeps ch p fs fs' r :
  save_grayscale ch p fs = (fs', r) →
  agree_off [p] fs fs'
  ∧ ∀ q, is_Some (files fs !! q) → is_Some (files fs' !! q).
Proof.
  destruct (save_grayscale_eq ch p fs) as (buf & -> & _).
  intros Hsave. apply Image_save_inv in Hsave as [Hd Hr].
  destruct r as [[]|e].
  - destruct Hr as (fmt & _ & _ & _ & Hf). split; [split; [done|]|].
    + intros q Hq. rewrite Hf, lookup_insert_ne; [done|].
      intros ->. apply Hq. in_list.
    + intros q Hq. rewrite Hf. destruct (decide (p = q)) as [->|Hne].
      * rewrite lookup_insert_eq. eauto.
      * by rewrite lookup_insert_ne.
  - destruct Hr as (-> & _). by repeat split.
Qed.

Lemma frame_step L fs fa ch p fb r :
  p ∈ L →
  agree_off L fs fa ∧ (∀ q, is_Some (files fs !! q) → is_Some (files fa !! q)) →
  save_grayscale ch p fa = (fb, r) →
  agree_off L fs fb ∧ (∀ q, is_Some (files fs !! q) → is_Some (files fb !! q)).
Proof.
  intros Hp [[Hd Hf] Hk] Hsave.
  apply save_keeps in Hsave as [[Hd' Hf'] Hk'].
  split; [split|].
  - congruence.
  - intros q Hq. rewrite Hf by done. apply Hf'.
    intros Hin. apply Hq. list_cases. by subst.
  - intros q Hq. by apply Hk', Hk.
Qed.

Lemma unpack_orm_keeps_in_place input out name ir im ah fs :
  path_present fs out = true →
  agree_off (map (out_path out input) suffixes) fs
            (fst (unpack_orm input out name ir im ah fs))
  ∧ ∀ q, is_Some (files fs !! q) →
         is_Some (files (fst (unpack_orm input out name ir im ah fs)) !! q).
Proof.
  intros Hp. unfold unpack_orm. rewrite dir_phase, Hp.
  unfold bind, lift, raise, ret.
  fold (out_path out input "_AO.png") (out_path out input "_Roughness.png")
       (out_path out input "_Metallic.png") (out_path out input "_Height.png").
  set (L := map (out_path out input) suffixes).
  assert (H0 : agree_off L fs fs
               ∧ (∀ q, is_Some (files fs !! q) → is_Some (files fs !! q)))
    by (by repeat split).
  assert (HL : ∀ sfx, sfx ∈ suffixes → out_path out input sfx ∈ L).
  { intros sfx Hs. unfold L. apply list_elem_of_fmap. eauto. }
  assert (H1 := HL "_AO.png" ltac:(unfold suffixes; in_list)).
  assert (H2 := HL "_Roughness.png" ltac:(unfold suffixes; in_list)).
  assert (H3 := HL "_Metallic.png" ltac:(unfold suffixes; in_list)).
  assert (H4 := HL "_Height.png" ltac:(unfold suffixes; in_list)).
  clearbody L.
  destruct (load_image_rgb_or_rgba input fs) as [f0 [img|e]] eqn:Hload;
    apply load_image_inv in Hload as [-> _]; [|exact H0].
  destruct (dict_get PRESETS name) as [[[a r] m]|]; [|exact H0].
  destruct (channel_by_letter img a) as [ac|e]; [|exact H0].
  destruct (channel_by_letter img r) as [rc|e]; [|exact H0].
  destruct (channel_by_letter img m) as [mc|e]; [|exact H0].
  destruct (save_grayscale ac _ fs) as [f1 r1] eqn:E1.
  pose proof (frame_step _ _ _ _ _ _ _ H1 H0 E1) as K1.
  destruct r1 as [[]|e]; [|exact K1].
  destruct (save_grayscale _ _ f1) as [f2 r2] eqn:E2.
  pose proof (frame_step _ _ _ _ _ _ _ H2 K1 E2) as K2.
  destruct r2 as [[]|e]; [|exact K2].
  destruct (save_grayscale _ _ f2) as [f3 r3] eqn:E3.
  pose proof (frame_step _ _ _ _ _ _ _ H3 K2 E3) as K3.
  destruct r3 as [[]|e]; [|exact K3].
  destruct (ah && String.eqb (mode img) "RGBA"); [|exact K3].
  destruct (split img) as [|c1 [|c2 [|c3 [|c4 [|c5 cs]]]]]; try exact K3.
  destruct (save_grayscale _ _ f3) as [f4 r4] eqn:E4.
  pose proof (frame_step _ _ _ _ _ _ _ H4 K3 E4) as K4.
  destruct r4 as [[]|e]; exact K4.
Qed.

(** X9: Whatever its outcome, a call changes no file other than its four
    output paths, takes no file away, and adds no directory other than
    the output directory and the missing ones above it. *)
Theorem unpack_orm_frame input out name ir im ah fs :
  (∀ q, q ∉ map (out_path out input) suffixes →
        files (fst (unpack_orm input out name ir im ah fs)) !! q
        = files fs !! q)
  ∧ (∀ q, is_Some (files fs !! q) →
          is_Some (files (fst (unpack_orm input out name ir im ah fs)) !! q))
  ∧ (dirs (fst (unpack_orm input out name ir im ah fs)) = dirs fs
     ∨ (path_present fs out = false
        ∧ dirs (fst (unpack_orm input out name ir im ah fs))
          = dirs fs ∪ list_to_set (ancestors out) ∪ {[out]})).
Proof.
  destruct (path_present fs out) eqn:Hp.
  - destruct (unpack_orm_keeps_in_place input out name ir im ah fs Hp)
      as [[Hd Hf] Hk].
    split; [|split]; [intros q Hq; symmetry; by apply Hf|done|by left].
  - destruct (can_make fs out) eqn:Hc.
    + rewrite unpack_orm_via_dir by auto.
      destruct (unpack_orm_keeps_in_place input out name ir im ah
                  (with_out_dir fs out)) as [[Hd Hf] Hk];
        [apply with_out_dir_present; auto|].
      rewrite with_out_dir_files in Hf, Hk.
      split; [|split]; [intros q Hq; symmetry; by apply Hf|done|].
      right. split; [done|]. rewrite <- Hd. unfold with_out_dir. by rewrite Hp.
    + destruct (unpack_orm_no_dir input out name ir im ah fs Hp Hc) as [c ->].
      cbn [fst]. split; [|split]; [done|done|by left].
Qed.

(** X10: Whatever its outcome, a call leaves its input file as it was: no
    output path is the input path. *)
Theorem unpack_orm_keeps_input input out name ir im ah fs :
  files (fst (unpack_orm input out name ir im ah fs)) !! input
  = files fs !! input
  ∧ ∀ sfx, sfx ∈ suffixes → input ≠ out_path out input sfx.
Proof.
  split; [|intros sfx Hs; by apply input_not_output].
  assert (Hoff : input ∉ map (out_path out input) suffixes).
  { intros Hin. apply list_elem_of_fmap in Hin as (sfx & Heq & Hs).
    by apply (input_not_output out input sfx). }
  destruct (path_present fs out) eqn:Hp.
  - destruct (unpack_orm_keeps_in_place input out name ir im ah fs Hp)
      as [[_ Hf] _].
    symmetry. by apply Hf.
  - destruct (can_make fs out) eqn:Hc.
    + rewrite unpack_orm_via_dir by auto.
      destruct (unpack_orm_keeps_in_place input out name ir im ah
                  (with_out_dir fs out)) as [[_ Hf] _];
        [apply with_out_dir_present; auto|].
      rewrite with_out_dir_files in Hf. symmetry. by apply Hf.
    + by destruct (unpack_orm_no_dir input out name ir im ah fs Hp Hc) as [c ->].
Qed.

End FrameFacts.

(** ** Repeated calls, failing calls *)

Section OutcomeFacts.
Context `{Pillow}.
Import PyStr PyStrFacts PathFacts os_path.

Lemma put_id fs p im :
  files fs !! p = Some (Picture "PNG" im) → put fs p im = fs.
Proof.
  intros Hf. destruct fs as [d f]. unfold put. cbn [dirs files] in *.
  f_equal. by apply insert_id.
Qed.

(** Writing the same outputs again changes nothing. *)
Lemma unpacked_again fs out input img ia ir' im' ir im ah :
  unpacked (unpacked fs out input img ia ir' im' ir im ah)
           out input img ia ir' im' ir im ah
  = unpacked fs out input img ia ir' im' ir im ah.
Proof.
  pose proof (files_unpacked fs out input img ia ir' im' ir im ah)
    as (F1 & F2 & F3 & F4).
  cbv zeta in *.
  set (U := unpacked fs out input img ia ir' im' ir im ah) in *.
  unfold unpacked at 1. cbv zeta.
  rewrite (put_id U _ _ F1), (put_id U _ _ F2), (put_id U _ _ F3).
  destruct (has_height img ah); [|done]. by rewrite (put_id U _ _ (F4 eq_refl)).
Qed.

Lemma files_unpacked_other fs out input img ia ir' im' ir im ah q :
  q ∉ map (out_path out input) suffixes →
  files (unpacked fs out input img ia ir' im' ir im ah) !! q = files fs !! q.
Proof.
  intros Hq.
  assert (Hne : ∀ sfx, sfx ∈ suffixes → out_path out input sfx ≠ q).
  { intros sfx Hs Heq. apply Hq. apply list_elem_of_fmap.
    exists sfx. by split. }
  unfold unpacked. cbv zeta. destruct (has_height img ah); unfold put; cbn [files];
    rewrite !lookup_insert_ne by (apply Hne; unfold suffixes; in_list); done.
Qed.

Lemma isfile_unpacked fs out input img ia ir' im' ir im ah q :
  isfile fs q = true →
  isfile (unpacked fs out input img ia ir' im' ir im ah) q = true.
Proof.
  assert (Hput : ∀ f p v, isfile f q = true → isfile (put f p v) q = true).
  { intros f p v Hf. unfold isfile, put in *. cbn [files].
    apply bool_decide_eq_true_2. apply bool_decide_eq_true in Hf.
    destruct (decide (p = q)) as [->|Hne].
    - rewrite lookup_insert_eq. eauto.
    - by rewrite lookup_insert_ne. }
  intros Hf. unfold unpacked. cbv zeta.
  destruct (has_height img ah); auto.
Qed.

(** X11: A successful call made again with the same arguments succeeds again,
    returns the same paths and leaves the file system as the first call
    left it. *)
Theorem unpack_orm_idempotent input out name ir im ah fs fs' res img a r m :
  load_image_rgb_or_rgba input fs = (fs, Ok img) →
  wf_image img = true →
  dict_get PRESETS name = Some (a, r, m) →
  unpack_orm input out name ir im ah fs = (fs', Ok res) →
  unpack_orm input out name ir im ah fs' = (fs', Ok res).
Proof.
  intros Hload Hwf Hpre Hrun.
  destruct (preset_letters _ _ _ _ Hpre) as ([ia Ha] & [ir' Hr] & [im' Hm]).
  assert (Hok : path_present fs out = true ∨ can_make fs out = true).
  { destruct (path_present fs out) eqn:Hp; [by left|].
    destruct (can_make fs out) eqn:Hc; [by right|].
    destruct (unpack_orm_no_dir input out name ir im ah fs Hp Hc) as [c Hno].
    rewrite Hno in Hrun. discriminate. }
  destruct (unpack_orm_ok_inv _ _ _ _ _ _ _ _ _ _ _ _ _ _ _ _
              Hload Hwf Hpre Ha Hr Hm Hrun)
    as (-> & -> & W1 & W2 & W3 & W4).
  pose proof (load_with_out_dir fs out input img Hok Hload) as Hload1.
  set (fs1 := with_out_dir fs out) in *.
  set (U := unpacked fs1 out input img ia ir' im' ir im ah).
  assert (Hp : path_present U out = true).
  { pose proof (with_out_dir_present fs out Hok) as Hp1. fold fs1 in Hp1.
    unfold path_present in *. unfold U. rewrite isdir_unpacked.
    apply orb_true_iff in Hp1 as [->|Hf]; [done|].
    rewrite (isfile_unpacked _ _ _ _ _ _ _ _ _ _ _ Hf). apply orb_true_r. }
  assert (HloadU : load_image_rgb_or_rgba input U = (U, Ok img)).
  { apply load_image_inv in Hload1 as (_ & Hd & fmt & raw & Hf & ->).
    rewrite load_image_rgb_or_rgba_eq. unfold Image_open, U.
    rewrite isdir_unpacked, Hd, files_unpacked_other, Hf; [done|].
    intros Hin. apply list_elem_of_fmap in Hin as (sfx & Heq & Hs).
    by apply (input_not_output out input sfx). }
  assert (HW : ∀ p, writable fs1 p → writable U p).
  { intros p [D P]. unfold writable, parent_ok, U in *.
    by rewrite !isdir_unpacked. }
  rewrite (unpack_orm_writes _ _ _ _ _ _ _ img a r m ia ir' im') by done.
  rewrite writes_ok by auto.
  pose proof (unpacked_again fs1 out input img ia ir' im' ir im ah) as Hagain.
  fold U in Hagain. unfold unpacked at 1 in Hagain. cbv zeta in Hagain |- *.
  destruct (has_height img ah); by rewrite Hagain.
Qed.

Lemma writes_raise {T} out input img A R M Hh (b : bool) fs fs' e
    (res1 res2 : T) :
  (save_grayscale (gray img A) (out_path out input "_AO.png") ;;;
   save_grayscale (gray img R) (out_path out input "_Roughness.png") ;;;
   save_grayscale (gray img M) (out_path out input "_Metallic.png") ;;;
   if b
   then save_grayscale (gray img Hh) (out_path out input "_Height.png") ;;;
        ret res1
   else ret res2) fs = (fs', Raise e) →
  ∃ c sfx, sfx ∈ suffixes
           ∧ e = OSError sys_open_write c (out_path out input sfx).
Proof.
  assert (Hs : ∀ s, s ∈ ["_AO.png"; "_Roughness.png"; "_Metallic.png"; "_Height.png"]
                    → s ∈ suffixes) by done.
  unfold bind, ret.
  rewrite save_grayscale_gray by (apply out_path_ext; unfold suffixes; in_list).
  destruct (isdir fs (out_path out input "_AO.png"));
    [intros [= _ <-]; eexists _, _; split; [apply Hs|reflexivity]; in_list|].
  destruct (parent_ok fs (out_path out input "_AO.png"));
    [|intros [= _ <-]; eexists _, _; split; [apply Hs|reflexivity]; in_list].
  cbv beta iota.
  rewrite save_grayscale_gray by (apply out_path_ext; unfold suffixes; in_list).
  rewrite isdir_put, parent_ok_put.
  destruct (isdir fs (out_path out input "_Roughness.png"));
    [intros [= _ <-]; eexists _, _; split; [apply Hs|reflexivity]; in_list|].
  destruct (parent_ok fs (out_path out input "_Roughness.png"));
    [|intros [= _ <-]; eexists _, _; split; [apply Hs|reflexivity]; in_list].
  cbv beta iota.
  rewrite save_grayscale_gray by (apply out_path_ext; unfold suffixes; in_list).
  rewrite !isdir_put, !parent_ok_put.
  destruct (isdir fs (out_path out input "_Metallic.png"));
    [intros [= _ <-]; eexists _, _; split; [apply Hs|reflexivity]; in_list|].
  destruct (parent_ok fs (out_path out input "_Metallic.png"));
    [|intros [= _ <-]; eexists _, _; split; [apply Hs|reflexivity]; in_list].
  cbv beta iota.
  destruct b; [|intros [=]].
  rewrite save_grayscale_gray by (apply out_path_ext; unfold suffixes; in_list).
  rewrite !isdir_put, !parent_ok_put.
  destruct (isdir fs (out_path out input "_Height.png"));
    [intros [= _ <-]; eexists _, _; split; [apply Hs|reflexivity]; in_list|].
  destruct (parent_ok fs (out_path out input "_Height.png"));
    [|intros [= _ <-]; eexists _, _; split; [apply Hs|reflexivity]; in_list].
  intros [=].
Qed.

Lemma unpack_orm_exceptions_in_place input out name ir im ah fs fs' e :
  (∀ fmt raw, files fs !! input = Some (Picture fmt raw) → wf_image raw = true) →
  path_present fs out = true →
  unpack_orm input out name ir im ah fs = (fs', Raise e) →
  (is_decode_error e = true ∧ fs' = fs)
  ∨ (e = unknown_preset_error name ∧ dict_get PRESETS name = None ∧ fs' = fs)
  ∨ (∃ c sfx, sfx ∈ suffixes
              ∧ e = OSError sys_open_write c (out_path out input sfx)).
Proof.
  intros Hgood Hp Hrun.
  destruct (load_image_rgb_or_rgba input fs) as [f0 [img|e0]] eqn:Hload;
    pose proof (load_image_inv _ _ _ _ Hload) as [-> Hinv].
  - destruct Hinv as (_ & fmt & raw & Hfile & Himg).
    assert (Hwf : wf_image img = true).
    { subst img. apply normal_form_wf. by eapply Hgood. }
    destruct (dict_get PRESETS name) as [[[a r] m]|] eqn:Hpre.
    + destruct (preset_letters _ _ _ _ Hpre) as ([ia Ha] & [ir' Hr] & [im' Hm]).
      rewrite (unpack_orm_writes _ _ _ _ _ _ _ img a r m ia ir' im') in Hrun
        by done.
      right. right. by eapply writes_raise.
    + unfold unpack_orm in Hrun. rewrite dir_phase, Hp in Hrun.
      unfold bind at 1 in Hrun. rewrite Hload, Hpre in Hrun.
      unfold raise in Hrun. injection Hrun as <- <-. right. left. by repeat split.
  - unfold unpack_orm in Hrun. rewrite dir_phase, Hp in Hrun.
    unfold bind at 1 in Hrun. rewrite Hload in Hrun.
    injection Hrun as <- <-. by left.
Qed.

(** X12: The exceptions of [unpack_orm] on an input whose picture is within
    Pillow's invariant: the error of [makedirs] (nothing done), a decode
    error or the unknown-preset error (the output directory made, no
    file written), or the error of [open] at one of the four output
    paths. It raises no [KeyError], no unpacking error and no
    unknown-extension error. *)
Theorem unpack_orm_exceptions input out name ir im ah fs fs' e :
  (∀ fmt raw, files fs !! input = Some (Picture fmt raw) → wf_image raw = true) →
  unpack_orm input out name ir im ah fs = (fs', Raise e) →
  (∃ c, e = OSError sys_mkdir c out ∧ fs' = fs)
  ∨ (is_decode_error e = true ∧ fs' = with_out_dir fs out)
  ∨ (e = unknown_preset_error name ∧ dict_get PRESETS name = None
     ∧ fs' = with_out_dir fs out)
  ∨ (∃ c sfx, sfx ∈ suffixes
              ∧ e = OSError sys_open_write c (out_path out input sfx)).
Proof.
  intros Hgood Hrun.
  destruct (path_present fs out) eqn:Hp.
  - assert (with_out_dir fs out = fs) as ->
      by (unfold with_out_dir; by rewrite Hp).
    right. by eapply unpack_orm_exceptions_in_place.
  - destruct (can_make fs out) eqn:Hc.
    + rewrite unpack_orm_via_dir in Hrun by auto.
      right. eapply unpack_orm_exceptions_in_place; [| |exact Hrun].
      * by rewrite with_out_dir_files.
      * apply with_out_dir_present. auto.
    + destruct (unpack_orm_no_dir input out name ir im ah fs Hp Hc) as [c Hno].
      rewrite Hno in Hrun. injection Hrun as <- <-. left. eauto.
Qed.

(** X13: The writes are not undone: when a directory stands at the Roughness
    path, the call raises there and the AO file it has just written
    stays. *)
Theorem unpack_orm_not_atomic input out name ir im ah fs img a r m :
  load_image_rgb_or_rgba input fs = (fs, Ok img) →
  wf_image img = true →
  dict_get PRESETS name = Some (a, r, m) →
  path_present fs out = true ∨ can_make fs out = true →
  writable (with_out_dir fs out) (out_path out input "_AO.png") →
  isdir (with_out_dir fs out) (out_path out input "_Roughness.png") = true →
  ∃ ia,
    letter_index a = Some ia
    ∧ unpack_orm input out name ir im ah fs
      = (put (with_out_dir fs out) (out_path out input "_AO.png")
             (gray img (source_band img ia)),
         Raise (OSError sys_open_write EISDIR
                        (out_path out input "_Roughness.png"))).
Proof.
  intros Hload Hwf Hpre Hok [D1 P1] D2.
  destruct (preset_letters _ _ _ _ Hpre) as ([ia Ha] & [ir' Hr] & [im' Hm]).
  exists ia. split; [done|].
  rewrite unpack_orm_via_dir by done.
  rewrite (unpack_orm_writes _ _ _ _ _ _ _ img a r m ia ir' im');
    [|by apply with_out_dir_present|by apply load_with_out_dir|done..].
  unfold bind.
  rewrite save_grayscale_gray by (apply out_path_ext; unfold suffixes; in_list).
  rewrite D1, P1. cbv beta iota.
  rewrite save_grayscale_gray by (apply out_path_ext; unfold suffixes; in_list).
  by rewrite isdir_put, D2.
Qed.

(** X14: When the output path is a regular file the call fails at its first
    write and leaves the file system as it was. *)
Theorem unpack_orm_out_is_file input out name ir im ah fs img a r m :
  load_image_rgb_or_rgba input fs = (fs, Ok img) →
  wf_image img = true →
  dict_get PRESETS name = Some (a, r, m) →
  isfile fs out = true → isdir fs out = false →
  String.eqb out "" = false → endswith sep out = false →
  ∃ c, unpack_orm input out name ir im ah fs
       = (fs, Raise (OSError sys_open_write c (out_path out input "_AO.png"))).
Proof.
  intros Hload Hwf Hpre Hfile Hdir Hne Hend.
  destruct (preset_letters _ _ _ _ Hpre) as ([ia Ha] & [ir' Hr] & [im' Hm]).
  assert (Hp : path_present fs out = true)
    by (unfold path_present; by rewrite Hfile, orb_true_r).
  rewrite (unpack_orm_writes _ _ _ _ _ _ _ img a r m ia ir' im') by done.
  unfold bind.
  rewrite save_grayscale_gray by (apply out_path_ext; unfold suffixes; in_list).
  destruct (isdir fs (out_path out input "_AO.png")); [eauto|].
  assert (parent_ok fs (out_path out input "_AO.png") = false) as ->; [|eauto].
  unfold parent_ok, out_path.
  assert (Hf : contains sep ((splitext (basename input)).1 +:+ "_AO.png") = false)
    by (by rewrite contains_app, base_no_sep).
  rewrite join_in_dir, dirname_in_dir by done. by rewrite Hne, Hdir.
Qed.

End OutcomeFacts.

(** ** The batch loops, [run_cli] and [process_texture] *)

Section CallerFacts.
Context `{Pillow}.
Import PyStr PyStrFacts PathFacts os_path.

(** X15: The walk goes top-down: the files of a directory, in the order of
    its listing, then each sub-directory in turn, entered at the joined
    path. *)
Theorem iter_images_in_folder_order names subdirs folder :
  iter_images_in_folder (Dir names subdirs) folder
  = map (join folder) (filter (fun n => supported n = true) names)
    ++ flat_map (fun d => iter_images_in_folder (snd d) (join folder (fst d)))
                subdirs.
Proof.
  unfold iter_images_in_folder. cbn [os_walk]. rewrite images_of_walk_cons.
  f_equal. induction subdirs as [|d subdirs IH]; [done|].
  cbn [flat_map]. by rewrite images_of_walk_app, IH.
Qed.

Lemma for_each_raise {A S} (xs ys : list A) (x : A) (body : A → S → M S)
    s s1 fs f1 f2 e :
  for_each xs body s fs = (f1, Ok s1) →
  body x s1 f1 = (f2, Raise e) →
  for_each (xs ++ x :: ys) body s fs = (f2, Raise e).
Proof.
  intros Hxs Hx. rewrite for_each_app. unfold bind. rewrite Hxs.
  cbn [for_each]. unfold bind. by rewrite Hx.
Qed.

Ltac save_inv H E :=
  match type of H with
  | context [save_grayscale ?ch ?p ?fs] =>
      let ch' := fresh "buf" in
      destruct (save_grayscale_eq ch p fs) as (ch' & E & ? & ? & ?);
      rewrite E in H; clear E;
      destruct (Image_save ch' p fs) as [? [[]|?]] eqn:E;
      apply Image_save_inv in E
  end.

(** With a registered preset no call raises the unknown-preset error. *)
Lemma unpack_orm_registered input out name ir im ah fs fs' e a r m :
  dict_get PRESETS name = Some (a, r, m) →
  unpack_orm input out name ir im ah fs = (fs', Raise e) →
  ∀ n, e ≠ unknown_preset_error n.
Proof.
  intros Hpre Hrun n Heq.
  assert (Hin : ∀ fs1, path_present fs1 out = true →
            unpack_orm input out name ir im ah fs1 = (fs', Raise e) → False).
  { clear Hrun. intros fs1 Hp Hrun.
    unfold unpack_orm in Hrun. rewrite dir_phase, Hp in Hrun.
    unfold bind, lift, raise, ret in Hrun.
    destruct (load_image_rgb_or_rgba input fs1) as [f0 [img|e1]] eqn:Hload;
      apply load_image_inv in Hload as [-> Hload].
    2: { injection Hrun as _ ->. subst e. discriminate Hload. }
    rewrite Hpre in Hrun.
    assert (Hbad : ∀ e0, (∀ k, e0 ≠ unknown_preset_error k) → e = e0 → False).
    { intros e0 Hu <-. by apply (Hu n). }
    destruct (channel_by_letter img a) as [ac|e1] eqn:Ha.
    2: { injection Hrun as _ <-. apply channel_by_letter_raise in Ha as [_ Hu].
         by apply (Hu n). }
    destruct (channel_by_letter img r) as [rc|e1] eqn:Hr.
    2: { injection Hrun as _ <-. apply channel_by_letter_raise in Hr as [_ Hu].
         by apply (Hu n). }
    destruct (channel_by_letter img m) as [mc|e1] eqn:Hm.
    2: { injection Hrun as _ <-. apply channel_by_letter_raise in Hm as [_ Hu].
         by apply (Hu n). }
    save_inv Hrun E1;
      [|injection Hrun as _ <-; destruct E1 as (_ & _ & _ & Hu & _); by apply (Hu n)].
    save_inv Hrun E2;
      [|injection Hrun as _ <-; destruct E2 as (_ & _ & _ & Hu & _); by apply (Hu n)].
    save_inv Hrun E3;
      [|injection Hrun as _ <-; destruct E3 as (_ & _ & _ & Hu & _); by apply (Hu n)].
    destruct (ah && String.eqb (mode img) "RGBA"); [|discriminate].
    assert (Hlen : e = ValueError "wrong number of values to unpack (expected 4)"
                   → False).
    { intros He. rewrite He in Heq. revert Heq. unfold unknown_preset_error.
      rewrite ?app_cons. discriminate. }
    destruct (split img) as [|c1 [|c2 [|c3 [|c4 [|c5 cs]]]]];
      try (injection Hrun as _ <-; by apply Hlen).
    save_inv Hrun E4;
      [discriminate
      |injection Hrun as _ <-; destruct E4 as (_ & _ & _ & Hu & _); by apply (Hu n)]. }
  destruct (path_present fs out) eqn:Hp; [by apply (Hin fs)|].
  destruct (can_make fs out) eqn:Hc.
  - rewrite unpack_orm_via_dir in Hrun by auto.
    apply (Hin (with_out_dir fs out)); [apply with_out_dir_present; auto|done].
  - destruct (unpack_orm_no_dir input out name ir im ah fs Hp Hc) as [c Hno].
    rewrite Hno in Hrun. injection Hrun as _ <-. discriminate Heq.
Qed.

Lemma preset_choice_registered args :
  preset_choice args → is_Some (dict_get PRESETS (arg_preset args)).
Proof.
  unfold preset_choice. cbn [map fst PRESETS]. intros Hin.
  list_cases; rewrite Hin; eexists; reflexivity.
Qed.

Lemma makedirs_ok p fs :
  can_make fs p = true →
  makedirs p fs
  = (mkFS (dirs fs ∪ list_to_set (ancestors p) ∪ {[p]}) (files fs), Ok tt).
Proof.
  intros Hc. destruct (makedirs p fs) as [f r] eqn:Hmk.
  apply makedirs_inv in Hmk as [(_ & -> & ->)|(? & _)]; [done|congruence].
Qed.

Lemma makedirs_raise p fs fs' e :
  makedirs p fs = (fs', Raise e) → fs' = fs ∧ ∃ c, e = OSError sys_mkdir c p.
Proof.
  intros Hmk. apply makedirs_inv in Hmk as [(_ & [=] & _)|(_ & -> & c & [= ->])].
  eauto.
Qed.

(** X17: The checks of [run_cli]: in batch mode an input that is no directory
    ends the run with status 2 before anything is done; without [--batch]
    an input that is no file ends it with status 2 as well, but only
    after the output directory has been made. *)
Theorem run_cli_input_checks args tree fs :
  (arg_batch args = true → isdir fs (arg_input args) = false →
   run_cli args tree fs = (fs, Ok (print_batch_needs_folder, 2)))
  ∧ (arg_batch args = false → isfile fs (arg_input args) = false →
     can_make fs (arg_out args) = true →
     run_cli args tree fs
     = (mkFS (dirs fs ∪ list_to_set (ancestors (arg_out args))
                      ∪ {[arg_out args]}) (files fs),
        Ok (print_not_a_file, 2))
     ∧ isdir (fst (run_cli args tree fs)) (arg_out args) = true)
  ∧ ((arg_batch args = false ∨ isdir fs (arg_input args) = true) →
     can_make fs (arg_out args) = false →
     ∃ c, run_cli args tree fs
          = (fs, Raise (OSError sys_mkdir c (arg_out args)))).
Proof.
  split; [|split].
  - intros Hb Hd. unfold run_cli, bind, os_path_isdir, ret. by rewrite Hb, Hd.
  - intros Hb Hf Hc.
    assert (Hrun : run_cli args tree fs
                   = (mkFS (dirs fs ∪ list_to_set (ancestors (arg_out args))
                                    ∪ {[arg_out args]}) (files fs),
                      Ok (print_not_a_file, 2))).
    { unfold run_cli, bind, os_path_isdir, os_path_isfile, ret.
      rewrite Hb. cbn [andb]. rewrite (makedirs_ok _ _ Hc).
      unfold isfile in *. cbn [files]. by rewrite Hf. }
    split; [exact Hrun|]. rewrite Hrun. unfold isdir. cbn [fst dirs].
    apply bool_decide_eq_true_2, elem_of_union_r, elem_of_singleton. reflexivity.
  - intros Hgo Hc.
    destruct (makedirs (arg_out args) fs) as [f r] eqn:Hmk.
    pose proof (makedirs_inv _ _ _ _ Hmk) as [(? & _)|(_ & -> & c & ->)];
      [congruence|].
    exists c. unfold run_cli, bind, os_path_isdir, ret.
    assert (arg_batch args && negb (isdir fs (arg_input args)) = false) as ->.
    { destruct Hgo as [-> | ->]; [done|apply andb_false_r]. }
    by rewrite Hmk.
Qed.

Lemma for_each_count_raise cfg (P : exn → Prop) xs c fs fs' e :
  (∀ p f f' e0, process_single cfg p f = (f', Raise e0) → P e0) →
  for_each xs (count_one cfg) c fs = (fs', Raise e) → P e.
Proof.
  intros HP. revert c fs. induction xs as [|x xs IH]; intros c fs Hrun.
  - discriminate Hrun.
  - cbn [for_each] in Hrun. unfold bind at 1 in Hrun.
    destruct (count_one cfg x c fs) as [f1 [c1|e1]] eqn:Hone.
    + by eapply IH.
    + injection Hrun as _ <-. unfold count_one, bind in Hone.
      destruct (process_single cfg x fs) as [f2 [res|e2]] eqn:Hp; [discriminate|].
      injection Hone as _ <-. by eapply HP.
Qed.

(** X18: Through the command line the unknown-preset error cannot come up:
    [--preset] only lets the keys of the registry through. *)
Theorem run_cli_never_unknown_preset args tree fs fs' e :
  preset_choice args →
  run_cli args tree fs = (fs', Raise e) →
  ∀ n, e ≠ unknown_preset_error n.
Proof.
  intros Hchoice Hrun n.
  destruct (preset_choice_registered _ Hchoice) as [[[a r] m] Hpre].
  unfold run_cli, bind, os_path_isdir, os_path_isfile, ret in Hrun.
  destruct (arg_batch args && negb (isdir fs (arg_input args))); [discriminate|].
  destruct (makedirs (arg_out args) fs) as [f1 [[]|e1]] eqn:Hmk.
  2: { injection Hrun as _ <-. apply makedirs_raise in Hmk as (_ & c & ->).
       discriminate. }
  destruct (arg_batch args).
  - destruct (run_cli_batch _ _ _ f1) as [f2 [count|e2]] eqn:Hbatch; [discriminate|].
    injection Hrun as _ <-. rewrite run_cli_batch_eq in Hbatch.
    revert n. eapply (for_each_count_raise _ (fun e0 => ∀ n, e0 ≠ unknown_preset_error n));
      [|exact Hbatch].
    intros p f f' e0 Hp. unfold process_single in Hp. cbn [preset settings_of_args] in Hp.
    by eapply unpack_orm_registered.
  - destruct (negb (isfile f1 (arg_input args))); [discriminate|].
    destruct (unpack_orm _ _ _ _ _ _ f1) as [f2 [paths|e2]] eqn:Hun; [discriminate|].
    injection Hrun as _ <-. by eapply unpack_orm_registered.
Qed.

Lemma app_nonempty_r a b :
  String.eqb b "" = false → String.eqb (a +:+ b) "" = false.
Proof. intros Hb. destruct a; [exact Hb|reflexivity]. Qed.

Lemma out_path_nonempty out input sfx :
  sfx ∈ suffixes → String.eqb (out_path out input sfx) "" = false.
Proof.
  intros Hs. unfold suffixes in Hs. list_cases; subst sfx.
  - destruct (out_path_form out input "_AO") as [Y HY].
    change (out_path out input "_AO.png" = Y +:+ "_AO.png") in HY.
    rewrite HY. by apply app_nonempty_r.
  - destruct (out_path_form out input "_Roughness") as [Y HY].
    change (out_path out input "_Roughness.png" = Y +:+ "_Roughness.png") in HY.
    rewrite HY. by apply app_nonempty_r.
  - destruct (out_path_form out input "_Metallic") as [Y HY].
    change (out_path out input "_Metallic.png" = Y +:+ "_Metallic.png") in HY.
    rewrite HY. by apply app_nonempty_r.
  - destruct (out_path_form out input "_Height") as [Y HY].
    change (out_path out input "_Height.png" = Y +:+ "_Height.png") in HY.
    rewrite HY. by apply app_nonempty_r.
Qed.

(** The paths of a successful call are all printed: none is empty. *)
Lemma truthy_returned out input img ah :
  truthy_paths (returned out input img ah)
  = [out_path out input "_AO.png"; out_path out input "_Roughness.png";
     out_path out input "_Metallic.png"]
    ++ (if has_height img ah then [out_path out input "_Height.png"] else []).
Proof.
  unfold truthy_paths, returned. cbn [flat_map].
  rewrite !out_path_nonempty by (unfold suffixes; in_list).
  destruct (has_height img ah); [|done].
  by rewrite out_path_nonempty by (unfold suffixes; in_list).
Qed.

(** X19: A run of the command line on one file, with a fresh output
    directory: the directory is made, the maps are written and the three
    or four paths are printed, with status 0. *)
Theorem run_cli_single args tree fs img a r m ia ir' im' :
  arg_batch args = false →
  path_present fs (arg_out args) = false →
  out_dir_usable fs (arg_out args) = true →
  load_image_rgb_or_rgba (arg_input args) fs = (fs, Ok img) →
  wf_image img = true →
  dict_get PRESETS (arg_preset args) = Some (a, r, m) →
  letter_index a = Some ia → letter_index r = Some ir' →
  letter_index m = Some im' →
  targets_free fs (arg_input args) (arg_out args) = true →
  run_cli args tree fs
  = (unpacked (with_out_dir fs (arg_out args)) (arg_out args) (arg_input args)
              img ia ir' im' (arg_invert_rough args) (arg_invert_metal args)
              (arg_alpha_as_height args),
     Ok (print_saved
           ([out_path (arg_out args) (arg_input args) "_AO.png";
             out_path (arg_out args) (arg_input args) "_Roughness.png";
             out_path (arg_out args) (arg_input args) "_Metallic.png"]
            ++ (if has_height img (arg_alpha_as_height args)
                then [out_path (arg_out args) (arg_input args) "_Height.png"]
                else [])), 0)).
Proof.
  intros Hb Hp Hu Hload Hwf Hpre Ha Hr Hm Hfree.
  pose proof (usable_obtainable _ _ Hu) as [Hok _].
  destruct Hok as [Hok|Hc]; [congruence|].
  pose proof (unpack_orm_ok_run (arg_input args) (arg_out args) (arg_preset args)
                (arg_invert_rough args) (arg_invert_metal args)
                (arg_alpha_as_height args) fs img a r m ia ir' im'
                Hload Hwf Hpre Ha Hr Hm Hu Hfree) as Hrun.
  rewrite unpack_orm_via_dir in Hrun by auto.
  apply load_image_inv in Hload as (_ & _ & fmt & raw & Hfile & _).
  unfold run_cli, bind, os_path_isdir, os_path_isfile, ret.
  rewrite Hb. cbn [andb]. rewrite (makedirs_ok _ _ Hc).
  assert (Hsame : mkFS (dirs fs ∪ list_to_set (ancestors (arg_out args))
                                ∪ {[arg_out args]}) (files fs)
                  = with_out_dir fs (arg_out args))
    by (unfold with_out_dir; by rewrite Hp).
  rewrite Hsame.
  assert (isfile (with_out_dir fs (arg_out args)) (arg_input args) = true) as ->.
  { unfold isfile. rewrite with_out_dir_files, Hfile.
    apply bool_decide_eq_true_2. eauto. }
  cbn [negb]. rewrite Hrun. by rewrite truthy_returned.
Qed.

(** X20: A batch of the command line over a tree without a supported file
    still makes the output directory and reports zero images, status 0. *)
Theorem run_cli_empty_batch args tree fs :
  arg_batch args = true →
  isdir fs (arg_input args) = true →
  count_supported tree = 0%nat →
  can_make fs (arg_out args) = true →
  run_cli args tree fs
  = (mkFS (dirs fs ∪ list_to_set (ancestors (arg_out args))
                   ∪ {[arg_out args]}) (files fs),
     Ok (print_processed 0 (arg_out args), 0)).
Proof.
  intros Hb Hd Hz Hc.
  unfold run_cli, bind, os_path_isdir, ret. rewrite Hb, Hd. cbn [negb andb].
  rewrite (makedirs_ok _ _ Hc), run_cli_batch_eq.
  pose proof (images_found_count (arg_input args) tree) as Hcount.
  rewrite Hz in Hcount. apply nil_length_inv in Hcount. by rewrite Hcount.
Qed.

Lemma save_ok_picture ch p fs fs' :
  save_grayscale ch p fs = (fs', Ok tt) →
  isdir fs' p = false
  ∧ (∃ fmt im, files fs' !! p = Some (Picture fmt im))
  ∧ dirs fs' = dirs fs
  ∧ ∀ q, (∃ fmt im, files fs !! q = Some (Picture fmt im)) →
         ∃ fmt im, files fs' !! q = Some (Picture fmt im).
Proof.
  destruct (save_grayscale_eq ch p fs) as (buf & -> & _).
  intros Hsave. apply Image_save_inv in Hsave as [Hd (fmt & _ & Hdir & _ & Hf)].
  split; [unfold isdir in *; by rewrite Hd|]. split; [|split; [done|]].
  - rewrite Hf, lookup_insert_eq. eauto.
  - intros q Hq. rewrite Hf. destruct (decide (p = q)) as [->|Hne].
    + rewrite lookup_insert_eq. eauto.
    + by rewrite lookup_insert_ne.
Qed.

(** After a successful call each returned map path holds a picture. *)
Lemma unpack_orm_ok_pictures input out name ir im ah fs fs' ao rr mm hh :
  unpack_orm input out name ir im ah fs = (fs', Ok (ao, rr, mm, hh)) →
  Forall (fun p => String.eqb p "" = false ∧ isdir fs' p = false
                   ∧ ∃ fmt im, files fs' !! p = Some (Picture fmt im))
         [ao; rr; mm].
Proof.
  intros Hrun.
  assert (Hok : path_present fs out = true ∨ can_make fs out = true).
  { destruct (path_present fs out) eqn:Hp; [by left|].
    destruct (can_make fs out) eqn:Hc; [by right|].
    destruct (unpack_orm_no_dir input out name ir im ah fs Hp Hc) as [c Hno].
    rewrite Hno in Hrun. discriminate. }
  rewrite unpack_orm_via_dir in Hrun by done.
  unfold unpack_orm in Hrun.
  rewrite dir_phase, (with_out_dir_present _ _ Hok) in Hrun.
  unfold bind, lift, raise, ret in Hrun.
  fold (out_path out input "_AO.png") (out_path out input "_Roughness.png")
       (out_path out input "_Metallic.png") (out_path out input "_Height.png")
    in Hrun.
  destruct (load_image_rgb_or_rgba input _) as [f0 [img|e1]]; [|discriminate].
  destruct (dict_get PRESETS name) as [[[a r] m]|]; [|discriminate].
  destruct (channel_by_letter img a); [|discriminate].
  destruct (channel_by_letter img r); [|discriminate].
  destruct (channel_by_letter img m); [|discriminate].
  destruct (save_grayscale _ _ f0) as [f1 [[]|?]] eqn:E1; [|discriminate].
  destruct (save_grayscale _ _ f1) as [f2 [[]|?]] eqn:E2; [|discriminate].
  destruct (save_grayscale _ _ f2) as [f3 [[]|?]] eqn:E3; [|discriminate].
  apply save_ok_picture in E1 as (D1 & P1 & Hd1 & _).
  apply save_ok_picture in E2 as (D2 & P2 & Hd2 & K2).
  apply save_ok_picture in E3 as (D3 & P3 & Hd3 & K3).
  assert (Hthree : Forall (fun p => String.eqb p "" = false ∧ isdir f3 p = false
                     ∧ ∃ fmt im, files f3 !! p = Some (Picture fmt im))
            [out_path out input "_AO.png"; out_path out input "_Roughness.png";
             out_path out input "_Metallic.png"]).
  { unfold isdir in *. rewrite Hd3, Hd2 in *.
    repeat constructor; try (apply out_path_nonempty; unfold suffixes; in_list);
      auto. }
  destruct (ah && String.eqb (mode img) "RGBA").
  - destruct (split img) as [|c1 [|c2 [|c3 [|c4 [|c5 cs]]]]]; try discriminate.
    destruct (save_grayscale _ _ f3) as [f4 [[]|?]] eqn:E4; [|discriminate].
    apply save_ok_picture in E4 as (_ & _ & Hd4 & K4).
    injection Hrun as <- <- <- <- _.
    eapply Forall_impl; [exact Hthree|]. cbn beta.
    intros p (Hne & Hdir & Hpic). unfold isdir in *. rewrite Hd4. auto.
  - injection Hrun as <- <- <- <- _. exact Hthree.
Qed.

(** The preview of three non-empty paths that hold pictures draws the
    three thumbnails and changes nothing. *)
Lemma update_preview_pictures ao rr mm fs :
  Forall (fun p => String.eqb p "" = false ∧ isdir fs p = false
                   ∧ ∃ fmt im, files fs !! p = Some (Picture fmt im))
         [ao; rr; mm] →
  ∃ ta tr tm,
    update_preview (Some ao) (Some rr) (Some mm) fs
    = (fs, Ok (PreviewThumbs ta tr tm)).
Proof.
  intros Hall.
  apply Forall_cons in Hall as [(N1 & D1 & f1 & i1 & F1) Hall].
  apply Forall_cons in Hall as [(N2 & D2 & f2 & i2 & F2) Hall].
  apply Forall_cons in Hall as [(N3 & D3 & f3 & i3 & F3) _].
  unfold update_preview, path_truthy. rewrite N1, N2, N3. cbn [negb andb].
  unfold bind, load_thumb, bind, ret, Image_open.
  rewrite D1, F1, D2, F2, D3, F3. eauto.
Qed.

(** X21: After a successful call the preview of the returned paths never
    fails and never shows "unavailable"; it changes no file. *)
Theorem update_preview_after_unpack input out name ir im ah fs fs' ao rr mm hh :
  unpack_orm input out name ir im ah fs = (fs', Ok (ao, rr, mm, hh)) →
  ∃ ta tr tm,
    update_preview (Some ao) (Some rr) (Some mm) fs'
    = (fs', Ok (PreviewThumbs ta tr tm)).
Proof.
  intros Hrun. apply update_preview_pictures.
  eapply unpack_orm_ok_pictures. exact Hrun.
Qed.

(** The loop of [process_texture] with its call of [update_preview], on
    any list of images and from any count: it ends as the loop without
    the preview. *)
Lemma preview_loop_agrees cfg xs c first fs :
  for_each xs
    (fun img_path '(count, first_preview_set) =>
       r <~ process_single cfg img_path ;;
       let '(ao, rr, mm, hh) := r in
       if negb first_preview_set then
         update_preview (Some ao) (Some rr) (Some mm) ;;;
         ret (count + 1, true)
       else ret (count + 1, first_preview_set))
    (c, bool_decide (is_Some first)) fs
  = match for_each xs (preview_one cfg) (c, first) fs with
    | (fs', Ok (n, first')) => (fs', Ok (n, bool_decide (is_Some first')))
    | (fs', Raise e) => (fs', Raise e)
    end.
Proof.
  match goal with |- for_each _ ?b _ _ = _ => set (body := b) end.
  revert fs c first. induction xs as [|x xs IH]; intros fs c first; [done|].
  cbn [for_each]. unfold bind.
  unfold body at 1, preview_one at 1. cbv beta iota. unfold bind.
  destruct (process_single cfg x fs) as [f1 [[[[ao rr] mm] hh]|e]] eqn:Hp;
    [|done].
  destruct first as [v|].
  - change (bool_decide (is_Some (Some v))) with true. cbn [negb].
    unfold ret at 1 2. apply (IH f1 (c + 1) (Some v)).
  - change (bool_decide (is_Some (@None (string * string * string)))) with false.
    cbn [negb]. unfold process_single in Hp.
    destruct (update_preview_pictures _ _ _ _
                (unpack_orm_ok_pictures _ _ _ _ _ _ _ _ _ _ _ _ Hp))
      as (ta & tr & tm & Hprev).
    rewrite Hprev. unfold ret at 1 2.
    apply (IH f1 (c + 1) (Some (ao, rr, mm))).
Qed.

(** X22: The call of [update_preview] in the batch loop never fails and
    changes nothing: the loop with it ends as the loop without it. *)
Theorem process_texture_loop_batch cfg tree input_sel fs :
  process_texture_loop cfg tree input_sel fs
  = match process_texture_batch cfg tree input_sel fs with
    | (fs', Ok (n, first)) => (fs', Ok (n, bool_decide (is_Some first)))
    | (fs', Raise e) => (fs', Raise e)
    end.
Proof.
  unfold process_texture_loop. rewrite process_texture_batch_eq.
  unfold iter_images_in_folder.
  exact (preview_loop_agrees cfg _ 0 None fs).
Qed.

(** X16: A batch stops at the first image that fails, on the command
    line and in the form alike: the exception of that call is the
    outcome of the batch, the file system is as that call left it, so
    that the images found after it are not touched, and the images
    before it are the ones counted. *)
Theorem batch_stops_at_first_failure cfg tree folder xs x ys fs f1 f2 n e :
  iter_images_in_folder tree folder = xs ++ x :: ys →
  for_each xs (count_one cfg) 0 fs = (f1, Ok n) →
  process_single cfg x f1 = (f2, Raise e) →
  run_cli_batch cfg tree folder fs = (f2, Raise e)
  ∧ n = Z.of_nat (length xs)
  ∧ process_texture_batch cfg tree folder fs = (f2, Raise e)
  ∧ process_texture_loop cfg tree folder fs = (f2, Raise e).
Proof.
  intros Hfound Hxs Hx.
  assert (Hform : for_each (xs ++ x :: ys) (preview_one cfg) (0, None) fs
                  = (f2, Raise e)).
  { rewrite for_each_app. unfold bind at 1.
    assert (Hsame : ∀ c first,
      ∃ first', for_each xs (preview_one cfg) (c, first) fs
                = (f1, Ok (c + Z.of_nat (length xs), first'))).
    { intros c first. clear Hfound Hx. revert c first fs n Hxs.
      generalize 0 at 1. induction xs as [|y xs IH]; intros c0 c first fs n Hxs.
      - cbn in *. unfold ret in *. injection Hxs as <- _.
        exists first. do 3 f_equal. lia.
      - cbn [for_each] in *. unfold bind in *.
        destruct (count_one cfg y c0 fs) as [fy [cy|ey]] eqn:Hy; [|discriminate].
        apply count_one_inv in Hy as [-> [[[[ao rr] mm] hh] Hy]].
        unfold preview_one at 1, bind, ret. rewrite Hy.
        destruct (IH _ (c + 1)
                    (match first with
                     | None => Some (ao, rr, mm)
                     | Some _ => first
                     end) fy n Hxs) as [first' Hrun].
        exists first'. rewrite Hrun. do 3 f_equal. cbn [length]. lia. }
    destruct (Hsame 0 None) as [first' Hrun]. rewrite Hrun.
    cbn [for_each]. unfold bind, preview_one at 1, bind. by rewrite Hx. }
  split; [|split; [|split]].
  - rewrite run_cli_batch_eq. unfold iter_images_in_folder in Hfound.
    rewrite Hfound. eapply for_each_raise; [exact Hxs|].
    unfold count_one, bind. by rewrite Hx.
  - apply for_each_count in Hxs. lia.
  - rewrite process_texture_batch_eq. unfold iter_images_in_folder in Hfound.
    by rewrite Hfound.
  - unfold process_texture_loop. rewrite Hfound.
    change false with (bool_decide (is_Some (@None (string * string * string)))).
    rewrite (preview_loop_agrees cfg (xs ++ x :: ys) 0 None fs).
    by rewrite Hform.
Qed.

(** X23: [process_texture] never lets an exception out: with an empty input
    or output path it warns and does nothing; otherwise whatever the
    unpacking raises ends in the error dialog that carries it. *)
Theorem process_texture_catches st tree fs :
  (∃ fs' d, process_texture st tree fs = (fs', Ok d))
  ∧ (texture_path st = "" ∨ out_dir (settings st) = "" →
     process_texture st tree fs = (fs, Ok warn_missing_information))
  ∧ (texture_path st ≠ "" → out_dir (settings st) ≠ "" →
     batch_mode st = false → isfile fs (texture_path st) = true →
     ∀ fs' e, process_single (settings st) (texture_path st) fs = (fs', Raise e) →
              process_texture st tree fs = (fs', Ok (error_occurred e))).
Proof.
  split; [|split].
  - unfold process_texture.
    destruct (String.eqb (texture_path st) "" || String.eqb (out_dir (settings st)) "");
      [unfold ret; eauto|].
    unfold catch.
    match goal with
    | |- context [match ?c fs with _ => _ end] =>
        destruct (c fs) as [f [d|e]]
    end; unfold ret; eauto.
  - intros Hempty. unfold process_texture.
    assert (String.eqb (texture_path st) "" || String.eqb (out_dir (settings st)) ""
            = true) as ->; [|done].
    destruct Hempty as [-> | ->]; [done|apply orb_true_r].
  - intros Hin Hout Hb Hf fs' e Hp. unfold process_texture.
    apply String.eqb_neq in Hin, Hout. rewrite Hin, Hout, Hb. cbn [orb].
    unfold catch, bind, os_path_isfile, ret. cbv beta iota. rewrite Hf.
    cbn [negb]. by rewrite Hp.
Qed.

(** X24: A batch of the form over a tree without a supported file shows "no
    images" and leaves the file system untouched: the output directory
    is not even made. *)
Theorem process_texture_empty_batch st tree fs :
  texture_path st ≠ "" → out_dir (settings st) ≠ "" →
  batch_mode st = true →
  isdir fs (texture_path st) = true →
  count_supported tree = 0%nat →
  process_texture st tree fs = (fs, Ok info_no_images).
Proof.
  intros Hin Hout Hb Hd Hz. unfold process_texture.
  apply String.eqb_neq in Hin, Hout. rewrite Hin, Hout, Hb. cbn [orb].
  unfold catch, bind at 1, os_path_isdir. rewrite Hd. cbn [negb].
  unfold bind, process_texture_loop.
  pose proof (images_found_count (texture_path st) tree) as Hcount.
  rewrite Hz in Hcount. apply nil_length_inv in Hcount.
  unfold iter_images_in_folder. by rewrite Hcount.
Qed.

(** X25: The form on one file: the maps are written as by [unpack_orm], the
    preview is drawn, and the dialog lists the three or four paths. *)
Theorem process_texture_single st tree fs img a r m ia ir' im' :
  texture_path st ≠ "" → out_dir (settings st) ≠ "" →
  batch_mode st = false →
  load_image_rgb_or_rgba (texture_path st) fs = (fs, Ok img) →
  wf_image img = true →
  dict_get PRESETS (preset (settings st)) = Some (a, r, m) →
  letter_index a = Some ia → letter_index r = Some ir' →
  letter_index m = Some im' →
  out_dir_usable fs (out_dir (settings st)) = true →
  targets_free fs (texture_path st) (out_dir (settings st)) = true →
  process_texture st tree fs
  = (unpacked (with_out_dir fs (out_dir (settings st))) (out_dir (settings st))
              (texture_path st) img ia ir' im' (invert_rough (settings st))
              (invert_metal (settings st)) (alpha_height (settings st)),
     Ok (info_saved
           ([out_path (out_dir (settings st)) (texture_path st) "_AO.png";
             out_path (out_dir (settings st)) (texture_path st) "_Roughness.png";
             out_path (out_dir (settings st)) (texture_path st) "_Metallic.png"]
            ++ (if has_height img (alpha_height (settings st))
                then [out_path (out_dir (settings st)) (texture_path st)
                               "_Height.png"]
                else [])))).
Proof.
  intros Hin Hout Hb Hload Hwf Hpre Ha Hr Hm Hu Hfree.
  pose proof (unpack_orm_ok_run (texture_path st) (out_dir (settings st))
                (preset (settings st)) (invert_rough (settings st))
                (invert_metal (settings st)) (alpha_height (settings st))
                fs img a r m ia ir' im'
                Hload Hwf Hpre Ha Hr Hm Hu Hfree) as Hrun.
  pose proof (truthy_returned (out_dir (settings st)) (texture_path st) img
                (alpha_height (settings st))) as Hparts.
  unfold returned in Hrun, Hparts.
  destruct (update_preview_pictures _ _ _ _
              (unpack_orm_ok_pictures _ _ _ _ _ _ _ _ _ _ _ _ Hrun))
    as (ta & tr & tm & Hprev).
  apply load_image_inv in Hload as (_ & _ & fmt & raw & Hfile & _).
  assert (Hf : isfile fs (texture_path st) = true).
  { unfold isfile. rewrite Hfile. apply bool_decide_eq_true_2. eauto. }
  unfold process_texture.
  apply String.eqb_neq in Hin, Hout. rewrite Hin, Hout, Hb. cbn [orb].
  unfold catch, bind, os_path_isfile, ret. cbv beta iota. rewrite Hf.
  cbn [negb]. unfold process_single. rewrite Hrun. cbv beta iota.
  rewrite Hprev. by rewrite Hparts.
Qed.

End CallerFacts.

(** ** The batch walks on the file system *)

(** *** Paths of entries *)

Section EntryPaths.
Import PyStr PyStrFacts PathFacts os_path.
















(** *** The directories reached and the images under them *)




Lemma reached_same fs fs' top d :
  dirs fs' = dirs fs → reached fs top d → reached fs' top d.
Proof.
  intros Hd. assert (His : ∀ q, isdir fs' q = isdir fs q)
    by (intros q; unfold isdir; by rewrite Hd).
  induction 1; [apply reached_top|apply reached_sub]; rewrite ?His; done.
Qed.







End EntryPaths.

(** *** The walk as one loop over the images it finds *)

Section WalkFacts.
Context `{Pillow} `{Listing}.
Import PyStr PyStrFacts PathFacts os_path.











(** *** What the calls of a batch do to the file system *)








(** *** Fuel *)




End WalkFacts.

(** ** The further properties on the concrete inputs *)

Section OnScenes.
Import Sample Scenes PyStr os_path.
#[local] Existing Instance reference_pillow.

Lemma maybe_invert_involutive_witness :
  Forall (Forall is_byte) (bands wall)
  ∧ maybe_invert (maybe_invert wall true) true = wall.
Proof.
  assert (H1 : Forall (Forall is_byte) (bands wall)).
  { cbn [bands wall replicate].
    repeat first [apply Forall_nil_2 | apply Forall_cons_2];
      unfold is_byte; lia. }
  split; [exact H1|]. exact (maybe_invert_involutive wall H1).
Defined.

Lemma maybe_invert_shape_witness :
  wf_image (gray wall (replicate 4 10)) = true
  ∧ Forall (Forall is_byte) (bands (gray wall (replicate 4 10)))
  ∧ wf_image (maybe_invert (gray wall (replicate 4 10)) true) = true
  ∧ Forall (Forall is_byte) (bands (maybe_invert (gray wall (replicate 4 10)) true)).
Proof.
  assert (H1 : wf_image (gray wall (replicate 4 10)) = true)
    by (vm_compute; reflexivity).
  assert (H2 : Forall (Forall is_byte) (bands (gray wall (replicate 4 10)))).
  { cbn [bands gray replicate].
    repeat first [apply Forall_nil_2 | apply Forall_cons_2];
      unfold is_byte; lia. }
  destruct (maybe_invert_shape (gray wall (replicate 4 10)) true)
    as (_ & _ & _ & Hwf & Hbytes & _).
  do 2 (split; [assumption|]). split; [exact (Hwf H1)|exact (Hbytes H2)].
Defined.

Lemma channel_by_letter_cases_witness :
  (3 ≤ length (bands wall))%nat
  ∧ letter_index "G" = Some 1%nat
  ∧ channel_by_letter wall "G" = Ok (gray wall (replicate 4 20))
  ∧ channel_by_letter wall "A" = Raise (KeyError "A")
  ∧ length (bands sprite) = 1%nat
  ∧ channel_by_letter sprite "R"
    = Raise (ValueError "not enough values to unpack (expected 3, got 1)").
Proof.
  assert (H1 : (3 ≤ length (bands wall))%nat) by (cbn; lia).
  assert (H2 : letter_index "G" = Some 1%nat) by (vm_compute; reflexivity).
  assert (H3 : letter_index "A" = None) by (vm_compute; reflexivity).
  assert (H4 : length (bands sprite) = 1%nat) by reflexivity.
  do 2 (split; [assumption|]).
  destruct (channel_by_letter_cases wall "G") as (_ & _ & _ & _ & Hok).
  destruct (channel_by_letter_cases wall "A") as (_ & _ & _ & Hkey & _).
  destruct (channel_by_letter_cases sprite "R") as (Hone & _).
  split; [exact (proj2 (Hok H1 1%nat H2))|].
  split; [exact (Hkey H1 H3)|]. split; [exact H4|exact (Hone H4)].
Defined.

Lemma preset_uses_each_band_witness :
  dict_get PRESETS MRA = Some ("B", "G", "R")
  ∧ NoDup ["B"; "G"; "R"]
  ∧ ∃ l, l ∈ ["B"; "G"; "R"] ∧ letter_index l = Some 0%nat.
Proof.
  assert (H1 : dict_get PRESETS MRA = Some ("B", "G", "R"))
    by (vm_compute; reflexivity).
  destruct (preset_uses_each_band MRA "B" "G" "R" H1) as [Hnodup Hall].
  split; [exact H1|]. split; [exact Hnodup|]. apply Hall. lia.
Defined.

(** A file named [.png] has no extension: it is not picked up. *)
Lemma supported_needs_extension_witness :
  all_are extsep "." = true
  ∧ contains extsep "png" = false
  ∧ contains sep "png" = false
  ∧ supported ".png" = false.
Proof.
  assert (H1 : all_are extsep "." = true) by (vm_compute; reflexivity).
  assert (H2 : contains extsep "png" = false) by (vm_compute; reflexivity).
  assert (H3 : contains sep "png" = false) by (vm_compute; reflexivity).
  do 3 (split; [assumption|]).
  exact (proj2 (supported_needs_extension "." "png" H1 H2 H3)).
Defined.

(** Two inputs of one batch that write to the same files. *)
Lemma out_path_collision_witness :
  file_name_parts "wall" "png" = true
  ∧ file_name_parts "wall" "tga" = true
  ∧ String.eqb "tex/" "" || endswith sep "tex/" = true
  ∧ String.eqb "tex/old/" "" || endswith sep "tex/old/" = true
  ∧ out_path "out" "tex/wall.png" "_AO.png"
    = out_path "out" "tex/old/wall.tga" "_AO.png".
Proof.
  assert (H1 : file_name_parts "wall" "png" = true) by (vm_compute; reflexivity).
  assert (H2 : file_name_parts "wall" "tga" = true) by (vm_compute; reflexivity).
  assert (H3 : String.eqb "tex/" "" || endswith sep "tex/" = true)
    by (vm_compute; reflexivity).
  assert (H4 : String.eqb "tex/old/" "" || endswith sep "tex/old/" = true)
    by (vm_compute; reflexivity).
  do 4 (split; [assumption|]).
  exact (out_path_collision "tex/" "tex/old/" "wall" "png" "tga" "out" "_AO.png"
           H1 H2 H3 H4).
Defined.

Lemma unpack_orm_frame_witness :
  ("tex/notes.txt" ∉ map (out_path "out" "tex/wall.png") suffixes)
  ∧ files (fst (unpack_orm "tex/wall.png" "out" MRA false true true fs_tex))
      !! "tex/notes.txt" = Some Blob.
Proof.
  assert (H1 : "tex/notes.txt" ∉ map (out_path "out" "tex/wall.png") suffixes).
  { unfold suffixes. cbn [map]. intros Hin.
    list_cases; vm_compute in Hin; discriminate Hin. }
  split; [exact H1|].
  destruct (unpack_orm_frame "tex/wall.png" "out" MRA false true true fs_tex)
    as (Hfiles & _).
  rewrite (Hfiles _ H1). vm_compute. reflexivity.
Defined.

(** The maps written beside the input leave the input as it was. *)
Lemma unpack_orm_keeps_input_witness :
  "_AO.png" ∈ suffixes
  ∧ "tex/wall.png" ≠ out_path "tex" "tex/wall.png" "_AO.png"
  ∧ files (fst (unpack_orm "tex/wall.png" "tex" MRA false true true fs_tex))
      !! "tex/wall.png" = Some (Picture "PNG" wall).
Proof.
  assert (H1 : "_AO.png" ∈ suffixes) by (unfold suffixes; in_list).
  destruct (unpack_orm_keeps_input "tex/wall.png" "tex" MRA false true true fs_tex)
    as (Hkept & Hother).
  split; [exact H1|]. split; [exact (Hother _ H1)|].
  rewrite Hkept. vm_compute. reflexivity.
Defined.

Lemma unpack_orm_idempotent_witness :
  load_image_rgb_or_rgba "tex/wall.png" fs_tex = (fs_tex, Ok wall)
  ∧ wf_image wall = true
  ∧ dict_get PRESETS MRA = Some ("B", "G", "R")
  ∧ ∃ fs',
      unpack_orm "tex/wall.png" "out" MRA false true true fs_tex
      = (fs', Ok ("out/wall_AO.png", "out/wall_Roughness.png",
                  "out/wall_Metallic.png", Some "out/wall_Height.png"))
      ∧ unpack_orm "tex/wall.png" "out" MRA false true true fs'
        = (fs', Ok ("out/wall_AO.png", "out/wall_Roughness.png",
                    "out/wall_Metallic.png", Some "out/wall_Height.png")).
Proof.
  assert (H1 : load_image_rgb_or_rgba "tex/wall.png" fs_tex = (fs_tex, Ok wall))
    by (vm_compute; reflexivity).
  assert (H2 : wf_image wall = true) by (vm_compute; reflexivity).
  assert (H3 : dict_get PRESETS MRA = Some ("B", "G", "R"))
    by (vm_compute; reflexivity).
  do 3 (split; [assumption|]).
  exists (fst (unpack_orm "tex/wall.png" "out" MRA false true true fs_tex)).
  assert (Hrun : unpack_orm "tex/wall.png" "out" MRA false true true fs_tex
                 = (fst (unpack_orm "tex/wall.png" "out" MRA false true true fs_tex),
                    Ok ("out/wall_AO.png", "out/wall_Roughness.png",
                        "out/wall_Metallic.png", Some "out/wall_Height.png"))).
  { rewrite (surjective_pairing (unpack_orm _ _ _ _ _ _ _)) at 1.
    apply pair_equal_spec. split; [reflexivity|vm_compute; reflexivity]. }
  split; [exact Hrun|].
  exact (unpack_orm_idempotent _ _ _ _ _ _ _ _ _ _ _ _ _ H1 H2 H3 Hrun).
Defined.

Lemma unpack_orm_exceptions_witness :
  (∀ fmt raw, files fs_blocked !! "tex/old/sprite.PNG" = Some (Picture fmt raw) →
              wf_image raw = true)
  ∧ ∃ fs',
      unpack_orm "tex/old/sprite.PNG" "out" MRA false false false fs_blocked
      = (fs', Raise (OSError sys_open_write EISDIR "out/sprite_Roughness.png"))
      ∧ ((∃ c, OSError sys_open_write EISDIR "out/sprite_Roughness.png"
               = OSError sys_mkdir c "out" ∧ fs' = fs_blocked)
         ∨ (is_decode_error
              (OSError sys_open_write EISDIR "out/sprite_Roughness.png") = true
            ∧ fs' = with_out_dir fs_blocked "out")
         ∨ (OSError sys_open_write EISDIR "out/sprite_Roughness.png"
            = unknown_preset_error MRA
            ∧ dict_get PRESETS MRA = None
            ∧ fs' = with_out_dir fs_blocked "out")
         ∨ (∃ c sfx, sfx ∈ suffixes
              ∧ OSError sys_open_write EISDIR "out/sprite_Roughness.png"
                = OSError sys_open_write c
                          (out_path "out" "tex/old/sprite.PNG" sfx))).
Proof.
  assert (H1 : ∀ fmt raw,
            files fs_blocked !! "tex/old/sprite.PNG" = Some (Picture fmt raw) →
            wf_image raw = true).
  { assert (Hl : files fs_blocked !! "tex/old/sprite.PNG"
                 = Some (Picture "PNG" sprite)) by (vm_compute; reflexivity).
    intros fmt raw Hf. rewrite Hl in Hf. injection Hf as _ <-.
    vm_compute. reflexivity. }
  split; [exact H1|].
  exists (fst (unpack_orm "tex/old/sprite.PNG" "out" MRA false false false
                          fs_blocked)).
  assert (Hrun : unpack_orm "tex/old/sprite.PNG" "out" MRA false false false
                            fs_blocked
                 = (fst (unpack_orm "tex/old/sprite.PNG" "out" MRA
                                    false false false fs_blocked),
                    Raise (OSError sys_open_write EISDIR
                                   "out/sprite_Roughness.png"))).
  { rewrite (surjective_pairing (unpack_orm _ _ _ _ _ _ _)) at 1.
    apply pair_equal_spec. split; [reflexivity|vm_compute; reflexivity]. }
  split; [exact Hrun|].
  exact (unpack_orm_exceptions _ _ _ _ _ _ _ _ _ H1 Hrun).
Defined.

(** The sprite's AO map is on disk although the call failed. *)
Lemma unpack_orm_not_atomic_witness :
  load_image_rgb_or_rgba "tex/old/sprite.PNG" fs_blocked
  = (fs_blocked, Ok (normal_form sprite))
  ∧ wf_image (normal_form sprite) = true
  ∧ dict_get PRESETS MRA = Some ("B", "G", "R")
  ∧ path_present fs_blocked "out" = true
  ∧ writable (with_out_dir fs_blocked "out")
             (out_path "out" "tex/old/sprite.PNG" "_AO.png")
  ∧ isdir (with_out_dir fs_blocked "out")
          (out_path "out" "tex/old/sprite.PNG" "_Roughness.png") = true
  ∧ isfile fs_blocked "out/sprite_AO.png" = false
  ∧ isfile (fst (unpack_orm "tex/old/sprite.PNG" "out" MRA false false false
                            fs_blocked)) "out/sprite_AO.png" = true
  ∧ snd (unpack_orm "tex/old/sprite.PNG" "out" MRA false false false fs_blocked)
    = Raise (OSError sys_open_write EISDIR "out/sprite_Roughness.png").
Proof.
  assert (H1 : load_image_rgb_or_rgba "tex/old/sprite.PNG" fs_blocked
               = (fs_blocked, Ok (normal_form sprite)))
    by (vm_compute; reflexivity).
  assert (H2 : wf_image (normal_form sprite) = true) by (vm_compute; reflexivity).
  assert (H3 : dict_get PRESETS MRA = Some ("B", "G", "R"))
    by (vm_compute; reflexivity).
  assert (H4 : path_present fs_blocked "out" = true) by (vm_compute; reflexivity).
  assert (H5 : writable (with_out_dir fs_blocked "out")
                        (out_path "out" "tex/old/sprite.PNG" "_AO.png"))
    by (split; vm_compute; reflexivity).
  assert (H6 : isdir (with_out_dir fs_blocked "out")
                     (out_path "out" "tex/old/sprite.PNG" "_Roughness.png") = true)
    by (vm_compute; reflexivity).
  assert (H7 : isfile fs_blocked "out/sprite_AO.png" = false)
    by (vm_compute; reflexivity).
  do 7 (split; [assumption|]).
  destruct (unpack_orm_not_atomic "tex/old/sprite.PNG" "out" MRA false false false
              fs_blocked (normal_form sprite) "B" "G" "R"
              H1 H2 H3 (or_introl H4) H5 H6) as (ia & _ & Hrun).
  rewrite Hrun. cbn [fst snd].
  split; [|vm_compute; reflexivity].
  unfold isfile, put. cbn [files]. rewrite lookup_insert_eq.
  apply bool_decide_eq_true_2. eauto.
Defined.

Lemma unpack_orm_out_is_file_witness :
  load_image_rgb_or_rgba "tex/wall.png" fs_out_file = (fs_out_file, Ok wall)
  ∧ wf_image wall = true
  ∧ dict_get PRESETS MRA = Some ("B", "G", "R")
  ∧ isfile fs_out_file "out" = true
  ∧ isdir fs_out_file "out" = false
  ∧ ∃ c, unpack_orm "tex/wall.png" "out" MRA false false false fs_out_file
         = (fs_out_file,
            Raise (OSError sys_open_write c
                           (out_path "out" "tex/wall.png" "_AO.png"))).
Proof.
  assert (H1 : load_image_rgb_or_rgba "tex/wall.png" fs_out_file
               = (fs_out_file, Ok wall)) by (vm_compute; reflexivity).
  assert (H2 : wf_image wall = true) by (vm_compute; reflexivity).
  assert (H3 : dict_get PRESETS MRA = Some ("B", "G", "R"))
    by (vm_compute; reflexivity).
  assert (H4 : isfile fs_out_file "out" = true) by (vm_compute; reflexivity).
  assert (H5 : isdir fs_out_file "out" = false) by (vm_compute; reflexivity).
  assert (H6 : String.eqb "out" "" = false) by (vm_compute; reflexivity).
  assert (H7 : endswith sep "out" = false) by (vm_compute; reflexivity).
  do 5 (split; [assumption|]).
  exact (unpack_orm_out_is_file "tex/wall.png" "out" MRA false false false
           fs_out_file wall "B" "G" "R" H1 H2 H3 H4 H5 H6 H7).
Defined.

(** The wall is unpacked, the sprite fails, and the batch ends there. *)
Lemma batch_stops_at_first_failure_witness :
  iter_images_in_folder tree "tex" = ["tex/wall.png"] ++ ["tex/old/sprite.PNG"]
  ∧ ∃ f1 f2,
      for_each ["tex/wall.png"] (count_one cfg) 0 fs_blocked = (f1, Ok 1)
      ∧ process_single cfg "tex/old/sprite.PNG" f1
        = (f2, Raise (OSError sys_open_write EISDIR "out/sprite_Roughness.png"))
      ∧ run_cli_batch cfg tree "tex" fs_blocked
        = (f2, Raise (OSError sys_open_write EISDIR "out/sprite_Roughness.png"))
      ∧ process_texture_loop cfg tree "tex" fs_blocked
        = (f2, Raise (OSError sys_open_write EISDIR "out/sprite_Roughness.png")).
Proof.
  assert (H1 : iter_images_in_folder tree "tex"
               = ["tex/wall.png"] ++ ["tex/old/sprite.PNG"])
    by (vm_compute; reflexivity).
  split; [exact H1|].
  set (f1 := fst (for_each ["tex/wall.png"] (count_one cfg) 0 fs_blocked)).
  set (f2 := fst (process_single cfg "tex/old/sprite.PNG" f1)).
  assert (H2 : for_each ["tex/wall.png"] (count_one cfg) 0 fs_blocked = (f1, Ok 1)).
  { unfold f1. rewrite (surjective_pairing (for_each _ _ _ _)) at 1.
    apply pair_equal_spec. split; [reflexivity|vm_compute; reflexivity]. }
  assert (H3 : process_single cfg "tex/old/sprite.PNG" f1
               = (f2, Raise (OSError sys_open_write EISDIR
                                     "out/sprite_Roughness.png"))).
  { unfold f2. rewrite (surjective_pairing (process_single _ _ _)) at 1.
    apply pair_equal_spec. split; [reflexivity|vm_compute; reflexivity]. }
  exists f1, f2. split; [exact H2|]. split; [exact H3|].
  destruct (batch_stops_at_first_failure cfg tree "tex" ["tex/wall.png"]
              "tex/old/sprite.PNG" [] fs_blocked f1 f2 1 _ H1 H2 H3)
    as (Hcli & _ & _ & Hform).
  split; [exact Hcli|exact Hform].
Defined.

(** [--batch] on a file ends at once; without [--batch] a missing input
    is reported only after [out] has been made. *)
Lemma run_cli_input_checks_witness :
  isdir fs_tex "tex/wall.png" = false
  ∧ run_cli cli_batch_on_file tree fs_tex
    = (fs_tex, Ok (print_batch_needs_folder, 2))
  ∧ isfile fs_tex "tex/none.png" = false
  ∧ can_make fs_tex "out" = true
  ∧ isdir fs_tex "out" = false
  ∧ snd (run_cli cli_missing tree fs_tex) = Ok (print_not_a_file, 2)
  ∧ isdir (fst (run_cli cli_missing tree fs_tex)) "out" = true.
Proof.
  assert (H1 : isdir fs_tex "tex/wall.png" = false) by (vm_compute; reflexivity).
  assert (H2 : isfile fs_tex "tex/none.png" = false) by (vm_compute; reflexivity).
  assert (H3 : can_make fs_tex "out" = true) by (vm_compute; reflexivity).
  assert (H4 : isdir fs_tex "out" = false) by (vm_compute; reflexivity).
  destruct (run_cli_input_checks cli_batch_on_file tree fs_tex) as (Hbatch & _).
  destruct (run_cli_input_checks cli_missing tree fs_tex) as (_ & Hfile & _).
  destruct (Hfile eq_refl H2 H3) as [Hrun Hmade].
  split; [exact H1|]. split; [exact (Hbatch eq_refl H1)|].
  do 3 (split; [assumption|]).
  split; [by rewrite Hrun|exact Hmade].
Defined.

Lemma run_cli_never_unknown_preset_witness :
  preset_choice cli_sprite
  ∧ ∃ fs',
      run_cli cli_sprite tree fs_blocked
      = (fs', Raise (OSError sys_open_write EISDIR "out/sprite_Roughness.png"))
      ∧ ∀ n, OSError sys_open_write EISDIR "out/sprite_Roughness.png"
             ≠ unknown_preset_error n.
Proof.
  assert (H1 : preset_choice cli_sprite).
  { unfold preset_choice. cbn [arg_preset cli_sprite map fst PRESETS]. in_list. }
  split; [exact H1|].
  exists (fst (run_cli cli_sprite tree fs_blocked)).
  assert (Hrun : run_cli cli_sprite tree fs_blocked
                 = (fst (run_cli cli_sprite tree fs_blocked),
                    Raise (OSError sys_open_write EISDIR
                                   "out/sprite_Roughness.png"))).
  { rewrite (surjective_pairing (run_cli _ _ _)) at 1.
    apply pair_equal_spec. split; [reflexivity|vm_compute; reflexivity]. }
  split; [exact Hrun|].
  exact (run_cli_never_unknown_preset _ _ _ _ _ H1 Hrun).
Defined.

Lemma run_cli_single_witness :
  path_present fs_tex "out" = false
  ∧ out_dir_usable fs_tex "out" = true
  ∧ load_image_rgb_or_rgba "tex/wall.png" fs_tex = (fs_tex, Ok wall)
  ∧ wf_image wall = true
  ∧ dict_get PRESETS MRA = Some ("B", "G", "R")
  ∧ targets_free fs_tex "tex/wall.png" "out" = true
  ∧ snd (run_cli cli_wall tree fs_tex)
    = Ok (print_saved ["out/wall_AO.png"; "out/wall_Roughness.png";
                       "out/wall_Metallic.png"; "out/wall_Height.png"], 0)
  ∧ Image_open "out/wall_Metallic.png" (fst (run_cli cli_wall tree fs_tex))
    = (fst (run_cli cli_wall tree fs_tex), Ok (gray wall (replicate 4 245))).
Proof.
  assert (H1 : path_present fs_tex "out" = false) by (vm_compute; reflexivity).
  assert (H2 : out_dir_usable fs_tex "out" = true) by (vm_compute; reflexivity).
  assert (H3 : load_image_rgb_or_rgba "tex/wall.png" fs_tex = (fs_tex, Ok wall))
    by (vm_compute; reflexivity).
  assert (H4 : wf_image wall = true) by (vm_compute; reflexivity).
  assert (H5 : dict_get PRESETS MRA = Some ("B", "G", "R"))
    by (vm_compute; reflexivity).
  assert (H6 : targets_free fs_tex "tex/wall.png" "out" = true)
    by (vm_compute; reflexivity).
  do 6 (split; [assumption|]).
  rewrite (run_cli_single cli_wall tree fs_tex wall "B" "G" "R" 2 1 0
             eq_refl H1 H2 H3 H4 H5 eq_refl eq_refl eq_refl H6).
  split; vm_compute; reflexivity.
Defined.

Lemma run_cli_empty_batch_witness :
  isdir fs_docs "docs" = true
  ∧ count_supported notes_only = 0%nat
  ∧ can_make fs_docs "out" = true
  ∧ snd (run_cli cli_docs notes_only fs_docs) = Ok (print_processed 0 "out", 0)
  ∧ isdir (fst (run_cli cli_docs notes_only fs_docs)) "out" = true.
Proof.
  assert (H1 : isdir fs_docs "docs" = true) by (vm_compute; reflexivity).
  assert (H2 : count_supported notes_only = 0%nat) by (vm_compute; reflexivity).
  assert (H3 : can_make fs_docs "out" = true) by (vm_compute; reflexivity).
  do 3 (split; [assumption|]).
  rewrite (run_cli_empty_batch cli_docs notes_only fs_docs eq_refl H1 H2 H3).
  split; vm_compute; reflexivity.
Defined.

Lemma update_preview_after_unpack_witness :
  ∃ fs',
    unpack_orm "tex/wall.png" "out" MRA false true true fs_tex
    = (fs', Ok ("out/wall_AO.png", "out/wall_Roughness.png",
                "out/wall_Metallic.png", Some "out/wall_Height.png"))
    ∧ ∃ ta tr tm,
        update_preview (Some "out/wall_AO.png") (Some "out/wall_Roughness.png")
                       (Some "out/wall_Metallic.png") fs'
        = (fs', Ok (PreviewThumbs ta tr tm)).
Proof.
  exists (fst (unpack_orm "tex/wall.png" "out" MRA false true true fs_tex)).
  assert (Hrun : unpack_orm "tex/wall.png" "out" MRA false true true fs_tex
                 = (fst (unpack_orm "tex/wall.png" "out" MRA false true true fs_tex),
                    Ok ("out/wall_AO.png", "out/wall_Roughness.png",
                        "out/wall_Metallic.png", Some "out/wall_Height.png"))).
  { rewrite (surjective_pairing (unpack_orm _ _ _ _ _ _ _)) at 1.
    apply pair_equal_spec. split; [reflexivity|vm_compute; reflexivity]. }
  split; [exact Hrun|].
  exact (update_preview_after_unpack _ _ _ _ _ _ _ _ _ _ _ _ Hrun).
Defined.

(** The failure on the sprite ends in the error dialog, not in an
    exception. *)
Lemma process_texture_catches_witness :
  texture_path form_sprite ≠ ""
  ∧ out_dir (settings form_sprite) ≠ ""
  ∧ isfile fs_blocked (texture_path form_sprite) = true
  ∧ ∃ fs',
      process_single (settings form_sprite) (texture_path form_sprite) fs_blocked
      = (fs', Raise (OSError sys_open_write EISDIR "out/sprite_Roughness.png"))
      ∧ process_texture form_sprite tree fs_blocked
        = (fs', Ok (error_occurred
                      (OSError sys_open_write EISDIR "out/sprite_Roughness.png"))).
Proof.
  assert (H1 : texture_path form_sprite ≠ "") by discriminate.
  assert (H2 : out_dir (settings form_sprite) ≠ "") by discriminate.
  assert (H3 : isfile fs_blocked (texture_path form_sprite) = true)
    by (vm_compute; reflexivity).
  do 3 (split; [assumption|]).
  exists (fst (process_single (settings form_sprite) (texture_path form_sprite)
                              fs_blocked)).
  assert (Hrun : process_single (settings form_sprite) (texture_path form_sprite)
                                fs_blocked
                 = (fst (process_single (settings form_sprite)
                                        (texture_path form_sprite) fs_blocked),
                    Raise (OSError sys_open_write EISDIR
                                   "out/sprite_Roughness.png"))).
  { rewrite (surjective_pairing (process_single _ _ _)) at 1.
    apply pair_equal_spec. split; [reflexivity|vm_compute; reflexivity]. }
  split; [exact Hrun|].
  destruct (process_texture_catches form_sprite tree fs_blocked)
    as (_ & _ & Hcaught).
  exact (Hcaught H1 H2 eq_refl H3 _ _ Hrun).
Defined.

Lemma process_texture_empty_batch_witness :
  texture_path form_docs ≠ ""
  ∧ out_dir (settings form_docs) ≠ ""
  ∧ isdir fs_docs (texture_path form_docs) = true
  ∧ count_supported notes_only = 0%nat
  ∧ process_texture form_docs notes_only fs_docs = (fs_docs, Ok info_no_images).
Proof.
  assert (H1 : texture_path form_docs ≠ "") by discriminate.
  assert (H2 : out_dir (settings form_docs) ≠ "") by discriminate.
  assert (H3 : isdir fs_docs (texture_path form_docs) = true)
    by (vm_compute; reflexivity).
  assert (H4 : count_supported notes_only = 0%nat) by (vm_compute; reflexivity).
  do 4 (split; [assumption|]).
  exact (process_texture_empty_batch form_docs notes_only fs_docs
           H1 H2 eq_refl H3 H4).
Defined.

Lemma process_texture_single_witness :
  texture_path form_wall ≠ ""
  ∧ out_dir (settings form_wall) ≠ ""
  ∧ load_image_rgb_or_rgba "tex/wall.png" fs_tex = (fs_tex, Ok wall)
  ∧ wf_image wall = true
  ∧ out_dir_usable fs_tex "out" = true
  ∧ targets_free fs_tex "tex/wall.png" "out" = true
  ∧ snd (process_texture form_wall tree fs_tex)
    = Ok (info_saved ["out/wall_AO.png"; "out/wall_Roughness.png";
                      "out/wall_Metallic.png"; "out/wall_Height.png"]).
Proof.
  assert (H1 : texture_path form_wall ≠ "") by discriminate.
  assert (H2 : out_dir (settings form_wall) ≠ "") by discriminate.
  assert (H3 : load_image_rgb_or_rgba "tex/wall.png" fs_tex = (fs_tex, Ok wall))
    by (vm_compute; reflexivity).
  assert (H4 : wf_image wall = true) by (vm_compute; reflexivity).
  assert (H5 : out_dir_usable fs_tex "out" = true) by (vm_compute; reflexivity).
  assert (H6 : targets_free fs_tex "tex/wall.png" "out" = true)
    by (vm_compute; reflexivity).
  do 6 (split; [assumption|]).
  rewrite (process_texture_single form_wall tree fs_tex wall "R" "G" "B" 0 1 2
             H1 H2 eq_refl H3 H4 eq_refl eq_refl eq_refl eq_refl H5 H6).
  vm_compute. reflexivity.
Defined.

End OnScenes.

(** ** The batch walks on the concrete inputs *)

Section OnWalk.
Import Sample Scenes PyStr os_path.
#[local] Existing Instance reference_pillow.
#[local] Existing Instance reference_listing.



End OnWalk.
